(** * PyrateView: a shallow embedding of the scripting layer

    PyrateView is a thin Python layer over the scripting interface of a 3D
    visualisation host.  This development embeds the repository's own
    code: the numeric utilities of [utils.py], the script text built by
    [scale_input], the action helpers of [actions.py], the wrappers of
    [things.py], the data-file wrapper of [datafile.py] and the entry
    point of [main.py].

    Conventions.
    - A Python [float] is an IEEE 754 binary64 number, embedded as a
      [spec_float] of the standard library with its correctly rounded
      operations; a Python [int] is a [Z].  The host keeps the points and
      the array the script of [scale_input] builds in 32-bit floats.
    - Numbers that the code only hands on to the host (a depth, a colour
      range, a resolution, a font size) are not computed with; they are
      kept as rationals or integers.
    - Python exceptions are values of [exn]; a computation that can raise
      returns [exn + A].
    - Code that talks to the host or to the operating system runs in the
      state-and-error monad [M] over a [world]. *)

From Stdlib Require Import ZArith QArith Qround Qabs Qpower Lia List Ascii.
From Stdlib Require Import SpecFloat Lqa.
From stdpp Require Import base option list strings gmap sets pretty.

Local Open Scope Z_scope.

(** ** Exceptions *)

Inductive exn : Type :=
  | AssertionError (msg : string)
  | TypeError (msg : string)
  | IndexError (msg : string)
  | ValueError (msg : string)
  | ZeroDivisionError (msg : string)
  | OverflowError (msg : string)
  | NameError (msg : string)
  | AttributeError (msg : string)
  | ModuleNotFoundError (name : string)
  | OSError (path : string)
  | RuntimeError (msg : string).

(** ** Numbers *)

(** *** Floats *)

Abbreviation float := spec_float.

(** The operations of binary64: 53 bits of precision, exponents below
    1024, rounding to nearest with ties to even. *)
Definition fadd : float -> float -> float := SFadd 53 1024.
Definition fsub : float -> float -> float := SFsub 53 1024.
Definition fmul : float -> float -> float := SFmul 53 1024.
Definition fdiv : float -> float -> float := SFdiv 53 1024.

(** [x < y] on floats; false when one of them is not a number. *)
Definition flt : float -> float -> bool := SFltb.

(** The float nearest to an integer; an infinity when the integer is
    beyond the largest float. *)
Definition float_of_Z (n : Z) : float := binary_normalize 53 1024 n 0 false.

(** The floats the interpreter can hold: the mantissa and the exponent
    of a finite one are in the canonical form of binary64. *)
Definition is_float (x : float) : Prop := valid_binary 53 1024 x = true.

Definition is_finite (x : float) : bool :=
  match x with
  | S754_zero _ | S754_finite _ _ _ => true
  | S754_infinity _ | S754_nan => false
  end.

(** Zero, a positive number or plus infinity. *)
Definition is_nonneg (x : float) : bool := SFleb (S754_zero false) x.

(** The exact value of a finite float; 0 for the others. *)
Definition F2Q (x : float) : Q :=
  match x with
  | S754_finite s m e => (inject_Z (cond_Zopp s (Zpos m)) * Qpower 2 e)%Q
  | _ => 0%Q
  end.

(** A value stored in a 32-bit float of the host and read back: it is
    rounded to binary32 (24 bits of precision, exponents below 128) and
    widened, which is exact. *)
Definition narrow32 (x : float) : float :=
  match x with
  | S754_finite s m e =>
      match binary_round 24 128 s m e with
      | S754_finite s' m' e' => binary_round 53 1024 s' m' e'
      | y => y
      end
  | _ => x
  end.

(** *** Python numbers *)

Inductive pynum : Type :=
  | PyInt (n : Z)
  | PyFloat (x : float).

(** The conversion of an int that arithmetic with a float makes, and
    [float(n)]. *)
Definition int_to_float (n : Z) : exn + float :=
  match float_of_Z n with
  | S754_infinity _ => inl (OverflowError "int too large to convert to float")
  | x => inr x
  end.

(** [float(v)] *)
Definition py_float (v : pynum) : exn + float :=
  match v with
  | PyInt n => int_to_float n
  | PyFloat x => inr x
  end.

(** Truth value of a Python number: everything but zero is true. *)
Definition py_truthy (v : pynum) : bool :=
  match v with
  | PyInt n => negb (n =? 0)
  | PyFloat (S754_zero _) => false
  | PyFloat _ => true
  end.


(** A binary operator of Python on numbers: exact on two ints; when one
    operand is a float the other is converted, and the operation is the
    one of binary64. *)
Definition py_arith (fz : Z -> Z -> Z) (ff : float -> float -> float)
    (a b : pynum) : exn + pynum :=
  match a, b with
  | PyInt m, PyInt n => inr (PyInt (fz m n))
  | _, _ =>
      match py_float a, py_float b with
      | inr x, inr y => inr (PyFloat (ff x y))
      | inl e, _ => inl e
      | _, inl e => inl e
      end
  end.

(** [a - b] and [a * b] *)
Definition py_sub : pynum -> pynum -> exn + pynum := py_arith Z.sub fsub.
Definition py_mul : pynum -> pynum -> exn + pynum := py_arith Z.mul fmul.

(** [math.floor] and [math.ceil] return Python integers. *)
Definition math_floor (q : Q) : Z := Qfloor q.
Definition math_ceil (q : Q) : Z := Qceiling q.

(** The builtin [round] with one argument: the nearest integer, a tie
    going to the even neighbour. *)
Definition py_round (q : Q) : Z :=
  let f := Qfloor q in
  match ((q - inject_Z f) ?= (1 # 2))%Q with
  | Lt => f
  | Gt => f + 1
  | Eq => if Z.even f then f else f + 1
  end.

(** [math.ceil], [math.floor] and [round] on a float: the integer they
    name for its exact value, and an exception for an infinity or a
    NaN. *)
Definition float_to_int (fx : Q -> Z) (x : float) : exn + Z :=
  match x with
  | S754_nan => inl (ValueError "cannot convert float NaN to integer")
  | S754_infinity _ =>
      inl (OverflowError "cannot convert float infinity to integer")
  | _ => inr (fx (F2Q x))
  end.

(** ** utils.py *)

(** [myround(x, base, choice=None)], for a number [x] and an int [base].
    The omitted [choice] is [None].  The division converts [base] to a
    float and raises on zero. *)
Definition myround (x : pynum) (base : Z) (choice : option string)
  : exn + Z :=
  let fx : Q -> Z :=
    if bool_decide (choice = Some "up"%string) then math_ceil
    else if bool_decide (choice = Some "down"%string) then math_floor
    else py_round in
  match py_float x with
  | inl e => inl e
  | inr xf =>
      match int_to_float base with
      | inl e => inl e
      | inr bf =>
          if base =? 0 then inl (ZeroDivisionError "float division by zero")
          else
            match float_to_int fx (fdiv xf bf) with
            | inl e => inl e
            | inr k => inr (base * k)
            end
      end
  end.

(** Subscript of a Python list by a non-negative literal. *)
Definition getitem {A} (l : list A) (i : nat) : exn + A :=
  match l !! i with
  | Some a => inr a
  | None => inl (IndexError "list index out of range")
  end.

(** [math.pi] *)
Definition math_pi : float := S754_finite false 7074237752028440 (-51).

Section Angle.
(** [math.atan2] is the C library's function on doubles; its values are
    taken from the library as they come. *)
Variable atan2 : float -> float -> float.

(** [normal_to_angle(x, y)]; [math.atan2] converts its arguments, the
    first one first. *)
Definition normal_to_angle (x y : pynum) : exn + float :=
  match py_float y with
  | inl e => inl e
  | inr yf =>
      match py_float x with
      | inl e => inl e
      | inr xf =>
          inr (fdiv (fmul (atan2 yf xf) (float_of_Z 180)) math_pi)
      end
  end.
End Angle.

(** [translate_point(data, x0=0, y0=0, z0=0, scale=1)]; an omitted
    keyword argument is [None] and takes the default of the signature.
    The entries of the result are evaluated from left to right. *)
Definition translate_point (data : list pynum) (x0 y0 z0 scale : option pynum)
  : exn + list pynum :=
  let x0 := default (PyInt 0) x0 in
  let y0 := default (PyInt 0) y0 in
  let z0 := default (PyInt 0) z0 in
  let scale := default (PyInt 1) scale in
  let entry (i : nat) (o : pynum) : exn + pynum :=
    match getitem data i with
    | inl e => inl e
    | inr d =>
        match py_sub d o with
        | inl e => inl e
        | inr t => py_mul t scale
        end
    end in
  match entry 0%nat x0 with
  | inl e => inl e
  | inr a =>
      match entry 1%nat y0 with
      | inl e => inl e
      | inr b =>
          match entry 2%nat z0 with
          | inl e => inl e
          | inr c => inr [a; b; c]
          end
      end
  end.

(** Builtin [min] and [max] of a list: the first smallest (largest)
    element by [<], [ValueError] on the empty list. *)
Definition py_min (l : list float) : exn + float :=
  match l with
  | [] => inl (ValueError "min() arg is an empty sequence")
  | x :: l => inr (fold_left (fun m y => if flt y m then y else m) l x)
  end.

Definition py_max (l : list float) : exn + float :=
  match l with
  | [] => inl (ValueError "max() arg is an empty sequence")
  | x :: l => inr (fold_left (fun m y => if flt m y then y else m) l x)
  end.

(** ** Data sets of the host *)

Abbreviation point := (float * float * float)%type.

(** What the host hands out for a mesh: its points and the scalar array
    of its point data. *)
Record dataset : Type := Dataset {
  ds_points : list point;
  ds_scalars : list float;
  ds_name : string
}.

(** [GetBounds()]: (xmin, xmax, ymin, ymax, zmin, zmax). *)
Abbreviation bounds := (float * float * float * float * float * float)%type.

(** ** The script text of [scale_input]

    The f-string has three holes, [{zero_origin}], [{scale_coords}] and
    [{scale_data}]; a script is given by what was put in them. *)
Record script : Type := Script {
  sc_zero_origin : bool;
  sc_scale_coords : pynum;
  sc_scale_data : pynum
}.

(** A number as the script reads it back from its text.  An int and a
    finite float are written so that they read back as themselves; an
    infinity is written [inf] and a NaN [nan], names the script does not
    define. *)
Definition script_literal (v : pynum) : exn + pynum :=
  match v with
  | PyFloat (S754_infinity _) => inl (NameError "name 'inf' is not defined")
  | PyFloat S754_nan => inl (NameError "name 'nan' is not defined")
  | _ => inr v
  end.

(** [x * v] for a float [x] and a number [v] of the script text. *)
Definition times_literal (x : float) (v : pynum) : exn + float :=
  match script_literal v with
  | inl e => inl e
  | inr v =>
      match py_float v with
      | inl e => inl e
      | inr k => inr (fmul x k)
      end
  end.

(** A loop whose body can raise: the results in order, or the first
    exception. *)
Fixpoint for_each {A B} (body : A -> exn + B) (l : list A) : exn + list B :=
  match l with
  | [] => inr []
  | a :: l =>
      match body a with
      | inl e => inl e
      | inr b =>
          match for_each body l with
          | inl e => inl e
          | inr bs => inr (b :: bs)
          end
      end
  end.

Section Script.
(** The bounds the host computes for a point set. *)
Variable GetBounds : list point -> bounds.

(** Body of the first loop, for one point; [newPoints] is a
    [vtkPoints()], which keeps 32-bit floats. *)
Definition script_point (s : script) (b : bounds) (coords : point)
  : exn + point :=
  let '(min_x, _, min_y, _, _, _) := b in
  let '(x, y, z) := coords in
  let '(x, y) :=
    if sc_zero_origin s then (fsub x min_x, fsub y min_y) else (x, y) in
  match script_literal (sc_scale_coords s) with
  | inl e => inl e
  | inr k =>
      let scaled :=
        if py_truthy k
        then
          match times_literal x k, times_literal y k, times_literal z k with
          | inr x, inr y, inr z => inr (x, y, z)
          | inl e, _, _ => inl e
          | _, inl e, _ => inl e
          | _, _, inl e => inl e
          end
        else inr (x, y, z) in
      match scaled with
      | inl e => inl e
      | inr (x, y, z) => inr (narrow32 x, narrow32 y, narrow32 z)
      end
  end.

(** The whole script, run by the host on the filter's input [pdi]; [ca]
    is a [vtkFloatArray()]. *)
Definition run_script (s : script) (pdi : dataset) : exn + dataset :=
  let numPoints := length (ds_points pdi) in
  let b := GetBounds (ds_points pdi) in
  match for_each (script_point s b) (ds_points pdi) with
  | inl e => inl e
  | inr newPoints =>
      match
        for_each
          (fun i =>
             match
               times_literal (nth i (ds_scalars pdi) (S754_zero false))
                 (sc_scale_data s)
             with
             | inl e => inl e
             | inr v => inr (narrow32 v)
             end)
          (seq 0 numPoints)
      with
      | inl e => inl e
      | inr ca =>
          inr {| ds_points := newPoints; ds_scalars := ca;
                 ds_name := ds_name pdi |}
      end
  end.
End Script.

(** The script [scale_input] builds from its arguments: a factor passed
    as [None] becomes 1. *)
Definition scale_input_script (scale_data scale_coords : option pynum)
    (zero_origin : bool) : script :=
  let scale_data :=
    match scale_data with None => PyInt 1 | Some v => v end in
  let scale_coords :=
    match scale_coords with None => PyInt 1 | Some v => v end in
  {| sc_zero_origin := zero_origin;
     sc_scale_coords := scale_coords;
     sc_scale_data := scale_data |}.

(** ** The world: file system, standard output and the host's session *)

Abbreviation handle := nat.

(** A triple of numbers handed on to the host. *)
Abbreviation vec3 := (Q * Q * Q)%type.

(** Properties of a slice filter that the scripts read and write. *)
Record slice_props : Type := SliceProps {
  SliceType : string;
  Normal : vec3;
  Origin : vec3
}.

(** A printed line: the pieces of the f-string, values left unformatted. *)
Inductive frag : Type :=
  | FStr (s : string)
  | FNat (n : nat)
  | FNum (x : float)
  | FTuple (xs : list float).

(** Calls into [paraview.simple], as the session sees them. *)
Inductive call : Type :=
  | CGetActiveViewOrCreate (view : string)
  | CGetActiveView
  | CRender
  | CGetLayout
  | CSetSize (w h : Z)
  | COpenDataFile (fid : string)
  | CAVSUCDReader (FileNames : list string)
  | CFetch (p : handle)
  | CShow (p : handle) (representation : option string)
  | CHide (p : handle)
  | CHide3DWidgets (p : handle)
  | CSlice (input : handle)
  | CProgrammableFilter (registrationName : string) (input : handle)
  | CColorBy (display : handle) (qty : string)
  | CGetColorTransferFunction (quantity : string)
  | CGetOpacityTransferFunction (quantity : string)
  | CRescaleTransferFunction (opacity : bool) (lo hi : Q)
  | CSetScale (display : handle) (s : list Q)
  | CResetCamera
  | CSaveScreenshot (fid : string) (resolution : list Z) (transparent : bool)
  | CGetSources
  | CFindSource (name : string)
  | CDelete (p : handle).

Record world : Type := World {
  paths : gset string;                 (* what [os.path.exists] sees *)
  stdout : list (list frag);
  next_id : handle;                    (* the next proxy the host creates *)
  sources : list (string * handle);    (* registry: (name, id), oldest first *)
  active : option handle;              (* the active source *)
  shown : gset handle;                 (* visible in the active view *)
  inputs : gmap handle handle;         (* pipeline: filter -> its input *)
  slices : gmap handle slice_props;
  datasets : gmap handle dataset;      (* output of each pipeline object *)
  calls : list call                    (* host calls so far, oldest first *)
}.

Definition set_paths (f : gset string -> gset string) (w : world) : world :=
  World (f (paths w)) (stdout w) (next_id w) (sources w) (active w) (shown w)
        (inputs w) (slices w) (datasets w) (calls w).
Definition set_stdout (f : list (list frag) -> list (list frag)) (w : world)
  : world :=
  World (paths w) (f (stdout w)) (next_id w) (sources w) (active w) (shown w)
        (inputs w) (slices w) (datasets w) (calls w).
Definition set_sources (f : list (string * handle) -> list (string * handle))
    (w : world) : world :=
  World (paths w) (stdout w) (next_id w) (f (sources w)) (active w) (shown w)
        (inputs w) (slices w) (datasets w) (calls w).
Definition set_active (a : option handle) (w : world) : world :=
  World (paths w) (stdout w) (next_id w) (sources w) a (shown w)
        (inputs w) (slices w) (datasets w) (calls w).
Definition set_shown (f : gset handle -> gset handle) (w : world) : world :=
  World (paths w) (stdout w) (next_id w) (sources w) (active w) (f (shown w))
        (inputs w) (slices w) (datasets w) (calls w).
Definition set_inputs (f : gmap handle handle -> gmap handle handle)
    (w : world) : world :=
  World (paths w) (stdout w) (next_id w) (sources w) (active w) (shown w)
        (f (inputs w)) (slices w) (datasets w) (calls w).
Definition set_slices (f : gmap handle slice_props -> gmap handle slice_props)
    (w : world) : world :=
  World (paths w) (stdout w) (next_id w) (sources w) (active w) (shown w)
        (inputs w) (f (slices w)) (datasets w) (calls w).
Definition set_datasets (f : gmap handle dataset -> gmap handle dataset)
    (w : world) : world :=
  World (paths w) (stdout w) (next_id w) (sources w) (active w) (shown w)
        (inputs w) (slices w) (f (datasets w)) (calls w).
Definition set_next_id (n : handle) (w : world) : world :=
  World (paths w) (stdout w) n (sources w) (active w) (shown w)
        (inputs w) (slices w) (datasets w) (calls w).
Definition set_calls (f : list call -> list call) (w : world) : world :=
  World (paths w) (stdout w) (next_id w) (sources w) (active w) (shown w)
        (inputs w) (slices w) (datasets w) (f (calls w)).

(** ** The monad of scripts: state and exceptions *)

Definition St (S A : Type) : Type := S -> (exn + A) * S.

#[global] Instance St_ret {S} : MRet (St S) := fun A a s => (inr a, s).
#[global] Instance St_bind {S} : MBind (St S) := fun A B k m s =>
  match m s with
  | (inr a, s') => k a s'
  | (inl e, s') => (inl e, s')
  end.

Definition raise {S A} (e : exn) : St S A := fun s => (inl e, s).
Definition lift {S A} (r : exn + A) : St S A := fun s => (r, s).
Definition gets {S A} (f : S -> A) : St S A := fun s => (inr (f s), s).
Definition modify {S} (f : S -> S) : St S unit := fun s => (inr tt, f s).

(** Module-level code and functions run over the world. *)
Abbreviation M := (St world).

(** [assert(c), msg] *)
Definition assert_ {S} (c : bool) (msg : string) : St S unit :=
  if c then mret tt else raise (AssertionError msg).

(** [for x in l: body x] *)
Fixpoint for_ {S A} (l : list A) (body : A -> St S unit) : St S unit :=
  match l with
  | [] => mret tt
  | x :: l => body x ;; for_ l body
  end.

Definition print (line : list frag) : M unit :=
  modify (set_stdout (fun o => o ++ [line])).

Definition log (c : call) : M unit :=
  modify (set_calls (fun cs => cs ++ [c])).

(** ** Configuration and command line *)

(** The attributes of the configuration module that the sources read
    themselves.  The colour-map and colour-bar options are read only to
    be handed to [colorstuff], see [colormap] and [colorbar] below. *)
Record config : Type := Config {
  cfg_scale_data : option pynum;
  cfg_scale_coords : option pynum;
  cfg_zero_origin : bool;
  cfg_resolution : list Z;
  cfg_mov_bounds : list Q;
  cfg_mov_scale : Q
}.

(** The namespace [parser.parse_args()] returns. *)
Record args : Type := Args {
  fid : string;
  cfg_fid : string;
  movie : bool;
  verbose : bool;
  output : string;
  fid_out : option string
}.

(** ** What the sources take from outside

    The operating system, the host's own choices and the module
    [colorstuff], which [main.py] imports and which is not among the
    sources, are parameters of the development. *)
Class Env : Type := {
  (** [glob.glob(pattern)] at the time the movie routine runs *)
  glob : string -> list string;
  (** whether [os.mkdir(path)] raises *)
  mkdir_fails : string -> bool;
  (** [importlib.import_module(name)] *)
  import_module : string -> exn + config;
  (** whether the host has a reader for the file *)
  has_reader : string -> bool;
  (** the mesh a reader produces for a file *)
  read_dataset : string -> dataset;
  (** registration name the host picks for a reader of a file *)
  reader_name : string -> string;
  (** registration name the host picks for a new slice *)
  slice_name : handle -> string;
  (** the properties a new slice of the given input starts with *)
  slice_defaults : world -> handle -> slice_props;
  (** [GetBounds()] of a point set *)
  GetBounds : list point -> bounds;
  (** [GetRange(0)] of a scalar array *)
  GetRange : list float -> float * float;
  (** [colorstuff.colormap(data, ...)] with the configured options *)
  colormap : handle -> M handle;
  (** [colorstuff.colorbar(lut, ...)] with the configured options *)
  colorbar : handle -> M handle
}.

(** ** paraview.simple: the host calls the sources make *)

Section Host.
Context `{Env}.

(** A new pipeline object, registered and made the active source. *)
Definition register (name : string) : M handle :=
  id ← gets next_id;
  modify (set_next_id (S id)) ;;
  modify (set_sources (fun s => s ++ [(name, id)])) ;;
  modify (set_active (Some id)) ;;
  mret id.

(** [OpenDataFile(fid)] raises for a file that is not there and for one
    the host has no reader for; otherwise it creates the reader. *)
Definition OpenDataFile (fid : string) : M handle :=
  log (COpenDataFile fid) ;;
  there ← gets (fun w => bool_decide (fid ∈ paths w));
  if negb there
  then raise (RuntimeError ("File not readable: " +:+ fid +:+ " "))
  else if negb (has_reader fid)
  then raise (RuntimeError ("File not readable. No reader found for '"
                            +:+ fid +:+ "' "))
  else
    id ← register (reader_name fid);
    modify (set_datasets (insert id (read_dataset fid))) ;;
    mret id.

Definition AVSUCDReader (FileNames : list string) : M handle :=
  log (CAVSUCDReader FileNames) ;;
  id ← register (reader_name (List.hd ""%string FileNames));
  modify (set_datasets
            (insert id (read_dataset (List.hd ""%string FileNames)))) ;;
  mret id.

Definition GetActiveViewOrCreate (view : string) : M unit :=
  log (CGetActiveViewOrCreate view).
Definition GetActiveView : M unit := log CGetActiveView.
Definition Render : M unit := log CRender.
Definition ResetCamera : M unit := log CResetCamera.
Definition GetLayout : M unit := log CGetLayout.
Definition SetSize (w h : Z) : M unit := log (CSetSize w h).

(** [Show] returns the representation of the object in the view; it
    is identified with the object it displays. *)
Definition Show (p : handle) (representation : option string) : M handle :=
  log (CShow p representation) ;;
  modify (set_shown (fun s => {[p]} ∪ s)) ;;
  mret p.

Definition Hide (p : handle) : M unit :=
  log (CHide p) ;;
  modify (set_shown (fun s => s ∖ {[p]})).

Definition Hide3DWidgets (p : handle) : M unit := log (CHide3DWidgets p).

Definition Slice (input : handle) : M handle :=
  w ← gets (fun w => w);
  log (CSlice input) ;;
  id ← register (slice_name (next_id w));
  modify (set_inputs (insert id input)) ;;
  modify (set_slices (insert id (slice_defaults w input))) ;;
  mret id.

(** Reading and writing the properties of a slice. *)
Definition get_slice (p : handle) : M slice_props :=
  s ← gets (fun w => slices w !! p);
  match s with
  | Some s => mret s
  | None => raise (RuntimeError "not a slice")
  end.
Definition set_SliceType (p : handle) (t : string) : M unit :=
  s ← get_slice p;
  modify (set_slices (insert p (SliceProps t (Normal s) (Origin s)))).
Definition set_Normal (p : handle) (n : vec3) : M unit :=
  s ← get_slice p;
  modify (set_slices (insert p (SliceProps (SliceType s) n (Origin s)))).
Definition set_Origin (p : handle) (o : vec3) : M unit :=
  s ← get_slice p;
  modify (set_slices (insert p (SliceProps (SliceType s) (Normal s) o))).
Definition get_Origin (p : handle) : M vec3 :=
  s ← get_slice p; mret (Origin s).

Definition ProgrammableFilter (registrationName : string) (input : handle)
  : M handle :=
  log (CProgrammableFilter registrationName input) ;;
  id ← register registrationName;
  modify (set_inputs (insert id input)) ;;
  mret id.

(** [prog_filter.Script = script]: from now on the filter's output is
    the script run on its input.  A script that raises leaves the filter
    without output; the host reports the exception and does not pass it
    on. *)
Definition set_Script (p : handle) (s : script) : M unit :=
  modify (fun w =>
    match inputs w !! p ≫= (fun i => datasets w !! i) with
    | Some pdi =>
        match run_script GetBounds s pdi with
        | inr pdo => set_datasets (insert p pdo) w
        | inl _ => w
        end
    | None => w
    end).

(** [servermanager.Fetch(p)] *)
Definition Fetch (p : handle) : M dataset :=
  log (CFetch p) ;;
  d ← gets (fun w => datasets w !! p);
  match d with
  | Some d => mret d
  | None => raise (RuntimeError "nothing to fetch")
  end.

(** [p.PointData.GetArray(0).attribute]: name and values of the array.
    An object without output has no array: [GetArray(0)] is [None] and
    reading its attribute raises. *)
Definition PointData_GetArray0 (p : handle) (attribute : string)
  : M (string * list float) :=
  d ← gets (fun w => datasets w !! p);
  match d with
  | Some d => mret (ds_name d, ds_scalars d)
  | None =>
      raise (AttributeError ("'NoneType' object has no attribute '"
                             +:+ attribute +:+ "'"))
  end.

Definition ColorBy (display : handle) (qty : string) : M unit :=
  log (CColorBy display qty).

Definition GetColorTransferFunction (quantity : string) : M unit :=
  log (CGetColorTransferFunction quantity).
Definition GetOpacityTransferFunction (quantity : string) : M unit :=
  log (CGetOpacityTransferFunction quantity).
Definition RescaleTransferFunction (opacity : bool) (lo hi : Q) : M unit :=
  log (CRescaleTransferFunction opacity lo hi).
Definition set_Scale (display : handle) (s : list Q) : M unit :=
  log (CSetScale display s).

Definition SaveScreenshot (fid : string) (resolution : list Z)
    (transparent : bool) : M unit :=
  log (CSaveScreenshot fid resolution transparent).

(** [GetSources()]: the dictionary of registered sources. *)
Definition GetSources : M (list ((string * handle) * handle)) :=
  log CGetSources ;;
  gets (fun w => map (fun k => (k, k.2)) (sources w)).

(** [FindSource(name)]: the first registered source of that name,
    [None] when there is none. *)
Definition FindSource (name : string) : M (option handle) :=
  log (CFindSource name) ;;
  gets (fun w =>
    snd <$> List.find (fun k => bool_decide (k.1 = name)) (sources w)).

(** [Delete(proxy)]: unregisters the source; [Delete(None)] deletes the
    active source. *)
Definition Delete (proxy : option handle) : M unit :=
  a ← gets active;
  match (match proxy with Some p => Some p | None => a end) with
  | None => raise (RuntimeError "Could not locate proxy to 'Delete'")
  | Some p =>
      log (CDelete p) ;;
      modify (set_sources (filter (fun k => k.2 ≠ p))) ;;
      modify (set_shown (fun s => s ∖ {[p]})) ;;
      modify (set_active (if decide (a = Some p) then None else a))
  end.
End Host.

(** ** Python and the standard library *)

(** [name in src] on strings: [name] occurs in [src]. *)
Fixpoint contains (name src : string) : bool :=
  String.prefix name src ||
  match src with
  | EmptyString => false
  | String _ src' => contains name src'
  end.

(** [sorted] on a list of strings. *)
Fixpoint insert_sorted (x : string) (l : list string) : list string :=
  match l with
  | [] => [x]
  | y :: l' => if String.leb x y then x :: l else y :: insert_sorted x l'
  end.
Definition sorted (l : list string) : list string :=
  foldr insert_sorted [] l.

(** [str.rfind] of a character, -1 when it is absent. *)
Fixpoint rfind_from (c : ascii) (s : string) (i last : Z) : Z :=
  match s with
  | EmptyString => last
  | String a s' => rfind_from c s' (i + 1) (if Ascii.eqb a c then i else last)
  end.
Definition rfind (c : ascii) (s : string) : Z := rfind_from c s 0 (-1).

(** [os.path.splitext] (posix). *)
Definition splitext (p : string) : string * string :=
  let sepIndex := rfind "/"%char p in
  let dotIndex := rfind "."%char p in
  let no_ext := (p, ""%string) in
  if sepIndex <? dotIndex then
    let filenameIndex := Z.to_nat (sepIndex + 1) in
    let d := Z.to_nat dotIndex in
    (* skip all leading dots *)
    if existsb (fun i => negb (bool_decide (String.get i p = Some "."%char)))
               (seq filenameIndex (d - filenameIndex))
    then (String.substring 0 d p,
          String.substring d (String.length p - d) p)
    else no_ext
  else no_ext.

(** [os.path.join] of two components (posix). *)
Definition path_join (a b : string) : string :=
  if String.prefix "/" b then b
  else if bool_decide (a = ""%string) then b
  else if bool_decide (String.get (String.length a - 1) a = Some "/"%char)
       then a +:+ b
       else a +:+ "/" +:+ b.

Definition path_exists (p : string) : M bool :=
  gets (fun w => bool_decide (p ∈ paths w)).

(** Objects that [GetSources().keys] passes through.  The attribute
    [keys] of a dictionary is its bound method; only calling it gives the
    view of the keys. *)
Inductive pyobj : Type :=
  | PyDict (d : list ((string * handle) * handle))
  | PyBoundMethod (self : pyobj) (name : string)
  | PyKeysView (ks : list (string * handle)).

(** [o.keys] *)
Definition attr_keys (o : pyobj) : exn + pyobj :=
  match o with
  | PyDict _ => inr (PyBoundMethod o "keys")
  | _ => inl (AttributeError "object has no attribute 'keys'")
  end.

(** [iter(o)], as a [for] clause applies it. *)
Definition py_iter (o : pyobj) : exn + list (string * handle) :=
  match o with
  | PyDict d => inr (map fst d)
  | PyKeysView ks => inr ks
  | PyBoundMethod _ _ =>
      inl (TypeError "'builtin_function_or_method' object is not iterable")
  end.

Section Repository.
Context `{Env}.

Definition mkdir (p : string) : M unit :=
  if mkdir_fails p then raise (OSError p)
  else modify (set_paths (fun s => {[p]} ∪ s)).

(** ** things.py *)

(** [programmable_filter(data, script, reg_name="ProgrammableFilter")] *)
Definition programmable_filter (data : handle) (s : script)
    (reg_name : string) : M handle :=
  GetActiveViewOrCreate "RenderView" ;;
  Show data None ;;
  prog_filter ← ProgrammableFilter reg_name data;
  set_Script prog_filter s ;;
  '(qty, _) ← PointData_GetArray0 prog_filter "Name";
  GetActiveView ;;
  progfiltDisplay ← Show prog_filter (Some "UnstructuredGridRepresentation"%string);
  ColorBy progfiltDisplay qty ;;
  Hide data ;;
  Hide prog_filter ;;
  mret prog_filter.

(** ** utils.py, continued *)

(** [scale_input(data, scale_data=None, scale_coords=None,
    zero_origin=False)] *)
Definition scale_input (data : handle)
    (scale_data scale_coords : option pynum) (zero_origin : bool)
  : M handle :=
  programmable_filter data
    (scale_input_script scale_data scale_coords zero_origin)
    "ProgrammableFilter".

(** ** actions.py *)

(** [screenshot(fid, resolution, transparent_bg=True)] *)
Definition screenshot (fid : string) (resolution : list Z)
    (transparent_bg : bool) : M unit :=
  GetActiveView ;;
  SaveScreenshot fid resolution transparent_bg.

(** The two nested loops of [delete_objects], over the names [srcs]
    the list comprehension produced. *)
Definition delete_loop (names : list string) (srcs : list string) : M unit :=
  for_ srcs (fun src =>
    match List.find (fun name => contains name src) names with
    | Some _ =>
        src ← FindSource src;
        Delete src
    | None => mret tt
    end).

(** [delete_objects(names=None)] *)
Definition delete_objects (names : option (list string)) : M unit :=
  let names :=
    match names with
    | None => ["ruler"; "point"; "glyph"]%string
    | Some names => names
    end in
  d ← GetSources;
  ks ← lift (attr_keys (PyDict d));
  srcs ← lift (py_iter ks);
  delete_loop names (map fst srcs).
End Repository.

(** ** datafile.py *)

(** The attributes of a [CartesianDataFile] instance. *)
Record CartesianDataFile : Type := CDF {
  cdf_fid : string;
  cdf_data : handle;
  cdf_data_coords : list float * list float * list float;
  cdf_data_bounds : float * float;
  cdf_display : handle
}.

(** Methods run over the instance and the world. *)
Abbreviation Meth := (St (CartesianDataFile * world)).

(** A call into the host, or any module-level function, from a method. *)
Definition host {A} (m : M A) : Meth A := fun s =>
  let '(r, w') := m s.2 in (r, (s.1, w')).

(** Reading an attribute of [self]. *)
Definition self_attr {A} (f : CartesianDataFile -> A) : Meth A :=
  gets (fun s => f s.1).

(** [obj.method(...)] at module level. *)
Definition call_method {A} (obj : CartesianDataFile) (m : Meth A)
  : M (A * CartesianDataFile) := fun w =>
  match m (obj, w) with
  | (inr a, (obj', w')) => (inr (a, obj'), w')
  | (inl e, (_, w')) => (inl e, w')
  end.

(** The attributes of a [SurfaceMovie] instance; [lut] and [pwf] are
    the host's transfer functions of the quantity, of which there is one
    each. *)
Record SurfaceMovie : Type := Mov {
  mov_data : handle;
  mov_display : handle
}.

(** Truth value of a number or [None]. *)
Definition truthy (v : option pynum) : bool :=
  match v with
  | None => false
  | Some v => py_truthy v
  end.

Section DataFile.
Context `{Env}.

(** [_get_coordinates(self, input=None)]; [self] is read for
    [self.data] only. *)
Definition _get_coordinates (self_data : handle) (input : option handle)
  : M (list float * list float * list float) :=
  let input := match input with None => self_data | Some i => i end in
  data_plane ← Fetch input;
  mret (foldl (fun '(x, y, z) '(x_, y_, z_) =>
                 (x ++ [x_], y ++ [y_], z ++ [z_]))
              ([], [], []) (ds_points data_plane)).

(** [_get_data_minmax(self, input=None)] *)
Definition _get_data_minmax (self_data : handle) (input : option handle)
  : M (float * float) :=
  let input := match input with None => self_data | Some i => i end in
  '(_, values) ← PointData_GetArray0 input "GetRange";
  let '(vmin, vmax) := GetRange values in
  mret (vmin, vmax).

(** [CartesianDataFile(fid, scale_data=None, scale_coords=None,
    zero_origin=False)] *)
Definition CartesianDataFile__init__ (fid : string)
    (scale_data scale_coords : option pynum) (zero_origin : bool)
  : M CartesianDataFile :=
  data ← OpenDataFile fid;
  data ← (if truthy scale_data || truthy scale_coords
          then scale_input data scale_data scale_coords zero_origin
          else mret data);
  data_coords ← _get_coordinates data None;
  data_bounds ← _get_data_minmax data None;
  GetActiveView ;;
  display ← Show data (Some "UnstructuredGridRepresentation"%string);
  mret (CDF fid data data_coords data_bounds display).

(** The property [stats]. *)
Definition stats : Meth unit :=
  '(x, y, z) ← self_attr cdf_data_coords;
  for_ (imap (fun i coord => (i, coord)) [x; y; z]) (fun '(i, coord) =>
    mn ← lift (py_min coord);
    mx ← lift (py_max coord);
    host (print [FNat i; FStr " [min, max, n]: "; FNum mn; FStr ", ";
                 FNum mx; FStr ", "; FNat (length coord)])) ;;
  '(vmin, vmax) ← self_attr cdf_data_bounds;
  host (print [FStr "vals: "; FTuple [vmin; vmax]; FStr " "]).

(** The property [center]; [mids] is threaded through the loop. *)
Fixpoint center_loop (coords : list (list float)) (mids : list float)
  : Meth (list float) :=
  match coords with
  | [] => mret mids
  | coord :: coords =>
      mx ← lift (py_max coord);
      mn ← lift (py_min coord);
      center_loop coords (mids ++ [fdiv (fadd mx mn) (float_of_Z 2)])
  end.
Definition center : Meth (list float) :=
  '(x, y, z) ← self_attr cdf_data_coords;
  center_loop [x; y; z] [].

(** [depth_slice(self, depth, hide_original=True)] *)
Definition depth_slice (depth : Q) (hide_original : bool) : Meth handle :=
  data ← self_attr cdf_data;
  sliced_plane ← host (Slice data);
  host (set_SliceType sliced_plane "Plane") ;;
  host (set_Normal sliced_plane (0, 0, 1)%Q) ;;
  (* Grabbing original origin information to manipulate the Z value *)
  '(o0, o1, _) ← host (get_Origin sliced_plane);
  host (set_Origin sliced_plane (o0, o1, depth)) ;;
  (* Remove the plane that shows the outline of the cut *)
  host (Hide3DWidgets sliced_plane) ;;
  host (Show sliced_plane None) ;;
  (if hide_original
   then data ← self_attr cdf_data; host (Hide data)
   else mret tt) ;;
  mret sliced_plane.

(** [SurfaceMovie(fid, quantity="a")] *)
Definition SurfaceMovie__init__ (fid : string) (quantity : string)
  : M SurfaceMovie :=
  data ← AVSUCDReader [fid];
  GetActiveView ;;
  display ← Show data (Some "UnstructuredGridRepresentation"%string);
  GetColorTransferFunction quantity ;;
  GetOpacityTransferFunction quantity ;;
  mret (Mov data display).
End DataFile.

(** ** main.py *)

Section Main.
Context `{Env}.

(** [check(args)] *)
Definition check (a : args) : M args :=
  (* Make sure the file to plot actually exists *)
  (if negb (movie a)
   then ex ← path_exists (fid a);
        assert_ ex (fid a +:+ " does not exist")
   else mret tt) ;;
  (* Make the output directory if it doesn't exist *)
  ex ← path_exists (output a);
  (if negb ex then mkdir (output a) else mret tt) ;;
  (* Determine the output file name *)
  let fid_out :=
    match fid_out a with
    | None => fid a +:+ ".png"
    | Some f => f
    end in
  mret (Args (fid a) (cfg_fid a) (movie a) (verbose a) (output a)
             (Some fid_out)).

(** [parse_args()], on the namespace the parser produced. *)
Definition parse_args (ns : args) : M args := check ns.

(** [setup(cfg_fid="config.py")] *)
Definition setup (cfg_fid : string) : M config :=
  ex ← path_exists cfg_fid;
  assert_ ex ("PyrateView requires a valid .py configuration file: "
              +:+ cfg_fid) ;;
  (* Drop the .py when importing module *)
  cfg ← lift (import_module (splitext cfg_fid).1);
  (* Establish the render view for ParaView *)
  GetActiveViewOrCreate "RenderView" ;;
  Render ;;
  GetLayout ;;
  r0 ← lift (getitem (cfg_resolution cfg) 0);
  r1 ← lift (getitem (cfg_resolution cfg) 1);
  SetSize r0 r1 ;;
  mret cfg.

(** [cartesian()], with the globals [args] and [cfg] as arguments. *)
Definition cartesian (a : args) (cfg : config) : M unit :=
  cdf ← CartesianDataFile__init__ (fid a) (cfg_scale_data cfg)
          (cfg_scale_coords cfg) (cfg_zero_origin cfg);
  '(zslice, cdf) ← call_method cdf (depth_slice (-5) true);
  lut ← colormap (cdf_data cdf);
  cbar ← colorbar lut;
  '(mids, cdf) ← call_method cdf center;
  match mids with
  | [xm; ym; _] =>
      ResetCamera ;;
      match fid_out a with
      | Some f =>
          screenshot (path_join (output a) f) (cfg_resolution cfg) true
      | None => raise (TypeError "expected str, not NoneType")
      end
  | _ => raise (ValueError "wrong number of values to unpack")
  end.

(** [movie_frame()], with the globals [args] and [cfg] as arguments. *)
Definition movie_frame (a : args) (cfg : config) : M unit :=
  (if verbose a
   then let files_ := glob (fid a) in
        print [FNat (length files_); FStr " movie files found"]
   else mret tt) ;;
  for_ (sorted (glob (fid a))) (fun fid =>
    (if verbose a then print [FStr fid] else mret tt) ;;
    mov ← SurfaceMovie__init__ fid "a";
    (* Rescale the colorbar to get a consistent amplitude *)
    b0 ← lift (getitem (cfg_mov_bounds cfg) 0);
    b1 ← lift (getitem (cfg_mov_bounds cfg) 1);
    RescaleTransferFunction false b0 b1 ;;
    b0 ← lift (getitem (cfg_mov_bounds cfg) 0);
    b1 ← lift (getitem (cfg_mov_bounds cfg) 1);
    RescaleTransferFunction true b0 b1 ;;
    (* Scale the vertical axis *)
    set_Scale (mov_display mov) [1%Q; 1%Q; cfg_mov_scale cfg] ;;
    ResetCamera ;;
    screenshot (path_join (output a) (fid +:+ ".png"))
               (cfg_resolution cfg) true).

(** The two statements run before the routine: [args = parse_args()]
    and [cfg = setup(cfg_fid=args.cfg_fid)]. *)
Definition startup (ns : args) : M (args * config) :=
  a ← parse_args ns;
  cfg ← setup (cfg_fid a);
  mret (a, cfg).

(** The body of [if __name__ == "__main__"]. *)
Definition main (ns : args) : M unit :=
  a ← parse_args ns;
  cfg ← setup (cfg_fid a);
  movie_frame a cfg.
End Main.


(** ** A session to run the scripts in

    One concrete choice for everything the sources take from outside,
    used to run the embedded code on examples. *)

(** The float written [0.001]: the one nearest to 1/1000. *)
Definition milli : float := fdiv (float_of_Z 1) (float_of_Z 1000).

Definition demo_cfg : config :=
  {| cfg_scale_data := Some (PyFloat milli);
     cfg_scale_coords := Some (PyFloat milli);
     cfg_zero_origin := false;
     cfg_resolution := [2100; 2100];
     cfg_mov_bounds := [(-1 # 10000)%Q; (1 # 10000)%Q];
     cfg_mov_scale := 4%Q |}.

Definition demo_mesh : dataset :=
  Dataset [(float_of_Z 0, float_of_Z 0, float_of_Z (-10));
           (float_of_Z 2000, float_of_Z 4000, float_of_Z 0)]
          [float_of_Z 3000; float_of_Z 4500] "vs".

#[local] Instance demo_env : Env :=
  {| glob := fun pattern =>
       if bool_decide (pattern = "frames/*.inp"%string)
       then ["frames/it2.inp"; "frames/it1.inp"]%string
       else if bool_decide (pattern = "model.vtk"%string)
            then ["model.vtk"%string] else [];
     mkdir_fails := fun _ => false;
     import_module := fun name =>
       if bool_decide (name = "config"%string) then inr demo_cfg
       else inl (ModuleNotFoundError name);
     has_reader := fun fid =>
       bool_decide (fid = "model.vtk"%string) ||
       bool_decide (fid = "coast.vtk"%string);
     read_dataset := fun _ => demo_mesh;
     reader_name := fun fid => fid;
     slice_name := fun _ => "Slice1"%string;
     slice_defaults := fun _ _ =>
       SliceProps "Plane" (1, 0, 0)%Q (1000, 2000, -5)%Q;
     GetBounds := fun _ =>
       (float_of_Z 0, float_of_Z 2000, float_of_Z 0, float_of_Z 4000,
        float_of_Z (-10), float_of_Z 0);
     GetRange := fun _ => (float_of_Z 3000, float_of_Z 4500);
     colormap := fun data => mret data;
     colorbar := fun lut => mret lut |}.

(** A fresh session in a directory holding the given paths. *)
Definition fresh_world (ps : list string) : world :=
  {| paths := list_to_set ps; stdout := []; next_id := 0%nat; sources := [];
     active := None; shown := ∅; inputs := ∅; slices := ∅; datasets := ∅;
     calls := [] |}.

(** [pyrateview model.vtk]: no option given. *)
Definition demo_args : args :=
  {| fid := "model.vtk"; cfg_fid := "config.py"; movie := false;
     verbose := false; output := "output"; fid_out := None |}.

(** [pyrateview -M 'frames/*.inp']: the pattern names no file itself. *)
Definition demo_movie_args : args :=
  {| fid := "frames/*.inp"; cfg_fid := "config.py"; movie := true;
     verbose := false; output := "output"; fid_out := None |}.

(** The namespace [check] returns, when it returns. *)
Definition checked (ns : args) : args :=
  Args (fid ns) (cfg_fid ns) (movie ns) (verbose ns) (output ns)
       (Some (match fid_out ns with
              | None => fid ns +:+ ".png"
              | Some f => f
              end)).

(** ** Vocabulary of the statements *)

(** A script only adds host calls, and every call it adds satisfies [P]. *)
Definition emits {A} (P : call -> Prop) (m : M A) : Prop :=
  forall w : world,
    exists l : list call, calls (m w).2 = calls w ++ l /\ Forall P l.

(** The call that opens a mesh file, the first thing [cartesian] does. *)
Definition opens_data_file (c : call) : Prop :=
  match c with
  | COpenDataFile _ => True
  | _ => False
  end.

(** A registered source whose name contains one of the identifiers. *)
Definition is_temporary (names : list string) (k : string * handle) : Prop :=
  is_Some (List.find (fun name => contains name k.1) names).

#[local] Instance is_temporary_dec names k : Decision (is_temporary names k).
Proof. unfold is_temporary. apply _. Defined.

(** A method that leaves the attributes of [self] as they are, whether
    it returns or raises. *)
Definition preserves_self {A} (m : Meth A) : Prop :=
  forall s : CartesianDataFile * world, (m s).2.1 = s.1.

(** The file a call saves a screenshot to, if it is such a call. *)
Definition screenshot_path (c : call) : option string :=
  match c with
  | CSaveScreenshot fid _ _ => Some fid
  | _ => None
  end.

(** [m] is the binary64 mean of the entries [max] and [min] pick from
    [l]: no entry is greater than the first or smaller than the
    second. *)
Definition midpoint_of (l : list float) (m : float) : Prop :=
  exists lo hi : float,
    lo ∈ l /\ hi ∈ l /\
    (forall v : float, v ∈ l -> flt hi v = false /\ flt v lo = false) /\
    m = fdiv (fadd hi lo) (float_of_Z 2).

(** The mesh the instance is built on: the one the reader produces, or
    the one the scaling script makes of it. *)
Definition mesh_of `{Env} (fid : string)
    (scale_data scale_coords : option pynum) (zero_origin : bool)
  : exn + dataset :=
  if truthy scale_data || truthy scale_coords
  then run_script GetBounds
         (scale_input_script scale_data scale_coords zero_origin)
         (read_dataset fid)
  else inr (read_dataset fid).

(** A float of the interpreter that a 32-bit store keeps as it is. *)
Definition stored32 (x : float) : Prop := is_float x /\ narrow32 x = x.

(** One round of the loop of [movie_frame], for the file [fid]. *)
Definition movie_frame_round `{Env} (a : args) (cfg : config)
    (fid : string) : M unit :=
  (if verbose a then print [FStr fid] else mret tt) ;;
  mov ← SurfaceMovie__init__ fid "a";
  b0 ← lift (getitem (cfg_mov_bounds cfg) 0);
  b1 ← lift (getitem (cfg_mov_bounds cfg) 1);
  RescaleTransferFunction false b0 b1 ;;
  b0 ← lift (getitem (cfg_mov_bounds cfg) 0);
  b1 ← lift (getitem (cfg_mov_bounds cfg) 1);
  RescaleTransferFunction true b0 b1 ;;
  set_Scale (mov_display mov) [1%Q; 1%Q; cfg_mov_scale cfg] ;;
  ResetCamera ;;
  screenshot (path_join (output a) (fid +:+ ".png"))
             (cfg_resolution cfg) true.

(** ** things.py, continued: rulers, text and glyphs

    [ruler], [text], [point_source] and [glyphs] create a source and
    assign properties of the source and of its representation in the
    view.  Which assignments the host accepts is the host's business and
    a parameter here; the accepted ones are kept in a store beside the
    world.  The constructors [Ruler], [Text], [PointSource] and [Glyph]
    show in the registry, not in the call log. *)

(** What the sources assign to a property. *)
Inductive value : Type :=
  | VNone
  | VInt (n : Z)
  | VFloat (x : Q)
  | VStr (s : string)
  | VFloats (l : list Q)
  | VStrs (l : list string)
  | VRgb (c : Q * Q * Q).

(** A property of a source, or of its representation in the view. *)
Abbreviation attr := (bool * handle * string)%type.
Definition of_source (p : handle) (name : string) : attr := (false, p, name).
Definition of_display (d : handle) (name : string) : attr := (true, d, name).

Abbreviation store := (gmap attr value).

(** The functions of [things.py] run over the store and the world. *)
Abbreviation Thing := (St (store * world)).

Definition in_host {A} (m : M A) : Thing A := fun s =>
  let '(r, w') := m s.2 in (r, (s.1, w')).

(** A number or [None]. *)
Definition number (v : option Q) : value :=
  match v with
  | None => VNone
  | Some x => VFloat x
  end.

(** A string or [None]. *)
Definition text_or_none (v : option string) : value :=
  match v with
  | None => VNone
  | Some s => VStr s
  end.

(** [if n:] on an integer or [None]. *)
Definition truthy_int (v : option Z) : bool :=
  match v with
  | None => false
  | Some n => negb (n =? 0)
  end.

(** [str.title()] on ASCII text: a letter after a letter is put in
    lower case, any other letter in upper case. *)
Definition is_upper (c : ascii) : bool :=
  ((65 <=? nat_of_ascii c) && (nat_of_ascii c <=? 90))%nat.
Definition is_lower (c : ascii) : bool :=
  ((97 <=? nat_of_ascii c) && (nat_of_ascii c <=? 122))%nat.
Definition to_upper (c : ascii) : ascii :=
  if is_lower c then ascii_of_nat (nat_of_ascii c - 32) else c.
Definition to_lower (c : ascii) : ascii :=
  if is_upper c then ascii_of_nat (nat_of_ascii c + 32) else c.
Fixpoint title_from (previous_is_cased : bool) (s : string) : string :=
  match s with
  | EmptyString => EmptyString
  | String c s' =>
      if is_upper c || is_lower c
      then String (if previous_is_cased then to_lower c else to_upper c)
                  (title_from true s')
      else String c (title_from false s')
  end.
Definition title (s : string) : string := title_from false s.

(** The first argument of [glyphs]: a point or the name of a file. *)
Inductive glyph_origin : Type :=
  | OriginPoint (p : list Q)
  | OriginFile (fid : string).

Section Things.
Context `{Env}.
(** [matplotlib.colors.to_rgb] *)
Variable to_rgb : string -> exn + Q * Q * Q.
(** The exception the host raises on an assignment, if it does. *)
Variable rejects : world -> attr -> value -> option exn.

(** [obj.name = v] on a proxy of the host. *)
Definition setattr (k : attr) (v : value) : Thing unit :=
  s ← gets (fun s => s);
  match rejects s.2 k v with
  | Some e => raise e
  | None => modify (fun s => (<[k := v]> s.1, s.2))
  end.

Definition Ruler (registrationName : string) : Thing handle :=
  in_host (register registrationName).
Definition Text (registrationName : string) : Thing handle :=
  in_host (register registrationName).
Definition PointSource (registrationName : string) : Thing handle :=
  in_host (register registrationName).
Definition Glyph (Input : handle) (GlyphType registrationName : string)
  : Thing handle :=
  id ← in_host (register registrationName);
  in_host (modify (set_inputs (insert id Input))) ;;
  setattr (of_source id "GlyphType") (VStr GlyphType) ;;
  mret id.

(** [ruler(start, end, label="", graduation=None, ticknum=None,
    axis_color="k", font_color="k", justification="Left",
    reg_name="ruler", line_width=3., fontsize=12)] *)
Definition ruler (start end_ : list Q) (label : string)
    (graduation : option Q) (ticknum : option Z)
    (axis_color font_color justification reg_name : string)
    (line_width : Q) (fontsize : Z) : Thing (handle * handle) :=
  ruler ← Ruler reg_name;
  setattr (of_source ruler "Point1") (VFloats start) ;;
  setattr (of_source ruler "Point2") (VFloats end_) ;;
  in_host GetActiveView ;;
  rulerDisplay ← in_host (Show ruler (Some "RulerSourceRepresentation"%string));
  setattr (of_display rulerDisplay "LabelFormat") (VStr label) ;;
  assert_ (bool_decide (graduation <> None) || bool_decide (ticknum <> None))
          "Ruler requires graduation or ticknum" ;;
  (if truthy_int ticknum
   then setattr (of_display rulerDisplay "NumberOfTicks")
                (VInt (default 0 ticknum))
   else setattr (of_display rulerDisplay "RulerMode") (VInt 1) ;;
        setattr (of_display rulerDisplay "Graduation") (number graduation)) ;;
  setattr (of_display rulerDisplay "AxisColor") (VStr axis_color) ;;
  c ← lift (to_rgb font_color);
  setattr (of_display rulerDisplay "Color") (VRgb c) ;;
  setattr (of_display rulerDisplay "FontSize") (VInt fontsize) ;;
  setattr (of_display rulerDisplay "AxisLineWidth") (VFloat line_width) ;;
  setattr (of_display rulerDisplay "Justification")
          (VStr (title justification)) ;;
  in_host (Hide3DWidgets ruler) ;;
  mret (ruler, rulerDisplay).

(** [text(s, position, fontsize=12, color="k", bold=False,
    justification="center", reg_name="text")] *)
Definition text (s : string) (position : list Q) (fontsize : Z)
    (color : string) (bold : bool) (justification reg_name : string)
  : Thing (handle * handle) :=
  text ← Text reg_name;
  setattr (of_source text "Text") (VStr s) ;;
  in_host GetActiveView ;;
  textDisplay ← in_host (Show text None);
  setattr (of_display textDisplay "Position") (VFloats position) ;;
  setattr (of_display textDisplay "Bold") (VInt (Z.b2z bold)) ;;
  setattr (of_display textDisplay "FontSize") (VInt fontsize) ;;
  c ← lift (to_rgb color);
  setattr (of_display textDisplay "Color") (VRgb c) ;;
  setattr (of_display textDisplay "Justification")
          (VStr (title justification)) ;;
  mret (text, textDisplay).

(** [point_source(origin, reg_name="point")] *)
Definition point_source (origin : list Q) (reg_name : string)
  : Thing handle :=
  point ← PointSource reg_name;
  setattr (of_source point "Center") (VFloats origin) ;;
  mret point.

(** [glyphs(origin, type, twod=None, size=3., linewidth=2.,
    rotate=[0., 0., 0.], show="All Points", filled=1, opacity=1,
    position=[0., 0., 0.], color="k",
    representation_type="Surface With Edges", reg_name="glyph")], for
    an [origin] that is a list or a string; the function has no
    [return]. *)
Definition glyphs (origin : glyph_origin) (type_ : string)
    (twod : option string) (size linewidth : Q) (rotate : list Q)
    (show : string) (filled : Z) (opacity : Q) (position : list Q)
    (color representation_type reg_name : string) : Thing unit :=
  input ← match origin with
          | OriginPoint p => point_source p "point"
          | OriginFile fid => in_host (OpenDataFile fid)
          end;
  glyph ← Glyph input type_ reg_name;
  (if bool_decide (type_ = "2D Glyph"%string)
   then setattr (of_source glyph "GlyphType.GlyphType") (text_or_none twod)
   else mret tt) ;;
  setattr (of_source glyph "ScaleArray")
          (VStrs ["POINTS"; "No scale array"]%string) ;;
  setattr (of_source glyph "ScaleFactor") (VFloat size) ;;
  setattr (of_source glyph "GlyphMode") (VStr show) ;;
  setattr (of_source glyph "GlyphTransform.Rotate") (VFloats rotate) ;;
  setattr (of_source glyph "GlyphType.Filled") (VInt filled) ;;
  in_host GetActiveView ;;
  glyphDisplay ← in_host (Show glyph (Some "GeometryRepresentation"%string));
  setattr (of_display glyphDisplay "PointSize") (VFloat size) ;;
  setattr (of_display glyphDisplay "Representation")
          (VStr representation_type) ;;
  setattr (of_display glyphDisplay "LineWidth") (VFloat linewidth) ;;
  setattr (of_display glyphDisplay "Opacity") (VFloat opacity) ;;
  setattr (of_display glyphDisplay "Position") (VFloats position) ;;
  c ← lift (to_rgb color);
  setattr (of_display glyphDisplay "AmbientColor") (VRgb c) ;;
  c ← lift (to_rgb color);
  setattr (of_display glyphDisplay "DiffuseColor") (VRgb c).
End Things.

(** A function of [things.py] that, whether it returns or raises, only
    adds to the registry and to what the view shows, and leaves the
    files alone. *)
Definition only_adds {A} (m : Thing A) : Prop :=
  forall s : store * world,
    (exists l : list (string * handle),
       sources (m s).2.2 = sources s.2 ++ l) /\
    shown s.2 ⊆ shown (m s).2.2 /\
    paths (m s).2.2 = paths s.2.

(** A host that accepts every assignment, and the colours by name that
    the demonstrations use. *)
Definition accepts_all : world -> attr -> value -> option exn :=
  fun _ _ _ => None.
Definition demo_to_rgb (c : string) : exn + Q * Q * Q :=
  if bool_decide (c = "k"%string) then inr (0, 0, 0)%Q
  else if bool_decide (c = "w"%string) then inr (1, 1, 1)%Q
  else inl (ValueError ("Invalid RGBA argument: " +:+ c)).

(** * Properties *)

(** ** Floats *)

Example float_of_Z_rounds :
  float_of_Z (2 ^ 53 + 1) = float_of_Z (2 ^ 53).
Proof. reflexivity. Qed.
Example float_of_Z_overflows :
  int_to_float (10 ^ 400) =
    inl (OverflowError "int too large to convert to float").
Proof. vm_compute. reflexivity. Qed.
Example narrow32_rounds :
  narrow32 (fdiv (float_of_Z 1) (float_of_Z 10)) =
    S754_finite false 7205759511166976 (-56).
Proof. vm_compute. reflexivity. Qed.


Lemma digits2_pos_shift_52 (m : positive) :
  Zpos (digits2_pos (Pos.iter xO m 52)) = Zpos (digits2_pos m) + 52.
Proof. cbn [Pos.iter digits2_pos]. lia. Qed.

Lemma mul_two_52 (m : positive) :
  (m * 4503599627370496)%positive = Pos.iter xO m 52.
Proof. cbn [Pos.iter]. lia. Qed.

Lemma shr_exact_52 (m : positive) :
  SpecFloat.iter_pos shr_1 52
    {| shr_m := Zpos (Pos.iter xO m 52); shr_r := false; shr_s := false |} =
  {| shr_m := Zpos m; shr_r := false; shr_s := false |}.
Proof. reflexivity. Qed.

(** Multiplying by the default scale changes nothing: the product of a
    float and 1 needs no rounding. *)
Lemma fmul_one (x : float) : is_float x -> fmul x (float_of_Z 1) = x.
Proof.
  destruct x as [[|] | [|] | | s m e]; try reflexivity.
  unfold is_float, valid_binary, bounded, canonical_mantissa.
  intros Hv. apply andb_prop in Hv as [Hc Hb].
  apply Z.eqb_eq in Hc. apply Z.leb_le in Hb.
  change (float_of_Z 1) with (S754_finite false 4503599627370496 (-52)).
  unfold fmul, SFmul. rewrite xorb_false_r, mul_two_52.
  unfold binary_round_aux, shr_fexp, Zdigits2.
  rewrite digits2_pos_shift_52.
  replace (Z.pos (digits2_pos m) + 52 + (e + -52))
    with (Z.pos (digits2_pos m) + e) by lia.
  rewrite Hc. replace (e - (e + -52)) with 52 by lia.
  unfold shr at 1. cbn [shr_record_of_loc]. rewrite shr_exact_52.
  cbn [shr_m loc_of_shr_record round_nearest_even].
  replace (e + -52 + 52) with e by lia.
  rewrite Hc, Z.sub_diag. cbn [shr shr_m].
  rewrite (proj2 (Z.leb_le _ _) Hb). reflexivity.
Qed.

(** ** The numeric utilities *)

Example myround_up : myround (PyInt 7) 5 (Some "up"%string) = inr 10.
Proof. vm_compute. reflexivity. Qed.
Example myround_down : myround (PyInt 7) 5 (Some "down"%string) = inr 5.
Proof. vm_compute. reflexivity. Qed.
Example myround_tie_down :
  myround (PyFloat (fdiv (float_of_Z 5) (float_of_Z 2))) 1 None = inr 2.
Proof. vm_compute. reflexivity. Qed.
Example myround_tie_up :
  myround (PyFloat (fdiv (float_of_Z 7) (float_of_Z 2))) 1 None = inr 4.
Proof. vm_compute. reflexivity. Qed.
Example myround_negative : myround (PyInt (-7)) 5 None = inr (-5).
Proof. vm_compute. reflexivity. Qed.
Example myround_other_choice :
  myround (PyInt 7) 5 (Some "UP"%string) = inr 5.
Proof. vm_compute. reflexivity. Qed.
Example myround_zero_base :
  myround (PyInt 7) 0 None = inl (ZeroDivisionError "float division by zero").
Proof. vm_compute. reflexivity. Qed.
Example myround_huge_base :
  myround (PyInt 1) (10 ^ 400) None =
    inl (OverflowError "int too large to convert to float").
Proof. vm_compute. reflexivity. Qed.
Example myround_large_int :
  myround (PyInt (2 ^ 53 + 1)) 1 (Some "up"%string) = inr (2 ^ 53).
Proof. vm_compute. reflexivity. Qed.




(** On a tie [round] returns the even neighbour. *)
Lemma py_round_tie_even (q : Q) :
  (q - inject_Z (Qfloor q) == 1 # 2)%Q -> Z.even (py_round q) = true.
Proof.
  intros He. unfold py_round.
  destruct (Qcompare_spec (q - inject_Z (Qfloor q)) (1 # 2)) as [_ | Hl | Hg].
  - destruct (Z.even (Qfloor q)) eqn:Hev; [exact Hev |].
    rewrite Z.even_add, Hev. reflexivity.
  - rewrite He in Hl. discriminate.
  - rewrite He in Hg. discriminate.
Qed.





(** Whatever [myround] returns is a multiple of the base. *)
Lemma myround_rounds_to_a_multiple (x : pynum) (base : Z)
    (choice : option string) (r : Z) :
  myround x base choice = inr r -> (base | r).
Proof.
  unfold myround.
  destruct (py_float x); [discriminate |].
  destruct (int_to_float base); [discriminate |].
  destruct (base =? 0); [discriminate |].
  destruct (float_to_int _ _); [discriminate |].
  intros [= <-]. apply Z.divide_factor_l.
Qed.






Example translate_point_short :
  translate_point [PyInt 1; PyInt 2] None None None None =
    inl (IndexError "list index out of range").
Proof. reflexivity. Qed.

(** The use the docstring names: the origin of the map moved to a point
    given in metres, and metres made kilometres. *)
Example translate_point_nz :
  translate_point [PyInt 171312; PyInt 5286950; PyInt 0]
    (Some (PyInt 171312)) (Some (PyInt 5286950)) None
    (Some (PyFloat (fdiv (float_of_Z 1) (float_of_Z 1000)))) =
  inr [PyFloat (float_of_Z 0); PyFloat (float_of_Z 0); PyFloat (float_of_Z 0)].
Proof. vm_compute. reflexivity. Qed.

(** Integers stay exact, however large; the same point as floats is
    rounded. *)
Example translate_point_large_int :
  translate_point [PyInt (2 ^ 53 + 1); PyInt 0; PyInt 0] None None None None =
    inr [PyInt 9007199254740993; PyInt 0; PyInt 0].
Proof. reflexivity. Qed.

(** An offset too large for a float raises as soon as it meets one, before
    the missing coordinates are looked for. *)
Example translate_point_overflow_first :
  translate_point [PyFloat (float_of_Z 1)] (Some (PyInt (10 ^ 400))) None None
    None = inl (OverflowError "int too large to convert to float").
Proof. vm_compute. reflexivity. Qed.
(** ** The script of [scale_input] *)

Lemma for_each_inr {A B} (body : A -> exn + B) (l : list A) (bs : list B) :
  for_each body l = inr bs ->
  length bs = length l /\
  forall (i : nat) (a : A),
    l !! i = Some a -> exists b : B, body a = inr b /\ bs !! i = Some b.
Proof.
  revert bs. induction l as [| a l IH]; intros bs; cbn.
  - intros [= <-]. split; [reflexivity |]. intros i a Ha. discriminate Ha.
  - destruct (body a) as [e | b] eqn:Hb; [discriminate |].
    destruct (for_each body l) as [e | bs'] eqn:Hl; [discriminate |].
    intros [= <-]. destruct (IH bs' eq_refl) as [Hlen Hget].
    split; [cbn; rewrite Hlen; reflexivity |].
    intros [| i] a' Ha; cbn in *.
    + injection Ha as <-. exists b. split; [exact Hb | reflexivity].
    + apply Hget. exact Ha.
Qed.

Lemma for_each_returns {A B} (body : A -> exn + B) (l : list A) :
  (forall a : A, a ∈ l -> exists b : B, body a = inr b) ->
  exists bs : list B, for_each body l = inr bs.
Proof.
  induction l as [| a l IH]; intros Hall; cbn.
  - eexists. reflexivity.
  - destruct (Hall a) as [b ->]; [left |].
    destruct IH as [bs ->]; [intros a' Ha'; apply Hall; right; exact Ha' |].
    eexists. reflexivity.
Qed.

Lemma times_literal_inr (x : float) (v : pynum) (k : float) :
  script_literal v = inr v -> py_float v = inr k ->
  times_literal x v = inr (fmul x k).
Proof. intros Hl Hk. unfold times_literal. rewrite Hl, Hk. reflexivity. Qed.

(** One point of the first loop, when the factor can be read and
    converted. *)
Lemma script_point_inr (s : script) (b : bounds) (x y z k : float) :
  script_literal (sc_scale_coords s) = inr (sc_scale_coords s) ->
  py_float (sc_scale_coords s) = inr k ->
  script_point s b (x, y, z) =
    inr (let '(min_x, _, min_y, _, _, _) := b in
         let x := if sc_zero_origin s then fsub x min_x else x in
         let y := if sc_zero_origin s then fsub y min_y else y in
         if py_truthy (sc_scale_coords s)
         then (narrow32 (fmul x k), narrow32 (fmul y k), narrow32 (fmul z k))
         else (narrow32 x, narrow32 y, narrow32 z)).
Proof.
  intros Hl Hk. destruct b as [[[[[min_x max_x] min_y] max_y] min_z] max_z].
  unfold script_point. rewrite Hl.
  destruct (sc_zero_origin s), (py_truthy (sc_scale_coords s));
    rewrite ?(times_literal_inr _ _ _ Hl Hk); reflexivity.
Qed.

Example script_zero_origin :
  run_script
    (fun _ => (float_of_Z 10, float_of_Z 30, float_of_Z 20, float_of_Z 40,
               float_of_Z 0, float_of_Z 0))
    (scale_input_script None (Some (PyInt 2)) true)
    (Dataset [(float_of_Z 10, float_of_Z 20, float_of_Z 5);
              (float_of_Z 30, float_of_Z 40, float_of_Z 7)]
             [float_of_Z 2; float_of_Z 3] "vs") =
  inr (Dataset [(float_of_Z 0, float_of_Z 0, float_of_Z 10);
                (float_of_Z 40, float_of_Z 40, float_of_Z 14)]
               [float_of_Z 2; float_of_Z 3] "vs").
Proof. vm_compute. reflexivity. Qed.

(** The 32-bit store shows: 20 times the float 0.001 is the float 0.02,
    and what the filter keeps is the 32-bit float nearest to it. *)
Example script_stores_32_bits :
  run_script
    (fun _ => (float_of_Z 10, float_of_Z 30, float_of_Z 20, float_of_Z 40,
               float_of_Z 0, float_of_Z 0))
    (scale_input_script None (Some (PyFloat milli)) true)
    (Dataset [(float_of_Z 30, float_of_Z 40, float_of_Z 7)]
             [float_of_Z 3] "vs") =
  inr (Dataset [(S754_finite false 5764607394185216 (-58),
                 S754_finite false 5764607394185216 (-58),
                 S754_finite false 8070450781356032 (-60))]
               [float_of_Z 3] "vs").
Proof. vm_compute. reflexivity. Qed.

Example script_unreadable_factor :
  run_script
    (fun _ => (float_of_Z 0, float_of_Z 0, float_of_Z 0, float_of_Z 0,
               float_of_Z 0, float_of_Z 0))
    (scale_input_script None (Some (PyFloat (S754_infinity false))) false)
    (Dataset [(float_of_Z 1, float_of_Z 2, float_of_Z 3)] [float_of_Z 5] "vs")
  = inl (NameError "name 'inf' is not defined").
Proof. reflexivity. Qed.

(** C3, as the code has it.  Let [k] be the float of [scale_coords] and
    [kd] the float of [scale_data], each 1 when the argument is [None];
    both are ints or finite floats.  The script maps every input point
    (x, y, z) to the 32-bit roundings of ((x - xmin) * k, (y - ymin) * k,
    z * k) when [zero_origin] is true and of (x * k, y * k, z * k)
    otherwise, where xmin and ymin are taken from the bounds of the input
    and every operation is the one of binary64 -- provided the factor is
    not zero.  When it is zero the script skips the multiplication and the
    point is only shifted.  The scalar of every point becomes the 32-bit
    rounding of its binary64 product with [kd]. *)
Theorem scale_input_script_spec (GetBounds : list point -> bounds)
    (scale_data scale_coords : option pynum) (zero_origin : bool)
    (pdi : dataset) (k kd : float) :
  let c := default (PyInt 1) scale_coords in
  let d := default (PyInt 1) scale_data in
  script_literal c = inr c -> py_float c = inr k ->
  script_literal d = inr d -> py_float d = inr kd ->
  exists out : dataset,
    run_script GetBounds
      (scale_input_script scale_data scale_coords zero_origin) pdi = inr out /\
    let '(xmin, _, ymin, _, _, _) := GetBounds (ds_points pdi) in
    (forall (i : nat) (x y z : float),
       ds_points pdi !! i = Some (x, y, z) ->
       (py_truthy c = true -> zero_origin = true ->
          ds_points out !! i =
            Some (narrow32 (fmul (fsub x xmin) k),
                  narrow32 (fmul (fsub y ymin) k), narrow32 (fmul z k))) /\
       (py_truthy c = true -> zero_origin = false ->
          ds_points out !! i =
            Some (narrow32 (fmul x k), narrow32 (fmul y k),
                  narrow32 (fmul z k))) /\
       (py_truthy c = false ->
          ds_points out !! i =
            Some (if zero_origin
                  then (narrow32 (fsub x xmin), narrow32 (fsub y ymin),
                        narrow32 z)
                  else (narrow32 x, narrow32 y, narrow32 z)))) /\
    (forall (i : nat) (v : float),
       ds_scalars pdi !! i = Some v -> (i < length (ds_points pdi))%nat ->
       ds_scalars out !! i = Some (narrow32 (fmul v kd))) /\
    length (ds_points out) = length (ds_points pdi).
Proof.
  cbv zeta. intros Hcl Hck Hdl Hdk.
  set (s := scale_input_script scale_data scale_coords zero_origin).
  assert (Hc : sc_scale_coords s = default (PyInt 1) scale_coords)
    by (destruct scale_coords; reflexivity).
  assert (Hd : sc_scale_data s = default (PyInt 1) scale_data)
    by (destruct scale_data; reflexivity).
  assert (Hz : sc_zero_origin s = zero_origin) by reflexivity.
  rewrite <- Hc in Hcl, Hck. rewrite <- Hd in Hdl, Hdk.
  destruct (for_each_returns (script_point s (GetBounds (ds_points pdi)))
              (ds_points pdi))
    as [newPoints Hpts].
  { intros [[x y] z] _. eexists. apply (script_point_inr _ _ _ _ _ _ Hcl Hck). }
  destruct (for_each_returns
              (fun i =>
                 match
                   times_literal (nth i (ds_scalars pdi) (S754_zero false))
                     (sc_scale_data s)
                 with
                 | inl e => inl e
                 | inr v => inr (narrow32 v)
                 end) (seq 0 (length (ds_points pdi)))) as [ca Hca].
  { intros i _. rewrite (times_literal_inr _ _ _ Hdl Hdk). eexists.
    reflexivity. }
  exists {| ds_points := newPoints; ds_scalars := ca; ds_name := ds_name pdi |}.
  split; [unfold run_script; rewrite Hpts, Hca; reflexivity |].
  apply for_each_inr in Hpts as [Hlen Hget].
  apply for_each_inr in Hca as [_ Hval].
  destruct (GetBounds (ds_points pdi))
    as [[[[[xmin xmax] ymin] ymax] zmin] zmax] eqn:Hb.
  cbn [ds_points ds_scalars]. split; [| split; [| exact Hlen]].
  - intros i x y z Hp. destruct (Hget i (x, y, z) Hp) as (p & Hsp & ->).
    rewrite (script_point_inr _ _ _ _ _ _ Hcl Hck) in Hsp.
    injection Hsp as <-.
    change (match scale_coords with Some v => v | None => PyInt 1 end)
      with (default (PyInt 1) scale_coords).
    repeat split.
    + intros -> ->. reflexivity.
    + intros -> ->. reflexivity.
    + intros ->. destruct zero_origin; reflexivity.
  - intros i v Hv Hi.
    destruct (Hval i i) as (r & Hr & ->); [apply lookup_seq_lt; exact Hi |].
    rewrite (nth_lookup_Some _ _ _ _ Hv), (times_literal_inr _ _ _ Hdl Hdk)
      in Hr.
    injection Hr as <-. reflexivity.
Qed.

Lemma scale_input_script_spec_witness :
  let GetBounds := fun _ : list point =>
    (float_of_Z 10, float_of_Z 30, float_of_Z 20, float_of_Z 40,
     float_of_Z 5, float_of_Z 7) in
  let pdi :=
    Dataset [(float_of_Z 10, float_of_Z 20, float_of_Z 5);
             (float_of_Z 30, float_of_Z 40, float_of_Z 7)]
            [float_of_Z 2; float_of_Z 3] "vs" in
  exists out : dataset,
    run_script GetBounds
      (scale_input_script (Some (PyFloat milli)) (Some (PyFloat milli)) true)
      pdi = inr out /\
    ds_points out !! 1%nat =
      Some (narrow32 (fmul (fsub (float_of_Z 30) (float_of_Z 10)) milli),
            narrow32 (fmul (fsub (float_of_Z 40) (float_of_Z 20)) milli),
            narrow32 (fmul (float_of_Z 7) milli)) /\
    ds_scalars out !! 1%nat = Some (narrow32 (fmul (float_of_Z 3) milli)).
Proof.
  intros GetBounds pdi.
  destruct (scale_input_script_spec GetBounds
              (Some (PyFloat milli)) (Some (PyFloat milli)) true pdi
              milli milli eq_refl eq_refl eq_refl eq_refl)
    as (out & Hrun & Hpts & Hvals & _).
  exists out. split; [exact Hrun |]. split.
  - apply (Hpts 1%nat (float_of_Z 30) (float_of_Z 40) (float_of_Z 7));
      reflexivity.
  - apply (Hvals 1%nat (float_of_Z 3)); [reflexivity | cbn; lia].
Defined.

(** C3 as stated fails twice.  For a zero coordinate factor the point
    (1, 2, 3) stays where it is instead of going to (1 * 0, 2 * 0,
    3 * 0).  And for the factor 0.001 the X coordinate 20 of a shifted
    point does not become 20 times the value of the factor: the product
    is rounded, and rounded again to 32 bits. *)
Lemma scale_input_script_counterexample :
  ~ (forall (GetBounds : list point -> bounds)
            (scale_data : option pynum) (k : Z) (zero_origin : bool)
            (pdi : dataset) (i : nat) (x y z : float),
       let '(xmin, _, ymin, _, _, _) := GetBounds (ds_points pdi) in
       ds_points pdi !! i = Some (x, y, z) ->
       exists (out : dataset) (x' y' z' : float),
         run_script GetBounds
           (scale_input_script scale_data (Some (PyInt k)) zero_origin) pdi
           = inr out /\
         ds_points out !! i = Some (x', y', z') /\
         if zero_origin
         then (F2Q x' == (F2Q x - F2Q xmin) * inject_Z k /\
               F2Q y' == (F2Q y - F2Q ymin) * inject_Z k /\
               F2Q z' == F2Q z * inject_Z k)%Q
         else (F2Q x' == F2Q x * inject_Z k /\ F2Q y' == F2Q y * inject_Z k /\
               F2Q z' == F2Q z * inject_Z k)%Q) /\
  ~ (forall (GetBounds : list point -> bounds)
            (scale_data : option pynum) (k : float) (zero_origin : bool)
            (pdi : dataset) (i : nat) (x y z : float),
       let '(xmin, _, ymin, _, _, _) := GetBounds (ds_points pdi) in
       is_finite k = true -> py_truthy (PyFloat k) = true ->
       ds_points pdi !! i = Some (x, y, z) ->
       exists (out : dataset) (x' y' z' : float),
         run_script GetBounds
           (scale_input_script scale_data (Some (PyFloat k)) zero_origin) pdi
           = inr out /\
         ds_points out !! i = Some (x', y', z') /\
         if zero_origin
         then (F2Q x' == (F2Q x - F2Q xmin) * F2Q k /\
               F2Q y' == (F2Q y - F2Q ymin) * F2Q k /\
               F2Q z' == F2Q z * F2Q k)%Q
         else (F2Q x' == F2Q x * F2Q k /\ F2Q y' == F2Q y * F2Q k /\
               F2Q z' == F2Q z * F2Q k)%Q).
Proof.
  split; intros Hclaim.
  - specialize (Hclaim
      (fun _ => (float_of_Z 1, float_of_Z 1, float_of_Z 2, float_of_Z 2,
                 float_of_Z 3, float_of_Z 3))
      (Some (PyInt 1)) 0 false
      (Dataset [(float_of_Z 1, float_of_Z 2, float_of_Z 3)] [float_of_Z 5] "vs")
      0%nat (float_of_Z 1) (float_of_Z 2) (float_of_Z 3)).
    cbv beta iota zeta in Hclaim.
    destruct (Hclaim eq_refl) as (out & x' & y' & z' & Hrun & Hp & Hx & _).
    vm_compute in Hrun. injection Hrun as <-. cbn in Hp.
    injection Hp as <- <- <-. vm_compute in Hx. discriminate Hx.
  - specialize (Hclaim
      (fun _ => (float_of_Z 10, float_of_Z 30, float_of_Z 20, float_of_Z 40,
                 float_of_Z 5, float_of_Z 7))
      None milli true
      (Dataset [(float_of_Z 30, float_of_Z 40, float_of_Z 7)] [] "vs")
      0%nat (float_of_Z 30) (float_of_Z 40) (float_of_Z 7)).
    cbv beta iota zeta in Hclaim.
    destruct (Hclaim eq_refl eq_refl eq_refl)
      as (out & x' & y' & z' & Hrun & Hp & Hx & _).
    vm_compute in Hrun. injection Hrun as <-. cbn in Hp.
    injection Hp as <- <- <-. vm_compute in Hx. discriminate Hx.
Qed.

(** ** Running the entry point *)

Example splitext_config : splitext "config.py" = ("config", ".py")%string.
Proof. reflexivity. Qed.
Example splitext_dotfile : splitext "dir.d/.bashrc" = ("dir.d/.bashrc", "")%string.
Proof. reflexivity. Qed.
Example path_join_plain : path_join "output" "a.png" = "output/a.png"%string.
Proof. reflexivity. Qed.
Example path_join_absolute : path_join "output" "/tmp/a.png" = "/tmp/a.png"%string.
Proof. reflexivity. Qed.
Example sorted_frames :
  sorted ["frames/it2.inp"; "frames/it10.inp"; "frames/it1.inp"]%string =
  ["frames/it1.inp"; "frames/it10.inp"; "frames/it2.inp"]%string.
Proof. reflexivity. Qed.
Example contains_ruler : contains "ruler" "my_ruler_1" = true.
Proof. reflexivity. Qed.
Example contains_not : contains "glyph" "my_ruler_1" = false.
Proof. reflexivity. Qed.

(** Unfolds one layer of the monad. *)
Ltac run :=
  unfold mbind, St_bind, mret, St_ret, gets, modify, raise, lift, assert_;
  cbn beta iota.

Section Startup.
Context `{Env}.

Lemma check_returns (ns a : args) (w w' : world) :
  check ns w = (inr a, w') -> a = checked ns /\ calls w' = calls w.
Proof.
  unfold checked, check, path_exists, mkdir. run.
  destruct (movie ns); cbn.
  - destruct (bool_decide (output ns ∈ paths w)); cbn.
    + intros [= <- <-]. split; reflexivity.
    + destruct (mkdir_fails (output ns)); cbn; [discriminate |].
      intros [= <- <-]. split; reflexivity.
  - destruct (bool_decide (fid ns ∈ paths w)); cbn; [| discriminate].
    destruct (bool_decide (output ns ∈ paths w)); cbn.
    + intros [= <- <-]. split; reflexivity.
    + destruct (mkdir_fails (output ns)); cbn; [discriminate |].
      intros [= <- <-]. split; reflexivity.
Qed.

Lemma check_succeeds (ns : args) (w : world) :
  movie ns = true \/ fid ns ∈ paths w ->
  output ns ∈ paths w \/ mkdir_fails (output ns) = false ->
  exists w', check ns w = (inr (checked ns), w').
Proof.
  intros Hfid Hout. unfold checked, check, path_exists, mkdir. run.
  assert (Hfirst : (if negb (movie ns)
                    then if bool_decide (fid ns ∈ paths w) then true else false
                    else true) = true).
  { destruct Hfid as [-> | Hin]; [reflexivity |].
    rewrite bool_decide_eq_true_2 by exact Hin. destruct (movie ns); reflexivity. }
  destruct (movie ns); cbn in *.
  - destruct (bool_decide (output ns ∈ paths w)) eqn:Ho; cbn.
    + eexists; reflexivity.
    + destruct Hout as [Hin | ->]; cbn; [| eexists; reflexivity].
      apply bool_decide_eq_false in Ho. contradiction.
  - destruct (bool_decide (fid ns ∈ paths w)); [cbn | discriminate].
    destruct (bool_decide (output ns ∈ paths w)) eqn:Ho; cbn.
    + eexists; reflexivity.
    + destruct Hout as [Hin | ->]; cbn; [| eexists; reflexivity].
      apply bool_decide_eq_false in Ho. contradiction.
Qed.

(** C10.  When [check] is given a namespace without an output filename
    it returns it with [fid_out] set to [fid + ".png"]; a filename that
    was given is kept as it is.  [check] does return whenever the file to
    plot is there (or the movie option is set) and the output directory
    exists or can be made. *)
Theorem check_fid_out (ns : args) (w : world) :
  (forall (a : args) (w' : world),
     check ns w = (inr a, w') ->
     (fid_out ns = None -> fid_out a = Some (fid ns +:+ ".png")) /\
     (forall f, fid_out ns = Some f -> fid_out a = Some f)) /\
  (movie ns = true \/ fid ns ∈ paths w ->
   output ns ∈ paths w \/ mkdir_fails (output ns) = false ->
   exists (a : args) (w' : world),
     check ns w = (inr a, w') /\
     fid_out a = Some (default (fid ns +:+ ".png") (fid_out ns))).
Proof.
  split.
  - intros a w' Hrun. apply check_returns in Hrun as [-> _].
    unfold checked. cbn. split.
    + intros ->. reflexivity.
    + intros f ->. reflexivity.
  - intros Hfid Hout.
    destruct (check_succeeds ns w Hfid Hout) as [w' Hrun].
    exists (checked ns), w'. split; [exact Hrun |].
    unfold checked. cbn. destruct (fid_out ns); reflexivity.
Qed.

(** ** Assertions at startup *)

Lemma check_missing_input (ns : args) (w : world) :
  movie ns = false -> fid ns ∉ paths w ->
  check ns w = (inl (AssertionError (fid ns +:+ " does not exist")), w).
Proof.
  intros Hm Hin. unfold check, path_exists. run. rewrite Hm. cbn.
  rewrite bool_decide_eq_false_2 by exact Hin. reflexivity.
Qed.

Lemma setup_missing_cfg (cfg_fid : string) (w : world) :
  cfg_fid ∉ paths w ->
  setup cfg_fid w =
    (inl (AssertionError
            ("PyrateView requires a valid .py configuration file: "
             +:+ cfg_fid)), w).
Proof.
  intros Hin. unfold setup, path_exists. run.
  rewrite bool_decide_eq_false_2 by exact Hin. reflexivity.
Qed.

(** C2, as the code has it.  The input file is asserted to exist only
    when the movie option is not given: then a missing input file aborts
    the run with "<fid> does not exist" before anything else has happened.
    The configuration file is asserted to exist in every run: once the
    arguments are checked, a missing configuration file aborts the run
    with its message before any call to the host. *)
Theorem startup_asserts (ns : args) (w : world) :
  (movie ns = false -> fid ns ∉ paths w ->
   startup ns w =
     (inl (AssertionError (fid ns +:+ " does not exist")), w) /\
   main ns w =
     (inl (AssertionError (fid ns +:+ " does not exist")), w)) /\
  (forall (a : args) (w' : world),
     parse_args ns w = (inr a, w') -> cfg_fid ns ∉ paths w' ->
     startup ns w =
       (inl (AssertionError
               ("PyrateView requires a valid .py configuration file: "
                +:+ cfg_fid ns)), w') /\
     main ns w =
       (inl (AssertionError
               ("PyrateView requires a valid .py configuration file: "
                +:+ cfg_fid ns)), w') /\
     calls w' = calls w).
Proof.
  split.
  - intros Hm Hin. unfold startup, main, parse_args. run.
    rewrite (check_missing_input ns w Hm Hin). split; reflexivity.
  - intros a w' Hargs Hin. unfold startup, main. run. rewrite Hargs.
    unfold parse_args in Hargs. apply check_returns in Hargs as [-> Hcalls].
    cbn [cfg_fid checked].
    rewrite (setup_missing_cfg (cfg_fid ns) w' Hin).
    repeat split. exact Hcalls.
Qed.
End Startup.

Lemma startup_asserts_witness :
  startup demo_args (fresh_world ["config.py"]%string) =
    (inl (AssertionError "model.vtk does not exist"),
     fresh_world ["config.py"]%string) /\
  main demo_args (fresh_world ["config.py"]%string) =
    (inl (AssertionError "model.vtk does not exist"),
     fresh_world ["config.py"]%string).
Proof.
  apply (startup_asserts demo_args (fresh_world ["config.py"]%string)).
  - reflexivity.
  - vm_compute. set_solver.
Defined.

(** C2 as stated fails with the movie option: the pattern
    [frames/*.inp] names no file, and startup returns all the same. *)
Lemma startup_asserts_counterexample :
  ~ (forall (E : Env) (ns : args) (w : world),
       fid ns ∉ paths w ->
       exists (e : exn) (w' : world), startup ns w = (inl e, w')).
Proof.
  intros Hclaim.
  destruct (Hclaim demo_env demo_movie_args
              (fresh_world ["config.py"]%string)) as (e & w' & Hrun).
  - vm_compute. set_solver.
  - vm_compute in Hrun. discriminate Hrun.
Qed.

(** In that run the movie frames are rendered and saved. *)
Example movie_run_plots :
  CSaveScreenshot "output/frames/it1.inp.png" [2100; 2100] true
    ∈ calls (main demo_movie_args (fresh_world ["config.py"]%string)).2.
Proof. vm_compute. set_solver. Qed.

Lemma check_fid_out_witness :
  exists (a : args) (w' : world),
    check demo_args (fresh_world ["model.vtk"; "config.py"]%string) =
      (inr a, w') /\
    fid_out a = Some "model.vtk.png"%string.
Proof.
  apply (check_fid_out demo_args
           (fresh_world ["model.vtk"; "config.py"]%string)).
  - right. vm_compute. set_solver.
  - right. reflexivity.
Defined.

(** ** Which routine the entry point runs *)

Section Emits.
Context {P : call -> Prop}.

Lemma emits_ret {A} (a : A) : emits P (mret a).
Proof. intros w. exists []. rewrite app_nil_r. split; [reflexivity | constructor]. Qed.

Lemma emits_raise {A} (e : exn) : emits P (raise e : M A).
Proof. intros w. exists []. rewrite app_nil_r. split; [reflexivity | constructor]. Qed.

Lemma emits_lift {A} (r : exn + A) : emits P (lift r : M A).
Proof. intros w. exists []. rewrite app_nil_r. split; [reflexivity | constructor]. Qed.

Lemma emits_gets {A} (f : world -> A) : emits P (gets f).
Proof. intros w. exists []. rewrite app_nil_r. split; [reflexivity | constructor]. Qed.

Lemma emits_modify (f : world -> world) :
  (forall w, calls (f w) = calls w) -> emits P (modify f).
Proof.
  intros Hf w. exists []. rewrite app_nil_r. cbn. split; [apply Hf | constructor].
Qed.

Lemma emits_log (c : call) : P c -> emits P (log c).
Proof.
  intros Hc w. exists [c]. split; [reflexivity | repeat constructor; exact Hc].
Qed.

Lemma emits_bind {A B} (m : M A) (k : A -> M B) :
  emits P m -> (forall a, emits P (k a)) -> emits P (m ≫= k).
Proof.
  intros Hm Hk w. unfold mbind, St_bind.
  destruct (Hm w) as (l1 & E1 & F1).
  destruct (m w) as [[e | a] w1]; cbn in *.
  - exists l1. split; assumption.
  - destruct (Hk a w1) as (l2 & E2 & F2).
    exists (l1 ++ l2). rewrite E2, E1, app_assoc.
    split; [reflexivity | apply Forall_app; split; assumption].
Qed.

Lemma emits_for {A} (l : list A) (body : A -> M unit) :
  (forall x, emits P (body x)) -> emits P (for_ l body).
Proof.
  intros Hbody. induction l as [| x l IH]; cbn.
  - apply emits_ret.
  - apply emits_bind; [apply Hbody | intros _; exact IH].
Qed.

Lemma emits_assert (c : bool) (msg : string) : emits P (assert_ c msg).
Proof. destruct c; [apply emits_ret | apply emits_raise]. Qed.

Lemma emits_print (line : list frag) : emits P (print line).
Proof. apply emits_modify. reflexivity. Qed.

Lemma emits_register (name : string) : emits P (register name).
Proof.
  unfold register.
  repeat (first [ apply emits_bind; [| intros ?] | apply emits_gets
                | apply emits_ret | apply emits_modify; reflexivity ]).
Qed.
End Emits.

(** Breaks a script into its host calls. *)
Ltac emits_step :=
  lazymatch goal with
  | |- emits _ (mbind _ _) => apply emits_bind; [| intros ?; cbn beta]
  | |- emits _ (mret _) => apply emits_ret
  | |- emits _ (raise _) => apply emits_raise
  | |- emits _ (lift _) => apply emits_lift
  | |- emits _ (gets _) => apply emits_gets
  | |- emits _ (assert_ _ _) => apply emits_assert
  | |- emits _ (print _) => apply emits_print
  | |- emits _ (register _) => apply emits_register
  | |- emits _ (log _) => apply emits_log; cbn; tauto
  | |- emits _ (for_ _ _) => apply emits_for; intros ?; cbn beta
  | |- emits _ (modify _) =>
      apply emits_modify; intros ?; repeat case_match; reflexivity
  | |- emits _ (if ?b then _ else _) => destruct b
  | |- emits _ (match ?x with _ => _ end) => destruct x
  | |- emits _ _ => apply emits_ret
  end.
Ltac emits_tac := repeat emits_step.

Section Dispatch.
Context `{Env}.

Lemma check_emits_nothing (ns : args) :
  emits (fun c => ~ opens_data_file c) (check ns).
Proof. unfold check, path_exists, mkdir. emits_tac. Qed.

Lemma setup_never_opens (cfg_fid : string) :
  emits (fun c => ~ opens_data_file c) (setup cfg_fid).
Proof.
  unfold setup, path_exists, GetActiveViewOrCreate, Render, GetLayout, SetSize.
  emits_tac.
Qed.

Lemma movie_frame_never_opens (a : args) (cfg : config) :
  emits (fun c => ~ opens_data_file c) (movie_frame a cfg).
Proof.
  unfold movie_frame, SurfaceMovie__init__, AVSUCDReader, screenshot,
    GetActiveView, Show, GetColorTransferFunction, GetOpacityTransferFunction,
    RescaleTransferFunction, set_Scale, ResetCamera, SaveScreenshot.
  emits_tac.
Qed.

Lemma first_call_logged {A B C} (c : call) (r : M A) (k1 : A -> M B)
    (k2 : B -> M C) (w : world) :
  emits (fun _ => True) ((r ≫= k1) ≫= k2) ->
  exists l : list call,
    calls ((((log c ;; r) ≫= k1) ≫= k2) w).2 = calls w ++ c :: l.
Proof.
  intros Hrest.
  destruct (Hrest (set_calls (fun cs => cs ++ [c]) w)) as (l & E & _).
  exists l. unfold mbind, St_bind, log, modify in *. cbn in *.
  rewrite E, <- app_assoc. reflexivity.
Qed.

(** Opening the data file is the first host call of the constructor, and
    so of [cartesian]. *)
Lemma CartesianDataFile_opens_first (fid : string)
    (scale_data scale_coords : option pynum) (zero_origin : bool)
    (w : world) :
  exists l : list call,
    calls (CartesianDataFile__init__ fid scale_data scale_coords
             zero_origin w).2 = calls w ++ COpenDataFile fid :: l.
Proof.
  unfold CartesianDataFile__init__, OpenDataFile.
  apply first_call_logged.
  unfold scale_input, programmable_filter, _get_coordinates,
    _get_data_minmax, Fetch, PointData_GetArray0, GetActiveViewOrCreate,
    GetActiveView, Show, Hide, ProgrammableFilter, set_Script, ColorBy.
  emits_tac.
Qed.

(** C1, as the code has it.  Whatever the movie option says, the entry
    point checks the arguments, loads the configuration and then runs
    [movie_frame]; it never makes the call that opens a mesh file, with
    which [cartesian] begins, so the cartesian routine is never run. *)
Theorem main_always_runs_movie_frame (ns : args) (w : world) :
  main ns w =
    (startup ns ≫= fun '(a, cfg) => movie_frame a cfg) w /\
  (exists l : list call,
     calls (main ns w).2 = calls w ++ l /\
     Forall (fun c => ~ opens_data_file c) l) /\
  (forall (a : args) (cfg : config) (w1 : world),
     exists l : list call,
       calls (CartesianDataFile__init__ (fid a) (cfg_scale_data cfg)
                (cfg_scale_coords cfg) (cfg_zero_origin cfg) w1).2 =
       calls w1 ++ COpenDataFile (fid a) :: l).
Proof.
  split; [| split].
  - unfold main, startup, mbind, St_bind, mret, St_ret.
    destruct (parse_args ns w) as [[e | a] w1]; [reflexivity |].
    destruct (setup (cfg_fid a) w1) as [[e | cfg] w2]; reflexivity.
  - assert (Hmain : emits (fun c => ~ opens_data_file c) (main ns)).
    { unfold main, parse_args.
      apply emits_bind; [apply check_emits_nothing | intros a].
      apply emits_bind; [apply setup_never_opens | intros cfg].
      apply movie_frame_never_opens. }
    apply Hmain.
  - intros a cfg w1. apply CartesianDataFile_opens_first.
Qed.

(** When [cartesian] runs to its end, the last thing it does is save the
    screenshot under the output directory joined with [args.fid_out]. *)
Lemma cartesian_saves_to_fid_out (a : args) (cfg : config) (f : string)
    (w w' : world) :
  fid_out a = Some f ->
  cartesian a cfg w = (inr tt, w') ->
  exists l : list call,
    calls w' =
      l ++ [CResetCamera; CGetActiveView;
            CSaveScreenshot (path_join (output a) f) (cfg_resolution cfg) true].
Proof.
  intros Hf. unfold cartesian. rewrite Hf. unfold mbind at 1, St_bind at 1.
  destruct (CartesianDataFile__init__ _ _ _ _ w) as [[e | cdf] w1];
    [discriminate |].
  unfold mbind at 1, St_bind at 1.
  destruct (call_method cdf (depth_slice (-5) true) w1)
    as [[e | [zslice cdf1]] w2]; [discriminate |].
  unfold mbind at 1, St_bind at 1.
  destruct (colormap (cdf_data cdf1) w2) as [[e | lut] w3]; [discriminate |].
  unfold mbind at 1, St_bind at 1.
  destruct (colorbar lut w3) as [[e | cbar] w4]; [discriminate |].
  unfold mbind at 1, St_bind at 1.
  destruct (call_method cdf1 center w4) as [[e | [mids cdf2]] w5];
    [discriminate |].
  destruct mids as [| xm [| ym [| zm [| ? ?]]]]; try discriminate.
  unfold ResetCamera, screenshot, GetActiveView, SaveScreenshot, log. run.
  intros [= <-]. cbn. exists (calls w5).
  rewrite <- !app_assoc. reflexivity.
Qed.
End Dispatch.

(** [pyrateview model.vtk], without the movie option, in a directory
    with the mesh and the configuration: the mesh is handed to the reader
    of movie files and a movie frame is saved. *)
Example main_without_movie_option :
  calls (main demo_args (fresh_world ["model.vtk"; "config.py"]%string)).2 =
  [CGetActiveViewOrCreate "RenderView"; CRender; CGetLayout;
   CSetSize 2100 2100; CAVSUCDReader ["model.vtk"%string]; CGetActiveView;
   CShow 0 (Some "UnstructuredGridRepresentation"%string);
   CGetColorTransferFunction "a"; CGetOpacityTransferFunction "a";
   CRescaleTransferFunction false (-1 # 10000) (1 # 10000);
   CRescaleTransferFunction true (-1 # 10000) (1 # 10000);
   CSetScale 0 [1%Q; 1%Q; 4%Q]; CResetCamera; CGetActiveView;
   CSaveScreenshot "output/model.vtk.png" [2100; 2100] true].
Proof. vm_compute. reflexivity. Qed.

(** What the cartesian routine does in the same directory. *)
Example cartesian_on_the_same_input :
  calls (cartesian (checked demo_args) demo_cfg
           (fresh_world ["model.vtk"; "config.py"]%string)).2 =
  [COpenDataFile "model.vtk"; CGetActiveViewOrCreate "RenderView";
   CShow 0 None; CProgrammableFilter "ProgrammableFilter" 0; CGetActiveView;
   CShow 1 (Some "UnstructuredGridRepresentation"%string);
   CColorBy 1 "vs"; CHide 0; CHide 1; CFetch 1; CGetActiveView;
   CShow 1 (Some "UnstructuredGridRepresentation"%string);
   CSlice 1; CHide3DWidgets 2; CShow 2 None; CHide 1; CResetCamera;
   CGetActiveView; CSaveScreenshot "output/model.vtk.png" [2100; 2100] true].
Proof. vm_compute. reflexivity. Qed.

(** ** Deleting temporary objects *)

(** C4, as the code has it.  [delete_objects] asks the host for its
    sources and then iterates over [GetSources().keys], which is the
    method of the dictionary and not its keys: the loop raises
    [TypeError] before its first round, for every [names] and in every
    session, and all sources stay registered. *)
Theorem delete_objects_raises (names : option (list string)) (w : world) :
  delete_objects names w =
    (inl (TypeError "'builtin_function_or_method' object is not iterable"),
     set_calls (fun cs => cs ++ [CGetSources]) w) /\
  sources (delete_objects names w).2 = sources w /\
  shown (delete_objects names w).2 = shown w.
Proof. repeat split. Qed.

(** A session with a ruler and a mesh: the ruler survives the call. *)
Example delete_objects_keeps_ruler :
  let w :=
    set_sources (fun _ => [("ruler", 0%nat); ("model.vtk", 1%nat)]%string)
      (set_next_id 2 (fresh_world [])) in
  (delete_objects None w).1 =
    inl (TypeError "'builtin_function_or_method' object is not iterable") /\
  sources (delete_objects None w).2 =
    [("ruler", 0%nat); ("model.vtk", 1%nat)]%string.
Proof. split; reflexivity. Qed.

Lemma filter_keeps_all {A} (P : A -> Prop) `{forall x, Decision (P x)}
    (l : list A) :
  Forall P l -> filter P l = l.
Proof.
  induction 1 as [| x l Hx _ IH]; [reflexivity |].
  rewrite filter_cons_True by exact Hx. rewrite IH. reflexivity.
Qed.

Lemma filter_out_unique_id (pre todo : list (string * handle))
    (n : string) (id : handle) :
  NoDup ((pre ++ (n, id) :: todo).*2) ->
  filter (fun k => k.2 ≠ id) (pre ++ (n, id) :: todo) = pre ++ todo.
Proof.
  intros Hnd. rewrite fmap_app, fmap_cons in Hnd. cbn in Hnd.
  apply NoDup_app in Hnd as (_ & Hdisj & Hnd).
  apply NoDup_cons in Hnd as [Hnotin _].
  rewrite filter_app, filter_cons_False by (cbn; tauto).
  f_equal.
  - apply filter_keeps_all, Forall_forall. intros k Hk Heq.
    apply (Hdisj id); [| left].
    rewrite <- Heq. apply list_elem_of_fmap. exists k. split; [reflexivity | exact Hk].
  - apply filter_keeps_all, Forall_forall. intros k Hk Heq.
    apply Hnotin. rewrite <- Heq.
    apply list_elem_of_fmap. exists k. split; [reflexivity | exact Hk].
Qed.

Lemma find_first_of_name (pre todo : list (string * handle))
    (n : string) (id : handle) :
  Forall (fun k => k.1 ≠ n) pre ->
  List.find (fun k => bool_decide (k.1 = n)) (pre ++ (n, id) :: todo) =
    Some (n, id).
Proof.
  induction 1 as [| k pre Hk _ IH]; cbn.
  - rewrite bool_decide_eq_true_2 by reflexivity. reflexivity.
  - rewrite bool_decide_eq_false_2 by exact Hk. exact IH.
Qed.

(** The loop itself, run over the names of the registered sources, is
    what the docstring describes: it removes the sources whose name
    contains one of the identifiers and keeps the others. *)
Lemma delete_loop_sources (names : list string)
    (todo pre : list (string * handle)) (w : world) :
  sources w = pre ++ todo ->
  Forall (fun k => ~ is_temporary names k) pre ->
  NoDup ((pre ++ todo).*2) ->
  (delete_loop names (todo.*1) w).1 = inr tt /\
  sources (delete_loop names (todo.*1) w).2 =
    pre ++ filter (fun k => ~ is_temporary names k) todo.
Proof.
  revert pre w. induction todo as [| [n id] todo IH]; intros pre w Hs Hpre Hnd.
  - cbn. rewrite Hs. split; reflexivity.
  - unfold delete_loop. rewrite fmap_cons. cbn [for_ fst].
    fold (delete_loop names (todo.*1)).
    destruct (List.find (fun name => contains name n) names) as [name |] eqn:Hfind.
    + assert (Htmp : is_temporary names (n, id))
        by (unfold is_temporary; cbn; rewrite Hfind; eauto).
      assert (Hfirst : List.find (fun k => bool_decide (k.1 = n)) (sources w)
                       = Some (n, id)).
      { rewrite Hs. apply find_first_of_name.
        eapply Forall_impl; [exact Hpre |]. intros [n' id'] Hk Heq. cbn in Heq.
        subst n'. apply Hk. unfold is_temporary. cbn. rewrite Hfind. eauto. }
      unfold FindSource, Delete, log. run. cbn. rewrite Hfirst. cbn.
      destruct (decide (~ is_temporary names (n, id))) as [Hno | _];
        [contradiction |].
      match goal with
      | |- context [delete_loop names (todo.*1) ?w1] =>
          apply (IH pre w1); [| exact Hpre |]
      end.
      * cbn. rewrite Hs. apply filter_out_unique_id. exact Hnd.
      * rewrite fmap_app, fmap_cons in Hnd. rewrite fmap_app.
        apply NoDup_app in Hnd as (H1 & H2 & H3).
        apply NoDup_cons in H3 as [_ H3].
        apply NoDup_app. repeat split; [exact H1 | | exact H3].
        intros x Hx Hin. apply (H2 x Hx). right. exact Hin.
    + assert (Htmp : ~ is_temporary names (n, id)).
      { unfold is_temporary. cbn. rewrite Hfind. intros [x Hx]. discriminate. }
      run. rewrite filter_cons_True by exact Htmp.
      destruct (IH (pre ++ [(n, id)]) w) as [Hr Hsrc].
      * rewrite Hs, <- app_assoc. reflexivity.
      * apply Forall_app. split; [exact Hpre | repeat constructor; exact Htmp].
      * rewrite <- app_assoc. exact Hnd.
      * rewrite Hr, Hsrc, <- app_assoc. split; reflexivity.
Qed.

(** Had the keys been iterated, the claim of C4 would hold: run over the
    names of the registered sources of a session whose sources have
    distinct handles, the loop returns normally and leaves exactly the
    sources that are not temporary, in their order. *)
Corollary delete_loop_removes_matching (names : list string) (w : world) :
  NoDup ((sources w).*2) ->
  (delete_loop names ((sources w).*1) w).1 = inr tt /\
  sources (delete_loop names ((sources w).*1) w).2 =
    filter (fun k => ~ is_temporary names k) (sources w).
Proof.
  intros Hnd. apply (delete_loop_sources names (sources w) [] w);
    [reflexivity | constructor | exact Hnd].
Qed.

(** ** The data-file wrapper *)

Lemma columns_foldl (pts : list point) (xs ys zs : list float) :
  foldl (fun '(x, y, z) '(x_, y_, z_) => (x ++ [x_], y ++ [y_], z ++ [z_]))
        (xs, ys, zs) pts =
  (xs ++ ((fun p : point => p.1.1) <$> pts),
   ys ++ ((fun p : point => p.1.2) <$> pts),
   zs ++ ((fun p : point => p.2) <$> pts)).
Proof.
  revert xs ys zs. induction pts as [| [[x y] z] pts IH]; intros xs ys zs.
  - cbn. rewrite !app_nil_r. reflexivity.
  - cbn [foldl]. rewrite IH. rewrite !fmap_cons, <- !app_assoc. reflexivity.
Qed.

Section Frame.
Lemma preserves_ret {A} (a : A) : preserves_self (mret a).
Proof. intros s. reflexivity. Qed.

Lemma preserves_raise {A} (e : exn) : preserves_self (raise e : Meth A).
Proof. intros s. reflexivity. Qed.

Lemma preserves_lift {A} (r : exn + A) : preserves_self (lift r : Meth A).
Proof. intros s. reflexivity. Qed.

Lemma preserves_host {A} (m : M A) : preserves_self (host m).
Proof. intros [self w]. unfold host. cbn. destruct (m w). reflexivity. Qed.

Lemma preserves_self_attr {A} (f : CartesianDataFile -> A) :
  preserves_self (self_attr f).
Proof. intros s. reflexivity. Qed.

Lemma preserves_bind {A B} (m : Meth A) (k : A -> Meth B) :
  preserves_self m -> (forall a, preserves_self (k a)) ->
  preserves_self (m ≫= k).
Proof.
  intros Hm Hk s. unfold mbind, St_bind.
  specialize (Hm s). destruct (m s) as [[e | a] s1]; cbn in *.
  - exact Hm.
  - rewrite Hk. exact Hm.
Qed.

Lemma preserves_for {A} (l : list A) (body : A -> Meth unit) :
  (forall x, preserves_self (body x)) -> preserves_self (for_ l body).
Proof.
  intros Hbody. induction l as [| x l IH]; cbn.
  - apply preserves_ret.
  - apply preserves_bind; [apply Hbody | intros _; exact IH].
Qed.
End Frame.

Ltac preserves_step :=
  first
    [ apply preserves_ret | apply preserves_raise | apply preserves_lift
    | apply preserves_host | apply preserves_self_attr
    | apply preserves_for; intros ?
    | apply preserves_bind; [| intros ?]
    | match goal with
      | |- preserves_self (if ?b then _ else _) => destruct b
      | |- preserves_self (match ?x with _ => _ end) => destruct x
      end ].

Section DataFileProperties.
Context {env : Env}.

Lemma depth_slice_preserves (depth : Q) (hide_original : bool) :
  preserves_self (depth_slice depth hide_original).
Proof. unfold depth_slice. repeat preserves_step. Qed.

Lemma stats_preserves : preserves_self stats.
Proof. unfold stats. repeat preserves_step. Qed.

Lemma center_loop_preserves (coords : list (list float))
    (mids : list float) :
  preserves_self (center_loop coords mids).
Proof.
  revert mids. induction coords as [| coord coords IH]; intros mids; cbn.
  - apply preserves_ret.
  - repeat preserves_step. apply IH.
Qed.

Lemma center_preserves : preserves_self center.
Proof.
  unfold center. apply preserves_bind; [apply preserves_self_attr |].
  intros [[x y] z]. apply center_loop_preserves.
Qed.

(** What the constructor returns and leaves behind, for a file the host
    can read and a script that runs. *)
Lemma CartesianDataFile_init_spec (fid : string)
    (scale_data scale_coords : option pynum) (zero_origin : bool) (w : world)
    (d : dataset) :
  fid ∈ paths w -> has_reader fid = true ->
  mesh_of fid scale_data scale_coords zero_origin = inr d ->
  let opened := next_id w in
  let scaled := truthy scale_data || truthy scale_coords in
  let data := if scaled then S opened else opened in
  exists (cdf : CartesianDataFile) (w' : world),
    CartesianDataFile__init__ fid scale_data scale_coords zero_origin w =
      (inr cdf, w') /\
    cdf_fid cdf = fid /\
    cdf_data cdf = data /\
    cdf_data_coords cdf =
      foldl (fun '(x, y, z) '(x_, y_, z_) => (x ++ [x_], y ++ [y_], z ++ [z_]))
            ([], [], []) (ds_points d) /\
    cdf_data_bounds cdf = ((GetRange (ds_scalars d)).1, (GetRange (ds_scalars d)).2) /\
    datasets w' !! data = Some d /\
    data ∈ shown w' /\
    next_id w' = S data /\
    (scaled = true -> inputs w' !! data = Some opened).
Proof.
  intros Hthere Hreader Hmesh. cbv zeta. unfold mesh_of in Hmesh.
  unfold CartesianDataFile__init__, OpenDataFile, scale_input,
    programmable_filter, _get_coordinates, _get_data_minmax, Fetch,
    PointData_GetArray0, GetActiveViewOrCreate, GetActiveView, Show, Hide,
    ProgrammableFilter, set_Script, ColorBy, register, log.
  destruct (truthy scale_data || truthy scale_coords);
    [| injection Hmesh as <-]; run; cbn;
    rewrite (bool_decide_eq_true_2 _ Hthere), Hreader; cbn;
    repeat (rewrite lookup_insert_eq; cbn);
    rewrite ?Hmesh; cbn;
    repeat (rewrite lookup_insert_eq; cbn);
    destruct (GetRange _) as [vmin vmax]; cbn;
    (do 2 eexists; split; [reflexivity |]); cbn;
    rewrite ?lookup_insert_eq; repeat split;
    first [discriminate | set_unfold; tauto].
Qed.


(** The constructor run step by step: where it can fail and which handle
    it keeps. *)
Lemma CartesianDataFile_init_handle (fid : string)
    (scale_data scale_coords : option pynum) (zero_origin : bool)
    (w w' : world) (cdf : CartesianDataFile) :
  CartesianDataFile__init__ fid scale_data scale_coords zero_origin w =
    (inr cdf, w') ->
  fid ∈ paths w /\ has_reader fid = true /\
  cdf_data cdf =
    (if truthy scale_data || truthy scale_coords
     then S (next_id w) else next_id w) /\
  (truthy scale_data || truthy scale_coords = true ->
   inputs w' !! S (next_id w) = Some (next_id w)).
Proof.
  unfold CartesianDataFile__init__, OpenDataFile, scale_input,
    programmable_filter, _get_coordinates, _get_data_minmax, Fetch,
    PointData_GetArray0, GetActiveViewOrCreate, GetActiveView, Show, Hide,
    ProgrammableFilter, set_Script, ColorBy, register, log.
  run. cbn.
  destruct (decide (fid ∈ paths w)) as [Hthere | Hgone];
    [rewrite (bool_decide_eq_true_2 _ Hthere)
    | rewrite (bool_decide_eq_false_2 _ Hgone); cbn; discriminate].
  destruct (has_reader fid); [| cbn; discriminate]. cbn.
  destruct (truthy scale_data || truthy scale_coords); cbn;
    repeat (rewrite lookup_insert_eq; cbn).
  - destruct (run_script _ _ _) as [e | d]; cbn.
    + rewrite lookup_insert_ne by lia.
      destruct (datasets w !! S (next_id w)) as [d |]; cbn;
        [| discriminate].
      rewrite lookup_insert_ne by lia.
      destruct (datasets w !! S (next_id w)) as [d' |]; cbn;
        [| discriminate].
      rewrite lookup_insert_ne by lia.
      destruct (datasets w !! S (next_id w)) as [d'' |]; cbn;
        [| discriminate].
      destruct (GetRange _). cbn. intros [= <- <-]. cbn.
      rewrite lookup_insert_eq. auto.
    + repeat (rewrite lookup_insert_eq; cbn).
      destruct (GetRange _). cbn. intros [= <- <-]. cbn.
      rewrite lookup_insert_eq. auto.
  - destruct (GetRange _). cbn. intros [= <- <-]. cbn.
    repeat split; auto. discriminate.
Qed.

(** C6.  Whenever the constructor returns, it has opened the file and
    kept the handle the host returned, unless [scale_data] or
    [scale_coords] is given and not zero: then, and only then, the
    scaling filter is put behind the reader and its handle replaces the
    first one.  It returns for every file the host can read whose scaling
    script runs.  Afterwards [depth_slice], [stats] and [center] leave
    every attribute of the instance as it is, whether they return or
    raise. *)
Theorem CartesianDataFile_state_frame :
  (forall (fid : string) (scale_data scale_coords : option pynum)
          (zero_origin : bool) (w w' : world) (cdf : CartesianDataFile),
     CartesianDataFile__init__ fid scale_data scale_coords zero_origin w =
       (inr cdf, w') ->
     (truthy scale_data || truthy scale_coords = false ->
        cdf_data cdf = next_id w) /\
     (truthy scale_data || truthy scale_coords = true ->
        cdf_data cdf = S (next_id w) /\
        inputs w' !! cdf_data cdf = Some (next_id w)) /\
     (cdf_data cdf <> next_id w <->
        truthy scale_data || truthy scale_coords = true)) /\
  (forall (fid : string) (scale_data scale_coords : option pynum)
          (zero_origin : bool) (w : world) (d : dataset),
     fid ∈ paths w -> has_reader fid = true ->
     mesh_of fid scale_data scale_coords zero_origin = inr d ->
     exists (cdf : CartesianDataFile) (w' : world),
       CartesianDataFile__init__ fid scale_data scale_coords zero_origin w =
         (inr cdf, w') /\
       cdf_data_coords cdf =
         ((fun p : point => p.1.1) <$> ds_points d,
          (fun p : point => p.1.2) <$> ds_points d,
          (fun p : point => p.2) <$> ds_points d) /\
       cdf_data_bounds cdf = GetRange (ds_scalars d)) /\
  (forall (depth : Q) (hide_original : bool) (self : CartesianDataFile)
          (w : world),
     (depth_slice depth hide_original (self, w)).2.1 = self) /\
  (forall (self : CartesianDataFile) (w : world),
     (stats (self, w)).2.1 = self) /\
  (forall (self : CartesianDataFile) (w : world),
     (center (self, w)).2.1 = self).
Proof.
  split; [| split; [| split; [| split]]].
  - intros fid scale_data scale_coords zero_origin w w' cdf Hrun.
    apply CartesianDataFile_init_handle in Hrun as (_ & _ & Hdata & Hinput).
    rewrite Hdata.
    destruct (truthy scale_data || truthy scale_coords) eqn:Hscaled.
    + split; [discriminate |]. split.
      * intros _. split; [reflexivity | apply Hinput; reflexivity].
      * split; [reflexivity | lia].
    + split; [reflexivity |]. split; [discriminate |].
      split; [contradiction | discriminate].
  - intros fid scale_data scale_coords zero_origin w d Hthere Hreader Hmesh.
    destruct (CartesianDataFile_init_spec fid scale_data scale_coords
                zero_origin w d Hthere Hreader Hmesh)
      as (cdf & w' & Hrun & _ & _ & Hcoords & Hbounds & _).
    exists cdf, w'. split; [exact Hrun |]. split.
    + rewrite Hcoords. apply columns_foldl.
    + rewrite Hbounds. destruct (GetRange _). reflexivity.
  - intros depth hide_original self w.
    apply (depth_slice_preserves depth hide_original (self, w)).
  - intros self w. apply (stats_preserves (self, w)).
  - intros self w. apply (center_preserves (self, w)).
Qed.

(** C5.  On an instance whose data handle the host has created,
    [depth_slice depth hide_original] returns a new slice of the data;
    its slice type is a plane with normal (0, 0, 1); the X and Y of its
    origin are those the host gave the slice and the Z is [depth].  The
    slice is shown.  The call hides the data exactly when [hide_original]
    is true: the data is visible afterwards when it was visible before
    and [hide_original] is false. *)
Theorem depth_slice_spec (self : CartesianDataFile) (w : world) (depth : Q)
    (hide_original : bool) :
  (cdf_data self < next_id w)%nat ->
  let sliced_plane := next_id w in
  let assigned := Origin (slice_defaults w (cdf_data self)) in
  exists w' : world,
    depth_slice depth hide_original (self, w) =
      (inr sliced_plane, (self, w')) /\
    slices w' !! sliced_plane =
      Some (SliceProps "Plane" (0, 0, 1)%Q
              (assigned.1.1, assigned.1.2, depth)) /\
    inputs w' !! sliced_plane = Some (cdf_data self) /\
    sliced_plane ∈ shown w' /\
    (cdf_data self ∈ shown w' <->
       cdf_data self ∈ shown w /\ hide_original = false) /\
    calls w' =
      calls w ++
      [CSlice (cdf_data self); CHide3DWidgets sliced_plane;
       CShow sliced_plane None] ++
      (if hide_original then [CHide (cdf_data self)] else []).
Proof.
  intros Hlive. cbv zeta.
  assert (Hfresh : cdf_data self <> next_id w) by lia. clear Hlive.
  unfold depth_slice, host, self_attr, Slice, set_SliceType, set_Normal,
    get_Origin, set_Origin, get_slice, Hide3DWidgets, Show, Hide, register,
    log.
  run. cbn. repeat (rewrite lookup_insert_eq; cbn).
  destruct (slice_defaults w (cdf_data self)) as [t n [[o0 o1] o2]].
  cbn. repeat (rewrite lookup_insert_eq; cbn).
  destruct hide_original; cbn;
    (eexists; split; [reflexivity |]); cbn;
    rewrite ?lookup_insert_eq, <- ?app_assoc; cbn.
  - repeat split; try reflexivity; set_unfold; intuition congruence.
  - repeat split; try reflexivity; set_unfold; intuition congruence.
Qed.
End DataFileProperties.

Lemma CartesianDataFile_state_frame_witness :
  let w := fresh_world ["model.vtk"; "config.py"]%string in
  exists (cdf : CartesianDataFile) (w' : world),
    CartesianDataFile__init__ "model.vtk" (Some (PyFloat milli)) None true w =
      (inr cdf, w') /\
    cdf_data cdf = 1%nat /\ inputs w' !! 1%nat = Some 0%nat.
Proof.
  intros w.
  pose proof CartesianDataFile_state_frame as (Hhandle & Hreturns & _).
  destruct (mesh_of "model.vtk" (Some (PyFloat milli)) None true)
    as [e | d] eqn:Hmesh; [vm_compute in Hmesh; discriminate Hmesh |].
  destruct (Hreturns "model.vtk"%string (Some (PyFloat milli)) None true w d)
    as (cdf & w' & Hrun & _); [vm_compute; set_unfold; auto | reflexivity
                              | exact Hmesh |].
  exists cdf, w'. split; [exact Hrun |].
  destruct (Hhandle _ _ _ _ _ _ _ Hrun) as (_ & Hscaled & _).
  destruct (Hscaled eq_refl) as [Hdata Hinput].
  rewrite Hdata in Hinput. split; [exact Hdata | exact Hinput].
Defined.

Lemma depth_slice_spec_witness :
  let w0 := fresh_world ["model.vtk"; "config.py"]%string in
  let opened := CartesianDataFile__init__ "model.vtk" None None false w0 in
  match opened with
  | (inr self, w) =>
      exists w' : world,
        depth_slice (-5) true (self, w) = (inr 1%nat, (self, w')) /\
        slices w' !! 1%nat =
          Some (SliceProps "Plane" (0, 0, 1)%Q (1000, 2000, -5)%Q) /\
        1%nat ∈ shown w' /\
        (0%nat ∈ shown w' <-> 0%nat ∈ shown w /\ true = false)
  | _ => False
  end.
Proof.
  cbv zeta.
  destruct (CartesianDataFile__init__ "model.vtk" None None false
              (fresh_world ["model.vtk"; "config.py"]%string))
    as [[e | self] w] eqn:Hopen; [vm_compute in Hopen; discriminate Hopen |].
  assert (Hself : cdf_data self = 0%nat /\ next_id w = 1%nat).
  { vm_compute in Hopen. injection Hopen as <- <-. split; reflexivity. }
  destruct Hself as [Hdata Hnext].
  destruct (depth_slice_spec self w (-5) true) as (w' & Hrun & Hs & _ & Hshown & Hdat & _).
  { rewrite Hdata, Hnext. lia. }
  exists w'. rewrite Hnext, Hdata in *.
  split; [exact Hrun |]. split; [exact Hs |]. split; [exact Hshown |].
  exact Hdat.
Defined.


(** * Further properties of the code *)

(** ** Signs of rounded results *)

(** Zero, a positive number or plus infinity, by the shape of the
    float. *)
Lemma is_nonneg_shape (x : float) :
  is_nonneg x = true <->
  match x with
  | S754_nan => False
  | S754_zero _ => True
  | S754_infinity s | S754_finite s _ _ => s = false
  end.
Proof.
  destruct x as [[|] | [|] | | [|] m e]; cbn; intuition congruence.
Qed.

Lemma shr_1_nonneg (mrs : shr_record) :
  0 <= shr_m mrs -> 0 <= shr_m (shr_1 mrs).
Proof.
  destruct mrs as [[| [p | p |] | p] r s]; cbn; intros Hm; lia.
Qed.

Lemma iter_shr_1_nonneg (p : positive) (mrs : shr_record) :
  0 <= shr_m mrs -> 0 <= shr_m (SpecFloat.iter_pos shr_1 p mrs).
Proof.
  revert mrs. induction p as [p IH | p IH |]; intros mrs Hm; cbn.
  - apply IH, IH, shr_1_nonneg, Hm.
  - apply IH, IH, Hm.
  - apply shr_1_nonneg, Hm.
Qed.

Lemma shr_fexp_nonneg (prec emax m e : Z) (l : location) :
  0 <= m -> 0 <= shr_m (shr_fexp prec emax m e l).1.
Proof.
  intros Hm. unfold shr_fexp, shr.
  assert (H0 : 0 <= shr_m (shr_record_of_loc m l))
    by (destruct l as [| []]; exact Hm).
  destruct (fexp prec emax (Zdigits2 m + e) - e) as [| p | p]; cbn;
    [exact H0 | apply iter_shr_1_nonneg, H0 | exact H0].
Qed.

(** A rounded result has the sign it was given: rounding a mantissa that
    is not negative never gives a NaN. *)
Lemma binary_round_aux_sign (prec emax : Z) (sx : bool) (m e : Z)
    (l : location) :
  0 <= m ->
  match binary_round_aux prec emax sx m e l with
  | S754_nan => False
  | S754_zero s | S754_infinity s | S754_finite s _ _ => s = sx
  end.
Proof.
  intros Hm. unfold binary_round_aux.
  pose proof (shr_fexp_nonneg prec emax m e l Hm) as H1.
  destruct (shr_fexp prec emax m e l) as [mrs' e']. cbn [fst] in H1.
  assert (H2 : 0 <= round_nearest_even (shr_m mrs') (loc_of_shr_record mrs')).
  { unfold round_nearest_even.
    destruct (loc_of_shr_record mrs') as [| []];
      try destruct (Z.even (shr_m mrs')); lia. }
  pose proof (shr_fexp_nonneg prec emax _ e' loc_Exact H2) as H3.
  destruct (shr_fexp prec emax _ e' loc_Exact) as [mrs'' e'']. cbn [fst] in H3.
  destruct (shr_m mrs'') as [| p | p]; [reflexivity | | lia].
  destruct (e'' <=? emax - prec); reflexivity.
Qed.

Lemma binary_round_sign (prec emax : Z) (sx : bool) (m : positive) (e : Z) :
  match binary_round prec emax sx m e with
  | S754_nan => False
  | S754_zero s | S754_infinity s | S754_finite s _ _ => s = sx
  end.
Proof.
  unfold binary_round. destruct (shl_align _ _ _) as [mz ez].
  apply binary_round_aux_sign. lia.
Qed.

(** The 32-bit store keeps the sign. *)
Lemma narrow32_nonneg (x : float) :
  is_nonneg x = true -> is_nonneg (narrow32 x) = true.
Proof.
  rewrite !is_nonneg_shape.
  destruct x as [s | s | | s m e]; cbn; try tauto.
  intros ->.
  pose proof (binary_round_sign 24 128 false m e) as H1.
  destruct (binary_round 24 128 false m e) as [s1 | s1 | | s1 m1 e1];
    try tauto.
  subst s1.
  pose proof (binary_round_sign 53 1024 false m1 e1) as H2.
  destruct (binary_round 53 1024 false m1 e1); tauto.
Qed.

Lemma two_power_pos (e : Z) : (0 < 2 ^ e)%Q.
Proof. apply Qpower_0_lt. reflexivity. Qed.

(** The sign bit of a finite float is the sign of its value. *)
Lemma F2Q_finite_sign (s : bool) (m : positive) (e : Z) :
  if s then (F2Q (S754_finite s m e) < 0)%Q
  else (0 < F2Q (S754_finite s m e))%Q.
Proof.
  pose proof (two_power_pos e) as Hp. destruct s; cbn [F2Q cond_Zopp].
  - assert (H : (inject_Z (Z.neg m) * 2 ^ e < 0 * 2 ^ e)%Q)
      by (apply Qmult_lt_compat_r; [exact Hp | reflexivity]).
    rewrite Qmult_0_l in H. exact H.
  - apply Qmult_lt_0_compat; [reflexivity | exact Hp].
Qed.

(** A positive factor keeps what is not negative that way. *)
Lemma fmul_nonneg (x k : float) :
  is_nonneg x = true -> (0 < F2Q k)%Q -> is_nonneg (fmul x k) = true.
Proof.
  rewrite !is_nonneg_shape. intros Hx Hk.
  destruct k as [sk | sk | | sk mk ek];
    try (exfalso; revert Hk; apply Qlt_irrefl).
  pose proof (F2Q_finite_sign sk mk ek) as Hs.
  destruct sk; [exfalso; apply (Qlt_irrefl 0); eapply Qlt_trans; eassumption |].
  destruct x as [s | s | | s m e]; cbn; try tauto.
  - subst s. reflexivity.
  - subst s. cbn.
    pose proof (binary_round_aux_sign 53 1024 false (Z.pos (m * mk)) (e + ek)
                  loc_Exact ltac:(lia)) as H1.
    destruct (binary_round_aux _ _ _ _ _ _); tauto.
Qed.

Lemma fmul_zero (k : float) :
  (0 < F2Q k)%Q -> fmul (float_of_Z 0) k = float_of_Z 0.
Proof.
  intros Hk.
  destruct k as [sk | sk | | sk mk ek];
    try (exfalso; revert Hk; apply Qlt_irrefl).
  pose proof (F2Q_finite_sign sk mk ek) as Hs.
  destruct sk; [exfalso; apply (Qlt_irrefl 0); eapply Qlt_trans; eassumption |].
  reflexivity.
Qed.

Lemma iter_xO_power (m d : positive) :
  Zpos (Pos.iter xO m d) = Zpos m * 2 ^ Zpos d.
Proof.
  induction d as [| d IH] using Pos.peano_ind.
  - cbn. lia.
  - rewrite Pos.iter_succ, Pos2Z.inj_succ, Z.pow_succ_r by lia.
    rewrite Pos2Z.inj_xO, IH. lia.
Qed.

(** Aligning a mantissa to a smaller exponent keeps the value. *)
Lemma shl_align_value (m : positive) (e ez : Z) :
  ez <= e ->
  (inject_Z (Zpos (shl_align m e ez).1) * 2 ^ ez ==
   inject_Z (Zpos m) * 2 ^ e)%Q.
Proof.
  intros Hle. unfold shl_align.
  destruct (ez - e) as [| d | d] eqn:Hd; cbn [fst]; try lia.
  - assert (ez = e) by lia. subst ez. reflexivity.
  - assert (He : e = ez + Zpos d) by lia.
    rewrite iter_xO_power, inject_Z_mult, He.
    rewrite Qpower_plus by discriminate.
    rewrite Zpower_Qpower by lia. change (inject_Z 2) with 2%Q.
    set (p := (2 ^ Z.pos d)%Q). set (q := (2 ^ ez)%Q). ring.
Qed.

(** The exact difference of two finite floats, as the integer the
    subtraction rounds. *)
Lemma fsub_nonneg (x y : float) :
  is_finite x = true -> is_finite y = true -> (F2Q y <= F2Q x)%Q ->
  is_nonneg (fsub x y) = true.
Proof.
  rewrite is_nonneg_shape. intros Hx Hy Hle.
  destruct x as [sx | sx | | sx mx ex]; try discriminate;
    destruct y as [sy | sy | | sy my ey]; try discriminate.
  - destruct sx, sy; exact I.
  - cbn. pose proof (F2Q_finite_sign sy my ey) as Hs.
    destruct sy; [reflexivity |].
    exfalso. apply (Qlt_irrefl 0). eapply Qlt_le_trans; [exact Hs | exact Hle].
  - cbn. pose proof (F2Q_finite_sign sx mx ex) as Hs.
    destruct sx; [| reflexivity].
    exfalso. apply (Qlt_irrefl 0). eapply Qle_lt_trans; [exact Hle | exact Hs].
  - unfold fsub, SFsub.
    set (ez := Z.min ex ey).
    pose proof (shl_align_value mx ex ez ltac:(lia)) as Hax.
    pose proof (shl_align_value my ey ez ltac:(lia)) as Hay.
    set (X := Zpos (shl_align mx ex ez).1) in *.
    set (Y := Zpos (shl_align my ey ez).1) in *.
    assert (HD : 0 <= cond_Zopp sx X - cond_Zopp sy Y).
    { pose proof (two_power_pos ez) as Hp.
      assert (HQ : (0 <= inject_Z (cond_Zopp sx X - cond_Zopp sy Y) * 2 ^ ez)%Q).
      { cbn [F2Q] in Hle.
        assert (Hx' : (inject_Z (cond_Zopp sx X) * 2 ^ ez ==
                       inject_Z (cond_Zopp sx (Zpos mx)) * 2 ^ ex)%Q).
        { destruct sx; cbn [cond_Zopp]; [| exact Hax].
          rewrite !inject_Z_opp.
          transitivity (- (inject_Z X * 2 ^ ez))%Q; [ring |].
          rewrite Hax. ring. }
        assert (Hy' : (inject_Z (cond_Zopp sy Y) * 2 ^ ez ==
                       inject_Z (cond_Zopp sy (Zpos my)) * 2 ^ ey)%Q).
        { destruct sy; cbn [cond_Zopp]; [| exact Hay].
          rewrite !inject_Z_opp.
          transitivity (- (inject_Z Y * 2 ^ ez))%Q; [ring |].
          rewrite Hay. ring. }
        unfold Z.sub. rewrite inject_Z_plus, inject_Z_opp.
        assert (Hsplit :
          ((inject_Z (cond_Zopp sx X) + - inject_Z (cond_Zopp sy Y)) * 2 ^ ez ==
           inject_Z (cond_Zopp sx X) * 2 ^ ez -
           inject_Z (cond_Zopp sy Y) * 2 ^ ez)%Q) by ring.
        rewrite Hsplit, Hx', Hy'. Lqa.lra. }
      destruct (Z_lt_le_dec (cond_Zopp sx X - cond_Zopp sy Y) 0) as [Hneg | Hok];
        [| exact Hok].
      exfalso. apply (Qlt_irrefl 0). eapply Qle_lt_trans; [exact HQ |].
      assert (H : (inject_Z (cond_Zopp sx X - cond_Zopp sy Y) * 2 ^ ez
                   < 0 * 2 ^ ez)%Q).
      { apply Qmult_lt_compat_r; [exact Hp |].
        change 0%Q with (inject_Z 0). rewrite <- Zlt_Qlt. exact Hneg. }
      rewrite Qmult_0_l in H. exact H. }
    destruct (cond_Zopp sx X - cond_Zopp sy Y) as [| p | p] eqn:HDeq;
      cbn [binary_normalize]; [exact I | | lia].
    pose proof (binary_round_sign 53 1024 false p ez) as H1.
    destruct (binary_round 53 1024 false p ez); tauto.
Qed.

(** A finite float minus itself is plus zero. *)
Lemma fsub_self (x : float) :
  is_finite x = true -> fsub x x = float_of_Z 0.
Proof.
  destruct x as [[|] | | | s m e]; try discriminate; try reflexivity.
  intros _. unfold fsub, SFsub. rewrite Z.sub_diag. reflexivity.
Qed.

(** ** The order of floats *)

Lemma flt_irrefl (x : float) : flt x x = false.
Proof.
  destruct x as [[|] | [|] | | [|] m e]; try reflexivity;
    unfold flt, SFltb, SFcompare; rewrite Z.compare_refl;
    change (Pos.compare_cont Eq m m) with (m ?= m)%positive;
    rewrite Pos.compare_refl; reflexivity.
Qed.

Lemma flt_trans (x y z : float) :
  flt x y = true -> flt y z = true -> flt x z = true.
Proof.
  unfold flt, SFltb, SFcompare.
  destruct x as [sx | sx | | sx mx ex], y as [sy | sy | | sy my ey],
    z as [sz | sz | | sz mz ez];
    try destruct sx; try destruct sy; try destruct sz;
    try discriminate; try reflexivity;
    change (Pos.compare_cont Eq mx my) with (mx ?= my)%positive;
    change (Pos.compare_cont Eq my mz) with (my ?= mz)%positive;
    change (Pos.compare_cont Eq mx mz) with (mx ?= mz)%positive;
    destruct (Z.compare_spec ex ey), (Z.compare_spec ey ez),
      (Z.compare_spec ex ez);
    try discriminate; try reflexivity; try lia;
    destruct (Pos.compare_spec mx my), (Pos.compare_spec my mz),
      (Pos.compare_spec mx mz);
    cbn; try discriminate; try reflexivity; lia.
Qed.

Lemma fold_max_spec (l : list float) (x : float) :
  let hi := fold_left (fun m y => if flt m y then y else m) l x in
  hi ∈ x :: l /\ (hi = x \/ flt x hi = true) /\
  forall v : float, v ∈ x :: l -> flt hi v = false.
Proof.
  cbv zeta. revert x.
  induction l as [| y l IH]; intros x; cbn [fold_left].
  - split; [left |]. split; [left; reflexivity |].
    intros v Hv. apply list_elem_of_singleton in Hv. subst v.
    apply flt_irrefl.
  - destruct (flt x y) eqn:Hxy.
    + destruct (IH y) as (Hin & Hup & Hmax).
      split; [right; exact Hin |]. split.
      * right. destruct Hup as [-> | Hup];
          [exact Hxy | exact (flt_trans _ _ _ Hxy Hup)].
      * set (hi := fold_left _ l y) in *.
        intros v Hv. apply elem_of_cons in Hv as [-> | Hv]; [| apply Hmax, Hv].
        destruct (flt hi x) eqn:Hc; [| reflexivity].
        pose proof (Hmax y ltac:(left)) as Hy.
        rewrite (flt_trans _ _ _ Hc Hxy) in Hy. discriminate Hy.
    + destruct (IH x) as (Hin & Hup & Hmax).
      set (hi := fold_left _ l x) in *.
      split; [| split; [exact Hup |]].
      * apply elem_of_cons in Hin as [-> | Hin]; [left | right; right; exact Hin].
      * intros v Hv. apply elem_of_cons in Hv as [-> | Hv];
          [apply Hmax; left |].
        apply elem_of_cons in Hv as [-> | Hv]; [| apply Hmax; right; exact Hv].
        destruct Hup as [-> | Hup]; [exact Hxy |].
        destruct (flt hi y) eqn:Hc; [| reflexivity].
        rewrite (flt_trans _ _ _ Hup Hc) in Hxy. discriminate Hxy.
Qed.

Lemma fold_min_spec (l : list float) (x : float) :
  let lo := fold_left (fun m y => if flt y m then y else m) l x in
  lo ∈ x :: l /\ (lo = x \/ flt lo x = true) /\
  forall v : float, v ∈ x :: l -> flt v lo = false.
Proof.
  cbv zeta. revert x.
  induction l as [| y l IH]; intros x; cbn [fold_left].
  - split; [left |]. split; [left; reflexivity |].
    intros v Hv. apply list_elem_of_singleton in Hv. subst v.
    apply flt_irrefl.
  - destruct (flt y x) eqn:Hxy.
    + destruct (IH y) as (Hin & Hup & Hmin).
      split; [right; exact Hin |]. split.
      * right. destruct Hup as [-> | Hup];
          [exact Hxy | exact (flt_trans _ _ _ Hup Hxy)].
      * set (lo := fold_left _ l y) in *.
        intros v Hv. apply elem_of_cons in Hv as [-> | Hv]; [| apply Hmin, Hv].
        destruct (flt x lo) eqn:Hc; [| reflexivity].
        pose proof (Hmin y ltac:(left)) as Hy.
        rewrite (flt_trans _ _ _ Hxy Hc) in Hy. discriminate Hy.
    + destruct (IH x) as (Hin & Hup & Hmin).
      set (lo := fold_left _ l x) in *.
      split; [| split; [exact Hup |]].
      * apply elem_of_cons in Hin as [-> | Hin]; [left | right; right; exact Hin].
      * intros v Hv. apply elem_of_cons in Hv as [-> | Hv];
          [apply Hmin; left |].
        apply elem_of_cons in Hv as [-> | Hv]; [| apply Hmin; right; exact Hv].
        destruct Hup as [-> | Hup]; [exact Hxy |].
        destruct (flt y lo) eqn:Hc; [| reflexivity].
        rewrite (flt_trans _ _ _ Hc Hup) in Hxy. discriminate Hxy.
Qed.

(** ** Rounding to a base, when it raises *)

Lemma float_of_Z_is_a_number (n : Z) : float_of_Z n <> S754_nan.
Proof.
  unfold float_of_Z, binary_normalize. destruct n as [| p | p];
    [discriminate | |].
  - pose proof (binary_round_sign 53 1024 false p 0) as Hs.
    intros Hn. rewrite Hn in Hs. exact Hs.
  - pose proof (binary_round_sign 53 1024 true p 0) as Hs.
    intros Hn. rewrite Hn in Hs. exact Hs.
Qed.

(** The exceptions of [myround].  A [base] of 0 raises
    [ZeroDivisionError]; a [base] or an int [x] too large for a float
    raises [OverflowError] at the conversion, and the conversion of the
    base comes before the test for zero; for a [base] that is neither, an
    [x] that is not a number raises [ValueError] and an infinite one
    [OverflowError], from the function that makes the integer. *)
Theorem myround_raises (x : pynum) (base : Z) (choice : option string) :
  (forall e : exn, py_float x = inl e -> myround x base choice = inl e) /\
  (forall (xf : float) (e : exn),
     py_float x = inr xf -> int_to_float base = inl e ->
     myround x base choice = inl e) /\
  (forall xf : float,
     py_float x = inr xf -> base = 0 ->
     myround x base choice =
       inl (ZeroDivisionError "float division by zero")) /\
  (forall bf : float,
     int_to_float base = inr bf -> base <> 0 ->
     (x = PyFloat S754_nan ->
      myround x base choice =
        inl (ValueError "cannot convert float NaN to integer")) /\
     (forall s : bool,
        x = PyFloat (S754_infinity s) ->
        myround x base choice =
          inl (OverflowError "cannot convert float infinity to integer"))).
Proof.
  unfold myround. split; [| split; [| split]].
  - intros e ->. reflexivity.
  - intros xf e -> ->. reflexivity.
  - intros xf -> ->. reflexivity.
  - intros bf Hb Hbase.
    unfold int_to_float in Hb.
    pose proof (float_of_Z_is_a_number base) as Hn.
    destruct (float_of_Z base) as [s | s | | s m e] eqn:Hf;
      try discriminate; try congruence; injection Hb as <-.
    all: unfold int_to_float; rewrite Hf.
    all: destruct (Z.eqb_spec base 0) as [| _]; [contradiction |].
    all: split; [intros -> | intros s' ->]; reflexivity.
Qed.

Lemma myround_raises_witness :
  myround (PyFloat (S754_infinity true)) 5 (Some "up"%string) =
    inl (OverflowError "cannot convert float infinity to integer").
Proof.
  apply (myround_raises (PyFloat (S754_infinity true)) 5 (Some "up"%string))
    with (bf := float_of_Z 5) (s := true); [reflexivity | lia | reflexivity].
Defined.

(** ** Angles *)

Section AnglesOnTheAxes.
Variable atan2 : float -> float -> float.

(** Where the C library returns the floats nearest to the quarter and
    half turns -- as it does on the axes -- [normal_to_angle] returns the
    degrees exactly: 0.0 and -0.0 for a zero of either sign, 90.0 and
    -90.0 for half of [math.pi], and 180.0 and -180.0 for [math.pi] and
    its negative, which the library gives for a direction along the
    negative X axis with [y = -0.0].  So the range of the result is closed
    at -180.0. *)
Theorem normal_to_angle_on_axes (x y : pynum) (xf yf : float) :
  py_float x = inr xf -> py_float y = inr yf ->
  (forall s : bool,
     atan2 yf xf = S754_zero s ->
     normal_to_angle atan2 x y = inr (S754_zero s)) /\
  (atan2 yf xf = fdiv math_pi (float_of_Z 2) ->
   normal_to_angle atan2 x y = inr (float_of_Z 90)) /\
  (atan2 yf xf = SFopp (fdiv math_pi (float_of_Z 2)) ->
   normal_to_angle atan2 x y = inr (float_of_Z (-90))) /\
  (atan2 yf xf = math_pi ->
   normal_to_angle atan2 x y = inr (float_of_Z 180)) /\
  (atan2 yf xf = SFopp math_pi ->
   normal_to_angle atan2 x y = inr (float_of_Z (-180))).
Proof.
  intros Hx Hy. unfold normal_to_angle. rewrite Hx, Hy.
  repeat split.
  - intros s ->. destruct s; reflexivity.
  - intros ->. vm_compute. reflexivity.
  - intros ->. vm_compute. reflexivity.
  - intros ->. vm_compute. reflexivity.
  - intros ->. vm_compute. reflexivity.
Qed.
End AnglesOnTheAxes.

Lemma normal_to_angle_on_axes_witness :
  let atan2 := fun y x : float =>
    match x, y with
    | S754_finite true _ _, S754_zero true => SFopp math_pi
    | S754_finite true _ _, S754_zero false => math_pi
    | _, _ => y
    end in
  normal_to_angle atan2 (PyInt (-1)) (PyFloat (S754_zero true)) =
    inr (float_of_Z (-180)).
Proof.
  intros atan2.
  apply (normal_to_angle_on_axes atan2 (PyInt (-1)) (PyFloat (S754_zero true))
           (float_of_Z (-1)) (S754_zero true)); reflexivity.
Defined.

(** ** Translating a point *)

Lemma py_arith_outcome (fz : Z -> Z -> Z) (ff : float -> float -> float)
    (a b : pynum) :
  (exists r : pynum, py_arith fz ff a b = inr r) \/
  py_arith fz ff a b =
    inl (OverflowError "int too large to convert to float").
Proof.
  unfold py_arith, py_float, int_to_float.
  destruct a as [m | x], b as [n | y]; try (left; eexists; reflexivity).
  - destruct (float_of_Z m); (left; eexists; reflexivity) || (right; reflexivity).
  - destruct (float_of_Z n); (left; eexists; reflexivity) || (right; reflexivity).
Qed.

(** One entry of the result: the subscript raises [IndexError], the
    arithmetic [OverflowError], and nothing else is raised. *)
Lemma translate_entry_outcome (data : list pynum) (i : nat) (o s : pynum) :
  let entry :=
    match getitem data i with
    | inl e => inl e
    | inr d =>
        match py_sub d o with
        | inl e => inl e
        | inr t => py_mul t s
        end
    end in
  ((length data <= i)%nat /\
   entry = inl (IndexError "list index out of range")) \/
  ((i < length data)%nat /\
   ((exists r : pynum, entry = inr r) \/
    entry = inl (OverflowError "int too large to convert to float"))).
Proof.
  cbv zeta. unfold getitem.
  destruct (data !! i) as [d |] eqn:Hd.
  - right. split; [apply lookup_lt_Some in Hd; exact Hd |].
    unfold py_sub, py_mul.
    destruct (py_arith_outcome Z.sub fsub d o) as [[t ->] | ->];
      [| right; reflexivity].
    apply py_arith_outcome.
  - left. split; [apply lookup_ge_None in Hd; exact Hd | reflexivity].
Qed.

(** The subscripts of [translate_point] and its result.  [IndexError] is
    raised only on lists of fewer than three coordinates, and such a list
    always raises: [IndexError], or before it the [OverflowError] of an
    int that is too large for the float it meets.  When all the numbers
    are floats or ints in the range of a float, and the coordinates are
    floats, a short list raises [IndexError] and a longer one returns.
    Whatever is returned has three entries, and the coordinates after the
    third play no part. *)
Theorem translate_point_arity (data : list pynum) (x0 y0 z0 s : option pynum) :
  (translate_point data x0 y0 z0 s =
     inl (IndexError "list index out of range") -> (length data < 3)%nat) /\
  ((length data < 3)%nat ->
   translate_point data x0 y0 z0 s =
     inl (IndexError "list index out of range") \/
   translate_point data x0 y0 z0 s =
     inl (OverflowError "int too large to convert to float")) /\
  ((forall v : pynum, v ∈ data -> exists x : float, v = PyFloat x) ->
   (forall o : pynum,
      o ∈ [default (PyInt 0) x0; default (PyInt 0) y0; default (PyInt 0) z0;
           default (PyInt 1) s] ->
      exists k : float, py_float o = inr k) ->
   (translate_point data x0 y0 z0 s =
      inl (IndexError "list index out of range") <-> (length data < 3)%nat) /\
   ((3 <= length data)%nat ->
    exists r : list pynum, translate_point data x0 y0 z0 s = inr r)) /\
  (forall r : list pynum,
     translate_point data x0 y0 z0 s = inr r -> length r = 3%nat) /\
  translate_point (take 3 data) x0 y0 z0 s = translate_point data x0 y0 z0 s.
Proof.
  assert (Hraise :
    (length data < 3)%nat ->
    translate_point data x0 y0 z0 s =
      inl (IndexError "list index out of range") \/
    translate_point data x0 y0 z0 s =
      inl (OverflowError "int too large to convert to float")).
  { intros Hlen. unfold translate_point.
    destruct (translate_entry_outcome data 0 (default (PyInt 0) x0)
                (default (PyInt 1) s))
      as [[_ ->] | [_ [[a ->] | ->]]]; [left; reflexivity | | right; reflexivity].
    destruct (translate_entry_outcome data 1 (default (PyInt 0) y0)
                (default (PyInt 1) s))
      as [[_ ->] | [_ [[b ->] | ->]]]; [left; reflexivity | | right; reflexivity].
    destruct (translate_entry_outcome data 2 (default (PyInt 0) z0)
                (default (PyInt 1) s))
      as [[_ ->] | [Hlt [[c ->] | ->]]]; [left; reflexivity | lia |
                                          right; reflexivity]. }
  assert (Hindex :
    translate_point data x0 y0 z0 s =
      inl (IndexError "list index out of range") -> (length data < 3)%nat).
  { unfold translate_point.
    destruct (le_lt_dec 3 (length data)) as [Hlen | Hlen]; [| intros _; exact Hlen].
    destruct (translate_entry_outcome data 0 (default (PyInt 0) x0)
                (default (PyInt 1) s))
      as [[Hle _] | [_ [[a ->] | ->]]]; [lia | | discriminate].
    destruct (translate_entry_outcome data 1 (default (PyInt 0) y0)
                (default (PyInt 1) s))
      as [[Hle _] | [_ [[b ->] | ->]]]; [lia | | discriminate].
    destruct (translate_entry_outcome data 2 (default (PyInt 0) z0)
                (default (PyInt 1) s))
      as [[Hle _] | [_ [[c ->] | ->]]]; [lia | discriminate | discriminate]. }
  split; [exact Hindex |]. split; [exact Hraise |].
  split; [| split].
  - intros Hdata Hnum.
    destruct (Hnum (default (PyInt 0) x0)) as [a Ha]; [set_solver |].
    destruct (Hnum (default (PyInt 0) y0)) as [b Hb]; [set_solver |].
    destruct (Hnum (default (PyInt 0) z0)) as [c Hc]; [set_solver |].
    destruct (Hnum (default (PyInt 1) s)) as [k Hk]; [set_solver |].
    assert (Hentry : forall (i : nat) (o : pynum) (f : float),
              py_float o = inr f ->
              match getitem data i with
              | inl e => inl e
              | inr d =>
                  match py_sub d o with
                  | inl e => inl e
                  | inr t => py_mul t (default (PyInt 1) s)
                  end
              end =
              match data !! i with
              | Some (PyFloat x) => inr (PyFloat (fmul (fsub x f) k))
              | _ => inl (IndexError "list index out of range")
              end).
    { intros i o f Hf. unfold getitem.
      destruct (data !! i) as [d |] eqn:Hd; [| reflexivity].
      destruct (Hdata d) as [x ->];
        [apply list_elem_of_lookup; exists i; exact Hd |].
      unfold py_sub, py_mul, py_arith. cbn [py_float].
      rewrite Hf, Hk. reflexivity. }
    split.
    + split; [exact Hindex |]. intros Hlen. unfold translate_point.
      rewrite (Hentry 0%nat _ a Ha), (Hentry 1%nat _ b Hb),
        (Hentry 2%nat _ c Hc).
      destruct data as [| d0 [| d1 [| d2 rest]]]; cbn in Hlen; try lia;
        cbn [lookup list_lookup].
      * reflexivity.
      * destruct (Hdata d0) as [x ->]; [left |]. reflexivity.
      * destruct (Hdata d0) as [x ->]; [left |].
        destruct (Hdata d1) as [y ->]; [right; left |]. reflexivity.
    + intros Hlen. unfold translate_point.
      rewrite (Hentry 0%nat _ a Ha), (Hentry 1%nat _ b Hb),
        (Hentry 2%nat _ c Hc).
      destruct data as [| d0 [| d1 [| d2 rest]]]; cbn in Hlen; try lia.
      destruct (Hdata d0) as [x ->]; [left |].
      destruct (Hdata d1) as [y ->]; [right; left |].
      destruct (Hdata d2) as [z ->]; [right; right; left |].
      eexists. reflexivity.
  - intros r. unfold translate_point.
    repeat match goal with
           | |- context [match ?e with inl _ => _ | inr _ => _ end] =>
               lazymatch e with
               | context [match _ with inl _ => _ | inr _ => _ end] => fail
               | _ => destruct e; try discriminate
               end
           end.
    all: try (intros [= <-]; reflexivity).
  - unfold translate_point, getitem.
    rewrite !lookup_take_lt by lia. reflexivity.
Qed.

Lemma translate_point_arity_witness :
  let data := [PyFloat (float_of_Z 1); PyFloat (float_of_Z 2)] in
  translate_point data None None None None =
    inl (IndexError "list index out of range") \/
  translate_point data None None None None =
    inl (OverflowError "int too large to convert to float").
Proof.
  intros data.
  apply (translate_point_arity data None None None None). cbn. lia.
Defined.

(** ** The script of [scale_input], continued *)

Lemma for_each_same {A} (body : A -> exn + A) (l : list A) :
  (forall a : A, a ∈ l -> body a = inr a) -> for_each body l = inr l.
Proof.
  induction l as [| a l IH]; intros Hall; cbn; [reflexivity |].
  rewrite (Hall a) by left. rewrite IH; [reflexivity |].
  intros a' Ha'. apply Hall. right. exact Ha'.
Qed.

Lemma for_each_nth {A} (body : A -> exn + A) (d : A) (l pre : list A) :
  (forall a : A, a ∈ l -> body a = inr a) ->
  for_each (fun i => body (nth i (pre ++ l) d)) (seq (length pre) (length l))
    = inr l.
Proof.
  revert pre. induction l as [| a l IH]; intros pre Hall; cbn [length seq];
    [reflexivity |].
  cbn [for_each].
  rewrite app_nth2, Nat.sub_diag by lia. cbn [nth].
  rewrite (Hall a) by left.
  specialize (IH (pre ++ [a])). rewrite <- app_assoc in IH. cbn [app] in IH.
  rewrite length_app in IH. cbn [length] in IH.
  replace (length pre + 1)%nat with (S (length pre)) in IH by lia.
  rewrite IH; [reflexivity |].
  intros a' Ha'. apply Hall. right. exact Ha'.
Qed.

(** Scaling by nothing changes nothing that the 32-bit store can keep:
    run on a mesh whose coordinates and values are 32-bit floats already,
    the script built from [scale_data=None], [scale_coords=None] and
    [zero_origin=False] gives back the mesh, point for point and value
    for value. *)
Theorem scale_input_default_is_identity (GetBounds : list point -> bounds)
    (pdi : dataset) :
  length (ds_scalars pdi) = length (ds_points pdi) ->
  (forall x y z : float,
     (x, y, z) ∈ ds_points pdi -> stored32 x /\ stored32 y /\ stored32 z) ->
  (forall v : float, v ∈ ds_scalars pdi -> stored32 v) ->
  run_script GetBounds (scale_input_script None None false) pdi = inr pdi.
Proof.
  intros Hlen Hpts Hvals. unfold run_script.
  rewrite for_each_same.
  - rewrite <- Hlen.
    pose proof (for_each_nth
               (fun v =>
                  match times_literal v (PyInt 1) with
                  | inl e => inl e
                  | inr v => inr (narrow32 v)
                  end) (S754_zero false) (ds_scalars pdi) []) as Hca.
    cbn [app length] in Hca.
    cbn [sc_scale_data scale_input_script].
    rewrite Hca.
    + destruct pdi; reflexivity.
    + intros v Hv. destruct (Hvals v Hv) as [Hf H32].
      rewrite (times_literal_inr _ _ (float_of_Z 1)) by reflexivity.
      rewrite fmul_one by exact Hf.
      rewrite H32. reflexivity.
  - intros [[x y] z] Hin.
    destruct (Hpts x y z Hin) as ((Hfx & Hx) & (Hfy & Hy) & (Hfz & Hz)).
    rewrite (script_point_inr _ _ _ _ _ (float_of_Z 1)) by reflexivity.
    destruct (GetBounds (ds_points pdi)) as [[[[[? ?] ?] ?] ?] ?].
    cbn [sc_zero_origin sc_scale_coords scale_input_script py_truthy
         Z.eqb negb].
    rewrite !fmul_one by assumption. rewrite Hx, Hy, Hz. reflexivity.
Qed.

Lemma scale_input_default_is_identity_witness :
  let pdi :=
    Dataset [(float_of_Z 10, float_of_Z 20, float_of_Z 5);
             (float_of_Z 30, float_of_Z 40, float_of_Z 7)]
            [float_of_Z 2; float_of_Z 3] "vs" in
  run_script (fun _ => (float_of_Z 10, float_of_Z 30, float_of_Z 20,
                        float_of_Z 40, float_of_Z 5, float_of_Z 7))
    (scale_input_script None None false) pdi = inr pdi.
Proof.
  intros pdi. apply scale_input_default_is_identity.
  - reflexivity.
  - intros x y z Hin. cbn in Hin. set_unfold.
    destruct Hin as [[= -> -> ->] | [[= -> -> ->] | []]];
      repeat split; reflexivity.
  - intros v Hin. cbn in Hin. set_unfold.
    destruct Hin as [-> | [-> | []]]; split; reflexivity.
Defined.

(** A factor whose float is positive can be read back from the script
    text and is true. *)
Lemma positive_factor (c : pynum) (k : float) :
  py_float c = inr k -> (0 < F2Q k)%Q ->
  script_literal c = inr c /\ py_truthy c = true.
Proof.
  intros Hk Hpos. destruct c as [n | x]; cbn in *.
  - split; [reflexivity |]. destruct (Z.eqb_spec n 0) as [-> | Hn];
      [| reflexivity].
    injection Hk as <-. exfalso. revert Hpos. apply Qlt_irrefl.
  - injection Hk as ->.
    destruct k as [s | s | | s m e]; try (split; reflexivity);
      exfalso; revert Hpos; apply Qlt_irrefl.
Qed.

(** With [zero_origin] and a positive coordinate factor the mesh is moved
    into the first quadrant: when the mesh is finite and the bounds the
    host reports are finite lower bounds of the X and Y coordinates, the
    script returns, no output point has a negative X or Y, and a point on
    the lower bound of X lands on X = 0.0. *)
Theorem zero_origin_moves_corner_to_origin (GetBounds : list point -> bounds)
    (scale_data scale_coords : option pynum) (pdi : dataset)
    (xmin xmax ymin ymax zmin zmax k kd : float) :
  let c := default (PyInt 1) scale_coords in
  let d := default (PyInt 1) scale_data in
  GetBounds (ds_points pdi) = (xmin, xmax, ymin, ymax, zmin, zmax) ->
  is_finite xmin = true -> is_finite ymin = true ->
  (forall x y z : float,
     (x, y, z) ∈ ds_points pdi ->
     is_finite x = true /\ is_finite y = true /\
     (F2Q xmin <= F2Q x /\ F2Q ymin <= F2Q y)%Q) ->
  py_float c = inr k -> (0 < F2Q k)%Q ->
  script_literal d = inr d -> py_float d = inr kd ->
  exists out : dataset,
    run_script GetBounds (scale_input_script scale_data scale_coords true)
      pdi = inr out /\
    (forall x' y' z' : float,
       (x', y', z') ∈ ds_points out ->
       is_nonneg x' = true /\ is_nonneg y' = true) /\
    (forall (i : nat) (y z : float),
       ds_points pdi !! i = Some (xmin, y, z) ->
       exists x' y' z' : float,
         ds_points out !! i = Some (x', y', z') /\ x' = float_of_Z 0).
Proof.
  cbv zeta. intros Hb Hfx Hfy Hlow Hck Hpos Hdl Hdk.
  destruct (positive_factor _ _ Hck Hpos) as [Hcl Htrue].
  set (s := scale_input_script scale_data scale_coords true).
  assert (Hc : sc_scale_coords s = default (PyInt 1) scale_coords)
    by (destruct scale_coords; reflexivity).
  assert (Hd : sc_scale_data s = default (PyInt 1) scale_data)
    by (destruct scale_data; reflexivity).
  rewrite <- Hc in Hcl, Hck, Htrue. rewrite <- Hd in Hdl, Hdk.
  destruct (for_each_returns (script_point s (GetBounds (ds_points pdi)))
              (ds_points pdi))
    as [newPoints Hpts].
  { intros [[x y] z] _. eexists. apply (script_point_inr _ _ _ _ _ _ Hcl Hck). }
  destruct (for_each_returns
              (fun i =>
                 match
                   times_literal (nth i (ds_scalars pdi) (S754_zero false))
                     (sc_scale_data s)
                 with
                 | inl e => inl e
                 | inr v => inr (narrow32 v)
                 end) (seq 0 (length (ds_points pdi)))) as [ca Hca].
  { intros i _. rewrite (times_literal_inr _ _ _ Hdl Hdk). eexists.
    reflexivity. }
  exists {| ds_points := newPoints; ds_scalars := ca; ds_name := ds_name pdi |}.
  split; [unfold run_script; rewrite Hpts, Hca; reflexivity |].
  apply for_each_inr in Hpts as [Hlen Hget].
  rewrite Hb in Hget. cbn [ds_points]. split.
  - intros x' y' z' Hin. apply list_elem_of_lookup in Hin as [i Hi].
    destruct (lookup_lt_is_Some_2 (ds_points pdi) i) as [[[x y] z] Hp].
    { rewrite <- Hlen. apply lookup_lt_Some in Hi. exact Hi. }
    destruct (Hget i _ Hp) as (p & Hsp & Hout).
    rewrite Hi in Hout. injection Hout as <-.
    rewrite (script_point_inr _ _ _ _ _ _ Hcl Hck), Htrue in Hsp.
    cbn [sc_zero_origin s scale_input_script] in Hsp. injection Hsp as <- <- _.
    destruct (Hlow x y z) as (Hx & Hy & Hxl & Hyl);
      [apply list_elem_of_lookup; exists i; exact Hp |].
    split; apply narrow32_nonneg, fmul_nonneg; try exact Hpos;
      apply fsub_nonneg; assumption.
  - intros i y z Hp. destruct (Hget i _ Hp) as (p & Hsp & ->).
    rewrite (script_point_inr _ _ _ _ _ _ Hcl Hck), Htrue in Hsp.
    cbn [sc_zero_origin s scale_input_script] in Hsp. injection Hsp as <-.
    do 3 eexists. split; [reflexivity |].
    rewrite fsub_self by exact Hfx. rewrite fmul_zero by exact Hpos.
    reflexivity.
Qed.

Lemma zero_origin_moves_corner_to_origin_witness :
  let pdi :=
    Dataset [(float_of_Z 10, float_of_Z 20, float_of_Z 5);
             (float_of_Z 30, float_of_Z 40, float_of_Z 7)]
            [float_of_Z 2; float_of_Z 3] "vs" in
  exists out : dataset,
    run_script
      (fun _ => (float_of_Z 10, float_of_Z 30, float_of_Z 20, float_of_Z 40,
                 float_of_Z 5, float_of_Z 7))
      (scale_input_script None (Some (PyFloat milli)) true) pdi = inr out /\
    (forall x' y' z' : float,
       (x', y', z') ∈ ds_points out ->
       is_nonneg x' = true /\ is_nonneg y' = true) /\
    (forall (i : nat) (y z : float),
       ds_points pdi !! i = Some (float_of_Z 10, y, z) ->
       exists x' y' z' : float,
         ds_points out !! i = Some (x', y', z') /\ x' = float_of_Z 0).
Proof.
  intros pdi.
  apply (zero_origin_moves_corner_to_origin
           (fun _ => (float_of_Z 10, float_of_Z 30, float_of_Z 20,
                      float_of_Z 40, float_of_Z 5, float_of_Z 7))
           None (Some (PyFloat milli)) pdi
           (float_of_Z 10) (float_of_Z 30) (float_of_Z 20) (float_of_Z 40)
           (float_of_Z 5) (float_of_Z 7) milli (float_of_Z 1)).
  - reflexivity.
  - reflexivity.
  - reflexivity.
  - intros x y z Hin. cbn in Hin. set_unfold.
    destruct Hin as [[= -> -> ->] | [[= -> -> ->] | []]];
      repeat split; vm_compute; discriminate.
  - reflexivity.
  - reflexivity.
  - reflexivity.
  - reflexivity.
Defined.

(** ** The data-file wrapper, continued *)

Section Coordinates.
Context {env : Env}.

(** [_get_coordinates] fetches the mesh of [input], or of [self.data]
    when no input is given, and returns its X, Y and Z columns: three
    lists as long as the mesh has points, in the order of the points. *)
Theorem get_coordinates_columns (self_data : handle) (input : option handle)
    (w : world) (d : dataset) :
  datasets w !! default self_data input = Some d ->
  _get_coordinates self_data input w =
    (inr ((fun p : point => p.1.1) <$> ds_points d,
          (fun p : point => p.1.2) <$> ds_points d,
          (fun p : point => p.2) <$> ds_points d),
     set_calls (fun cs => cs ++ [CFetch (default self_data input)]) w).
Proof.
  intros Hd. unfold _get_coordinates, Fetch, log. run.
  assert (Hin : match input with Some i => i | None => self_data end =
                default self_data input) by (destruct input; reflexivity).
  rewrite Hin. cbn. rewrite Hd. cbn.
  rewrite columns_foldl. reflexivity.
Qed.
End Coordinates.

Lemma get_coordinates_columns_witness :
  let w := set_datasets (insert 0%nat demo_mesh) (fresh_world []) in
  _get_coordinates 0%nat None w =
    (inr ([float_of_Z 0; float_of_Z 2000], [float_of_Z 0; float_of_Z 4000],
          [float_of_Z (-10); float_of_Z 0]),
     set_calls (fun cs => cs ++ [CFetch 0%nat]) w).
Proof.
  apply (get_coordinates_columns 0%nat None
           (set_datasets (insert 0%nat demo_mesh) (fresh_world []))
           demo_mesh).
  reflexivity.
Defined.

(** On a non-empty list [max] and [min] return entries that no entry
    exceeds or undercuts, and [center] takes their binary64 mean. *)
Lemma axis_midpoint (coord : list float) :
  coord <> [] ->
  exists hi lo : float,
    py_max coord = inr hi /\ py_min coord = inr lo /\
    midpoint_of coord (fdiv (fadd hi lo) (float_of_Z 2)).
Proof.
  destruct coord as [| x l]; [contradiction |]. intros _.
  destruct (fold_max_spec l x) as (Hhi_in & _ & Hhi).
  destruct (fold_min_spec l x) as (Hlo_in & _ & Hlo).
  do 2 eexists. split; [reflexivity |]. split; [reflexivity |].
  do 2 eexists. split; [exact Hlo_in |]. split; [exact Hhi_in |].
  split; [| reflexivity]. intros v Hv. split; [apply Hhi | apply Hlo]; exact Hv.
Qed.

Section Center.
Context {env : Env}.

(** On a mesh with points [center] returns three floats, one per axis:
    the binary64 sum of the entries [max] and [min] pick from the cached
    coordinates of that axis -- no entry is greater than the first or
    smaller than the second -- divided by 2.0 in binary64 (so the sum of
    two large coordinates overflows to infinity).  It makes no call to the
    host and changes nothing. *)
Theorem center_midpoints (self : CartesianDataFile) (w : world)
    (xs ys zs : list float) :
  cdf_data_coords self = (xs, ys, zs) ->
  xs <> [] -> ys <> [] -> zs <> [] ->
  exists mx my mz : float,
    center (self, w) = (inr [mx; my; mz], (self, w)) /\
    midpoint_of xs mx /\ midpoint_of ys my /\ midpoint_of zs mz.
Proof.
  intros Hc Hx Hy Hz.
  destruct (axis_midpoint xs Hx) as (hx & lx & Hmaxx & Hminx & Hmx).
  destruct (axis_midpoint ys Hy) as (hy & ly & Hmaxy & Hminy & Hmy).
  destruct (axis_midpoint zs Hz) as (hz & lz & Hmaxz & Hminz & Hmz).
  exists (fdiv (fadd hx lx) (float_of_Z 2)), (fdiv (fadd hy ly) (float_of_Z 2)),
    (fdiv (fadd hz lz) (float_of_Z 2)).
  split; [| repeat split; assumption].
  unfold center, self_attr. run. cbn [fst snd]. rewrite Hc.
  cbn [center_loop]. unfold mbind, St_bind, lift.
  rewrite Hmaxx, Hminx, Hmaxy, Hminy, Hmaxz, Hminz. reflexivity.
Qed.

(** A mesh without points: [center] and [stats] both raise [ValueError],
    [center] from [max] and [stats] from [min]; [stats] has printed
    nothing by then. *)
Theorem empty_mesh_raises (self : CartesianDataFile) (w : world)
    (ys zs : list float) :
  cdf_data_coords self = ([], ys, zs) ->
  center (self, w) =
    (inl (ValueError "max() arg is an empty sequence"), (self, w)) /\
  stats (self, w) =
    (inl (ValueError "min() arg is an empty sequence"), (self, w)).
Proof.
  intros Hc. unfold center, stats, self_attr. run. cbn. rewrite Hc. cbn.
  destruct self; split; reflexivity.
Qed.
End Center.

Lemma center_midpoints_witness :
  let self :=
    CDF "model.vtk" 0
        ([float_of_Z 0; float_of_Z 2000], [float_of_Z 0; float_of_Z 4000],
         [float_of_Z (-10); float_of_Z 0])
        (float_of_Z 3000, float_of_Z 4500) 0 in
  exists mx my mz : float,
    center (self, fresh_world []) = (inr [mx; my; mz], (self, fresh_world [])) /\
    midpoint_of [float_of_Z 0; float_of_Z 2000] mx /\
    midpoint_of [float_of_Z 0; float_of_Z 4000] my /\
    midpoint_of [float_of_Z (-10); float_of_Z 0] mz.
Proof.
  apply (center_midpoints
           (CDF "model.vtk" 0
                ([float_of_Z 0; float_of_Z 2000],
                 [float_of_Z 0; float_of_Z 4000],
                 [float_of_Z (-10); float_of_Z 0])
                (float_of_Z 3000, float_of_Z 4500) 0)
           (fresh_world [])); [reflexivity | discriminate ..].
Defined.

Lemma empty_mesh_raises_witness :
  let self := CDF "empty.vtk" 0 ([], [], []) (float_of_Z 0, float_of_Z 0) 0 in
  center (self, fresh_world []) =
    (inl (ValueError "max() arg is an empty sequence"),
     (self, fresh_world [])) /\
  stats (self, fresh_world []) =
    (inl (ValueError "min() arg is an empty sequence"),
     (self, fresh_world [])).
Proof.
  apply (empty_mesh_raises
           (CDF "empty.vtk" 0 ([], [], []) (float_of_Z 0, float_of_Z 0) 0)
           (fresh_world []) [] []).
  reflexivity.
Defined.
Section Slices.
Context {env : Env}.

(** One run of [depth_slice], field by field. *)
Lemma depth_slice_run (self : CartesianDataFile) (w : world) (depth : Q)
    (hide_original : bool) :
  exists w' : world,
    depth_slice depth hide_original (self, w) =
      (inr (next_id w), (self, w')) /\
    sources w' = sources w ++ [(slice_name (next_id w), next_id w)] /\
    next_id w' = S (next_id w) /\
    active w' = Some (next_id w) /\
    datasets w' = datasets w /\
    paths w' = paths w /\
    stdout w' = stdout w /\
    slices w' =
      <[next_id w :=
          SliceProps "Plane" (0, 0, 1)%Q
            ((Origin (slice_defaults w (cdf_data self))).1.1,
             (Origin (slice_defaults w (cdf_data self))).1.2, depth)]>
        (slices w) /\
    inputs w' = <[next_id w := cdf_data self]> (inputs w) /\
    shown w' =
      (if hide_original
       then ({[next_id w]} ∪ shown w) ∖ {[cdf_data self]}
       else {[next_id w]} ∪ shown w).
Proof.
  unfold depth_slice, host, self_attr, Slice, set_SliceType, set_Normal,
    get_Origin, set_Origin, get_slice, Hide3DWidgets, Show, Hide, register,
    log.
  run. cbn. repeat (rewrite lookup_insert_eq; cbn).
  destruct (slice_defaults w (cdf_data self)) as [t n [[o0 o1] o2]].
  cbn. repeat (rewrite lookup_insert_eq; cbn).
  destruct hide_original; cbn;
    (eexists; split; [reflexivity |]); cbn;
    rewrite !insert_insert_eq; repeat split; reflexivity.
Qed.

(** [depth_slice] always returns, and what it changes in the session is
    the new slice alone: one source more in the registry, which becomes
    the active one; no mesh, file or printed line is touched and every
    other slice keeps its properties and its input. *)
Theorem depth_slice_frame (self : CartesianDataFile) (w : world) (depth : Q)
    (hide_original : bool) :
  exists w' : world,
    depth_slice depth hide_original (self, w) =
      (inr (next_id w), (self, w')) /\
    sources w' = sources w ++ [(slice_name (next_id w), next_id w)] /\
    active w' = Some (next_id w) /\
    datasets w' = datasets w /\
    paths w' = paths w /\
    stdout w' = stdout w /\
    (forall p : handle,
       p <> next_id w ->
       slices w' !! p = slices w !! p /\ inputs w' !! p = inputs w !! p) /\
    (forall p : handle,
       p <> next_id w -> p <> cdf_data self ->
       (p ∈ shown w' <-> p ∈ shown w)).
Proof.
  destruct (depth_slice_run self w depth hide_original)
    as (w' & Hrun & Hsrc & _ & Hact & Hds & Hp & Hout & Hsl & Hin & Hsh).
  exists w'. repeat split; try assumption.
  - rewrite Hsl. apply lookup_insert_ne. congruence.
  - rewrite Hin. apply lookup_insert_ne. congruence.
  - rewrite Hsh. destruct hide_original; set_unfold; tauto.
  - rewrite Hsh. destruct hide_original; set_unfold; tauto.
Qed.

(** Slicing twice gives two slices: the second call makes a new one at
    its own depth, and the first keeps its depth and stays visible. *)
Theorem depth_slice_twice (self : CartesianDataFile) (w : world)
    (d1 d2 : Q) (h1 h2 : bool) :
  (cdf_data self < next_id w)%nat ->
  exists (w1 w2 : world) (o1 o2 : vec3),
    depth_slice d1 h1 (self, w) = (inr (next_id w), (self, w1)) /\
    depth_slice d2 h2 (self, w1) = (inr (S (next_id w)), (self, w2)) /\
    slices w2 !! next_id w =
      Some (SliceProps "Plane" (0, 0, 1)%Q (o1.1.1, o1.1.2, d1)) /\
    slices w2 !! S (next_id w) =
      Some (SliceProps "Plane" (0, 0, 1)%Q (o2.1.1, o2.1.2, d2)) /\
    next_id w ∈ shown w2 /\ S (next_id w) ∈ shown w2.
Proof.
  intros Hlive.
  destruct (depth_slice_run self w d1 h1)
    as (w1 & Hrun1 & _ & Hn1 & _ & _ & _ & _ & Hsl1 & _ & Hsh1).
  destruct (depth_slice_run self w1 d2 h2)
    as (w2 & Hrun2 & _ & _ & _ & _ & _ & _ & Hsl2 & _ & Hsh2).
  rewrite Hn1 in *.
  exists w1, w2, (Origin (slice_defaults w (cdf_data self))),
    (Origin (slice_defaults w1 (cdf_data self))).
  split; [exact Hrun1 |]. split; [exact Hrun2 |].
  assert (Hne : cdf_data self <> next_id w) by lia.
  assert (Hne' : cdf_data self <> S (next_id w)) by lia.
  repeat split.
  - rewrite Hsl2, lookup_insert_ne by lia. rewrite Hsl1.
    apply lookup_insert_eq.
  - rewrite Hsl2. apply lookup_insert_eq.
  - rewrite Hsh2, Hsh1. destruct h1, h2; set_unfold; intuition lia.
  - rewrite Hsh2. destruct h2; set_unfold; intuition lia.
Qed.
End Slices.

Lemma depth_slice_twice_witness :
  let self := CDF "model.vtk" 0 ([float_of_Z 0], [float_of_Z 0], [float_of_Z 0])
        (float_of_Z 0, float_of_Z 0) 0 in
  let w := set_next_id 1 (fresh_world []) in
  exists (w1 w2 : world) (o1 o2 : vec3),
    depth_slice (-5) true (self, w) = (inr 1%nat, (self, w1)) /\
    depth_slice (-10) true (self, w1) = (inr 2%nat, (self, w2)) /\
    slices w2 !! 1%nat =
      Some (SliceProps "Plane" (0, 0, 1)%Q (o1.1.1, o1.1.2, (-5)%Q)) /\
    slices w2 !! 2%nat =
      Some (SliceProps "Plane" (0, 0, 1)%Q (o2.1.1, o2.1.2, (-10)%Q)) /\
    1%nat ∈ shown w2 /\ 2%nat ∈ shown w2.
Proof.
  apply (depth_slice_twice
           (CDF "model.vtk" 0 ([float_of_Z 0], [float_of_Z 0], [float_of_Z 0])
        (float_of_Z 0, float_of_Z 0) 0)
           (set_next_id 1 (fresh_world [])) (-5) (-10) true true).
  cbn. lia.
Defined.

Section Construction.
Context {env : Env}.


(** A file that is not there, or that the host has no reader for, stops
    the constructor at its first line: [RuntimeError] is raised, no
    instance is made, and apart from the call to [OpenDataFile] the
    session is as it was; nothing is registered or shown. *)
Theorem CartesianDataFile_unreadable (fid : string)
    (scale_data scale_coords : option pynum) (zero_origin : bool) (w : world) :
  (fid ∉ paths w ->
   CartesianDataFile__init__ fid scale_data scale_coords zero_origin w =
     (inl (RuntimeError ("File not readable: " +:+ fid +:+ " ")),
      set_calls (fun cs => cs ++ [COpenDataFile fid]) w)) /\
  (fid ∈ paths w -> has_reader fid = false ->
   CartesianDataFile__init__ fid scale_data scale_coords zero_origin w =
     (inl (RuntimeError ("File not readable. No reader found for '"
                         +:+ fid +:+ "' ")),
      set_calls (fun cs => cs ++ [COpenDataFile fid]) w)).
Proof.
  unfold CartesianDataFile__init__, OpenDataFile, log. split.
  - intros Hout. run. cbn. rewrite (bool_decide_eq_false_2 _ Hout).
    reflexivity.
  - intros Hin Hno. run. cbn. rewrite (bool_decide_eq_true_2 _ Hin), Hno.
    reflexivity.
Qed.
End Construction.

Lemma CartesianDataFile_unreadable_witness :
  CartesianDataFile__init__ "missing.vtk" None None false (fresh_world []) =
    (inl (RuntimeError "File not readable: missing.vtk "),
     set_calls (fun cs => cs ++ [COpenDataFile "missing.vtk"])
       (fresh_world [])).
Proof.
  apply (CartesianDataFile_unreadable "missing.vtk" None None false
           (fresh_world [])).
  cbn. set_solver.
Defined.


(** ** The entry point, continued *)

Section EntryPoint.
Context {env : Env}.

Lemma check_run (ns a : args) (w w' : world) :
  check ns w = (inr a, w') ->
  a = checked ns /\
  (movie ns = true \/ fid ns ∈ paths w) /\
  ((output ns ∈ paths w /\ w' = w) \/
   ((output ns ∉ paths w) /\ mkdir_fails (output ns) = false /\
    w' = set_paths (fun s => {[output ns]} ∪ s) w)).
Proof.
  unfold checked, check, path_exists, mkdir. run.
  destruct (movie ns) eqn:Hm; cbn.
  - destruct (bool_decide (output ns ∈ paths w)) eqn:Ho; cbn.
    + intros [= <- <-]. apply bool_decide_eq_true in Ho. auto.
    + destruct (mkdir_fails (output ns)) eqn:Hmk; cbn; [discriminate |].
      intros [= <- <-]. apply bool_decide_eq_false in Ho. auto 10.
  - destruct (bool_decide (fid ns ∈ paths w)) eqn:Hf; cbn; [| discriminate].
    apply bool_decide_eq_true in Hf.
    destruct (bool_decide (output ns ∈ paths w)) eqn:Ho; cbn.
    + intros [= <- <-]. apply bool_decide_eq_true in Ho. auto.
    + destruct (mkdir_fails (output ns)) eqn:Hmk; cbn; [discriminate |].
      intros [= <- <-]. apply bool_decide_eq_false in Ho. auto 10.
Qed.

(** When [check] returns, the output directory exists: it was there or
    has just been made, and no other path has appeared or gone.  Nothing
    was asked of the host.  Checking the returned namespace again returns
    it unchanged and changes nothing. *)
Theorem check_makes_output_directory (ns a : args) (w w' : world) :
  check ns w = (inr a, w') ->
  output ns ∈ paths w' /\
  (forall p : string, p ∈ paths w' <-> p = output ns \/ p ∈ paths w) /\
  calls w' = calls w /\ sources w' = sources w /\ stdout w' = stdout w /\
  check a w' = (inr a, w').
Proof.
  intros Hrun. apply check_run in Hrun as (-> & Hfid & Hout).
  assert (Hpaths : output ns ∈ paths w' /\
                   forall p, p ∈ paths w' <-> p = output ns \/ p ∈ paths w).
  { destruct Hout as [[Hin ->] | (Hnot & _ & ->)]; cbn.
    - split; [exact Hin |]. intros p. split; [auto |].
      intros [-> | Hp]; assumption.
    - split; [set_unfold; auto |]. intros p. set_unfold. tauto. }
  destruct Hpaths as [Hin Hiff].
  split; [exact Hin |]. split; [exact Hiff |].
  split; [destruct Hout as [[_ ->] | (_ & _ & ->)]; reflexivity |].
  split; [destruct Hout as [[_ ->] | (_ & _ & ->)]; reflexivity |].
  split; [destruct Hout as [[_ ->] | (_ & _ & ->)]; reflexivity |].
  unfold check, path_exists, mkdir. run. unfold checked at 1 2 3 4. 
  cbn [movie fid output fid_out cfg_fid verbose].
  assert (Hfid' : (if negb (movie ns)
                   then bool_decide (fid ns ∈ paths w')
                   else true) = true).
  { destruct Hfid as [-> | Hf]; [reflexivity |].
    destruct (movie ns); [reflexivity |]. cbn.
    apply bool_decide_eq_true_2, Hiff. right. exact Hf. }
  destruct (movie ns); cbn in *.
  - rewrite (bool_decide_eq_true_2 _ Hin). cbn. reflexivity.
  - rewrite Hfid'. cbn. rewrite (bool_decide_eq_true_2 _ Hin). cbn.
    reflexivity.
Qed.

(** The three ways [setup] can go once the configuration file exists.
    If the import fails, its exception is passed on and the host has not
    been called.  If the configuration has a resolution of at least two
    entries, [setup] creates the render view, renders, sizes the layout
    with the first two entries and returns the configuration; nothing but
    these four calls happens.  If the resolution is shorter, the
    [IndexError] comes only after the view was created and rendered. *)
Theorem setup_outcomes (cfg_fid : string) (w : world) :
  cfg_fid ∈ paths w ->
  (forall e : exn,
     import_module (splitext cfg_fid).1 = inl e ->
     setup cfg_fid w = (inl e, w)) /\
  (forall (cfg : config) (r0 r1 : Z),
     import_module (splitext cfg_fid).1 = inr cfg ->
     cfg_resolution cfg !! 0%nat = Some r0 ->
     cfg_resolution cfg !! 1%nat = Some r1 ->
     setup cfg_fid w =
       (inr cfg,
        set_calls
          (fun cs =>
             cs ++ [CGetActiveViewOrCreate "RenderView"; CRender; CGetLayout;
                    CSetSize r0 r1]) w)) /\
  (forall cfg : config,
     import_module (splitext cfg_fid).1 = inr cfg ->
     (length (cfg_resolution cfg) < 2)%nat ->
     setup cfg_fid w =
       (inl (IndexError "list index out of range"),
        set_calls
          (fun cs =>
             cs ++ [CGetActiveViewOrCreate "RenderView"; CRender; CGetLayout])
          w)).
Proof.
  intros Hex.
  unfold setup, path_exists, GetActiveViewOrCreate, Render, GetLayout,
    SetSize, log, getitem.
  run. rewrite (bool_decide_eq_true_2 _ Hex). cbn.
  split; [| split].
  - intros e ->. reflexivity.
  - intros cfg r0 r1 -> H0 H1. cbn. rewrite H0, H1. cbn.
    f_equal. unfold set_calls. cbn. f_equal.
    rewrite <- !app_assoc. reflexivity.
  - intros cfg -> Hshort. cbn.
    destruct (cfg_resolution cfg) as [| r0 [| r1 rest]] eqn:Hres; cbn in *;
      [| | lia];
      f_equal; unfold set_calls; cbn; f_equal;
      rewrite <- !app_assoc; reflexivity.
Qed.
End EntryPoint.

Lemma setup_outcomes_witness :
  let w := fresh_world ["model.vtk"; "config.py"]%string in
  setup "config.py" w =
    (inr demo_cfg,
     set_calls
       (fun cs =>
          cs ++ [CGetActiveViewOrCreate "RenderView"; CRender; CGetLayout;
                 CSetSize 2100 2100]) w).
Proof.
  assert (Hex : "config.py"%string ∈
                paths (fresh_world ["model.vtk"; "config.py"]%string))
    by (vm_compute; set_unfold; auto).
  apply (setup_outcomes "config.py"
           (fresh_world ["model.vtk"; "config.py"]%string) Hex);
    reflexivity.
Defined.

Lemma check_makes_output_directory_witness :
  let w := fresh_world ["model.vtk"; "config.py"]%string in
  "output"%string ∈ paths (check demo_args w).2 /\
  check (checked demo_args) (check demo_args w).2 =
    (inr (checked demo_args), (check demo_args w).2).
Proof.
  cbv zeta.
  destruct (check demo_args (fresh_world ["model.vtk"; "config.py"]%string))
    as [[e | a] w'] eqn:Hrun; [vm_compute in Hrun; discriminate Hrun |].
  assert (Ha : a = checked demo_args)
    by (vm_compute in Hrun; injection Hrun as <- _; reflexivity).
  pose proof (check_makes_output_directory demo_args a
                (fresh_world ["model.vtk"; "config.py"]%string) w' Hrun)
    as (Hin & _ & _ & _ & _ & Hagain).
  cbn [snd]. subst a. split; assumption.
Defined.

(** ** Rendering the movie frames *)

Lemma insert_sorted_permutation (x : string) (l : list string) :
  insert_sorted x l ≡ₚ x :: l.
Proof.
  induction l as [| y l IH]; cbn; [reflexivity |].
  destruct (String.leb x y); [reflexivity |].
  rewrite IH. apply Permutation_swap.
Qed.

(** [sorted] rearranges: nothing is lost and nothing is added. *)
Lemma sorted_permutation (l : list string) : sorted l ≡ₚ l.
Proof.
  induction l as [| x l IH]; cbn; [reflexivity |].
  rewrite insert_sorted_permutation, IH. reflexivity.
Qed.

Lemma sorted_length (l : list string) : length (sorted l) = length l.
Proof. apply Permutation_length, sorted_permutation. Qed.

Section MovieFrames.
Context {env : Env}.

Lemma movie_frame_round_run (a : args) (cfg : config) (b0 b1 : Q)
    (f : string) (w : world) :
  cfg_mov_bounds cfg !! 0%nat = Some b0 ->
  cfg_mov_bounds cfg !! 1%nat = Some b1 ->
  exists w1 : world,
    movie_frame_round a cfg f w = (inr tt, w1) /\
    omap screenshot_path (calls w1) =
      omap screenshot_path (calls w) ++
      [path_join (output a) (f +:+ ".png")] /\
    next_id w1 = S (next_id w) /\
    shown w1 = {[next_id w]} ∪ shown w /\
    sources w1 = sources w ++ [(reader_name f, next_id w)] /\
    paths w1 = paths w.
Proof.
  intros H0 H1.
  unfold movie_frame_round, SurfaceMovie__init__, AVSUCDReader, screenshot,
    GetActiveView, Show, GetColorTransferFunction,
    GetOpacityTransferFunction, RescaleTransferFunction, set_Scale,
    ResetCamera, SaveScreenshot, register, log, print, getitem.
  rewrite H0, H1.
  destruct (verbose a); run; cbn;
    (eexists; split; [reflexivity |]); cbn;
    rewrite !omap_app; cbn; rewrite !app_nil_r;
    repeat split; reflexivity.
Qed.

(** The rounds of the loop of [movie_frame] over the files [files]. *)
Lemma movie_frame_rounds (a : args) (cfg : config) (b0 b1 : Q)
    (files : list string) (w : world) :
  cfg_mov_bounds cfg !! 0%nat = Some b0 ->
  cfg_mov_bounds cfg !! 1%nat = Some b1 ->
  exists w' : world,
    for_ files (movie_frame_round a cfg) w = (inr tt, w') /\
    omap screenshot_path (calls w') =
      omap screenshot_path (calls w) ++
      ((fun f => path_join (output a) (f +:+ ".png")) <$> files) /\
    next_id w' = (next_id w + length files)%nat /\
    (forall p : handle,
       p ∈ shown w' <->
       p ∈ shown w \/ (next_id w <= p < next_id w + length files)%nat) /\
    sources w' =
      sources w ++
      imap (fun i f => (reader_name f, (next_id w + i)%nat)) files /\
    paths w' = paths w.
Proof.
  intros H0 H1. revert w.
  induction files as [| f files IH]; intros w.
  - exists w. cbn. rewrite !app_nil_r, Nat.add_0_r.
    repeat split; try tauto. intros [Hp | Hp]; [exact Hp | lia].
  - cbn [for_]. unfold mbind at 1. unfold St_bind at 1.
    destruct (movie_frame_round_run a cfg b0 b1 f w H0 H1)
      as (w1 & -> & Hc1 & Hn1 & Hs1 & Hsrc1 & Hp1).
    destruct (IH w1) as (w' & Hrun & Hc & Hn & Hs & Hsrc & Hp).
    exists w'. split; [exact Hrun |].
    rewrite Hc, Hc1, Hn, Hn1, Hsrc, Hsrc1, Hp, Hp1.
    rewrite fmap_cons, <- !app_assoc. cbn [length imap].
    split; [reflexivity |]. split; [lia |]. split; [| split].
    + intros p. rewrite Hs, Hs1, Hn1. set_unfold. intuition lia.
    + cbn. rewrite Nat.add_0_r. do 2 f_equal.
      apply imap_ext. intros i x _. cbn. f_equal. lia.
    + reflexivity.
Qed.

Lemma movie_frame_run (a : args) (cfg : config) (b0 b1 : Q) (w : world) :
  cfg_mov_bounds cfg !! 0%nat = Some b0 ->
  cfg_mov_bounds cfg !! 1%nat = Some b1 ->
  exists w' : world,
    movie_frame a cfg w = (inr tt, w') /\
    omap screenshot_path (calls w') =
      omap screenshot_path (calls w) ++
      ((fun f => path_join (output a) (f +:+ ".png"))
         <$> sorted (glob (fid a))) /\
    next_id w' = (next_id w + length (glob (fid a)))%nat /\
    (forall p : handle,
       p ∈ shown w' <->
       p ∈ shown w \/
       (next_id w <= p < next_id w + length (glob (fid a)))%nat) /\
    paths w' = paths w.
Proof.
  intros H0 H1.
  set (w0 := if verbose a
             then set_stdout
                    (fun o => o ++ [[FNat (length (glob (fid a)));
                                     FStr " movie files found"]]) w
             else w).
  assert (Hsplit :
    movie_frame a cfg w =
    for_ (sorted (glob (fid a))) (movie_frame_round a cfg) w0).
  { subst w0. unfold movie_frame, movie_frame_round.
    unfold mbind at 1. unfold St_bind at 1.
    destruct (verbose a) eqn:Hv; reflexivity. }
  rewrite Hsplit.
  destruct (movie_frame_rounds a cfg b0 b1 (sorted (glob (fid a))) w0 H0 H1)
    as (w' & Hrun & Hc & Hn & Hs & _ & Hp).
  exists w'. split; [exact Hrun |].
  rewrite sorted_length in Hn, Hs.
  assert (Hw0 : calls w0 = calls w /\ next_id w0 = next_id w /\
                shown w0 = shown w /\ paths w0 = paths w)
    by (subst w0; destruct (verbose a); repeat split).
  destruct Hw0 as (E1 & E2 & E3 & E4).
  rewrite E1 in Hc. rewrite E2 in Hn, Hs. rewrite E3 in Hs. rewrite E4 in Hp.
  repeat split; try assumption; apply Hs.
Qed.

(** [movie_frame] saves one screenshot for every file the pattern
    matches, in the sorted order of the file names, each under the output
    directory joined with the file's path and ".png".  Every frame gets a
    reader of its own and none is hidden or deleted: when a frame is
    saved, the readers of all earlier frames are still visible. *)
Theorem movie_frame_saves_every_frame (a : args) (cfg : config) (b0 b1 : Q)
    (w : world) :
  cfg_mov_bounds cfg !! 0%nat = Some b0 ->
  cfg_mov_bounds cfg !! 1%nat = Some b1 ->
  exists w' : world,
    movie_frame a cfg w = (inr tt, w') /\
    omap screenshot_path (calls w') =
      omap screenshot_path (calls w) ++
      ((fun f => path_join (output a) (f +:+ ".png"))
         <$> sorted (glob (fid a))) /\
    next_id w' = (next_id w + length (glob (fid a)))%nat /\
    (forall p : handle,
       p ∈ shown w' <->
       p ∈ shown w \/
       (next_id w <= p < next_id w + length (glob (fid a)))%nat) /\
    paths w' = paths w.
Proof. apply movie_frame_run. Qed.
End MovieFrames.

Lemma movie_frame_saves_every_frame_witness :
  exists w' : world,
    movie_frame (checked demo_movie_args) demo_cfg
      (fresh_world ["config.py"]%string) = (inr tt, w') /\
    omap screenshot_path (calls w') =
      ["output/frames/it1.inp.png"; "output/frames/it2.inp.png"]%string.
Proof.
  destruct (movie_frame_saves_every_frame (checked demo_movie_args) demo_cfg
              (-1 # 10000) (1 # 10000) (fresh_world ["config.py"]%string))
    as (w' & Hrun & Hc & _); [reflexivity | reflexivity |].
  exists w'. split; [exact Hrun | exact Hc].
Defined.

Section MovieEdges.
Context {env : Env}.

(** The two edges of [movie_frame].  A pattern that matches nothing
    gives a run without any call to the host.  A configuration whose
    [mov_bounds] has fewer than two entries is found out only in the first
    round, after the first file (in sorted order) has been opened and
    shown: the run then raises [IndexError] and no screenshot is saved. *)
Theorem movie_frame_edges (a : args) (cfg : config) (w : world) :
  (glob (fid a) = [] ->
   exists w' : world,
     movie_frame a cfg w = (inr tt, w') /\ calls w' = calls w /\
     sources w' = sources w) /\
  (glob (fid a) <> [] ->
   (length (cfg_mov_bounds cfg) < 2)%nat ->
   exists w' : world,
     movie_frame a cfg w =
       (inl (IndexError "list index out of range"), w') /\
     next_id w' = S (next_id w) /\
     next_id w ∈ shown w' /\
     omap screenshot_path (calls w') = omap screenshot_path (calls w)).
Proof.
  split.
  - intros Hnone. unfold movie_frame. rewrite Hnone. cbn.
    unfold mbind, St_bind. destruct (verbose a); cbn; eexists; repeat split.
  - intros Hsome Hshort.
    assert (Hfirst : exists f rest, sorted (glob (fid a)) = f :: rest).
    { destruct (sorted (glob (fid a))) as [| f rest] eqn:Hs; [| eauto].
      exfalso. apply Hsome. apply length_zero_iff_nil.
      rewrite <- sorted_length, Hs. reflexivity. }
    destruct Hfirst as (f & rest & Hs).
    unfold movie_frame. rewrite Hs. cbn [for_].
    unfold SurfaceMovie__init__, AVSUCDReader, GetActiveView, Show,
      GetColorTransferFunction, GetOpacityTransferFunction, register, log,
      print, getitem.
    destruct (cfg_mov_bounds cfg) as [| b0 [| b1 more]]; cbn in Hshort;
      [| | lia];
      destruct (verbose a); run; cbn;
      (eexists; split; [reflexivity |]); cbn;
      rewrite !omap_app; cbn; rewrite !app_nil_r;
      repeat split; set_unfold; auto.
Qed.
End MovieEdges.

Lemma movie_frame_edges_witness :
  let cfg := Config None None false [2100; 2100] [] 4%Q in
  exists w' : world,
    movie_frame (checked demo_movie_args) cfg
      (fresh_world ["config.py"]%string) =
      (inl (IndexError "list index out of range"), w') /\
    next_id w' = 1%nat /\
    0%nat ∈ shown w' /\
    omap screenshot_path (calls w') = [].
Proof.
  apply (movie_frame_edges (checked demo_movie_args)
           (Config None None false [2100; 2100] [] 4%Q)
           (fresh_world ["config.py"]%string)).
  - discriminate.
  - cbn. lia.
Defined.

(** ** A whole run *)

Section WholeRun.
Context {env : Env}.


End WholeRun.


(** ** Rulers, text and glyphs *)

Section ThingsProperties.
Context `{Env}.
Variable to_rgb : string -> exn + Q * Q * Q.
Variable rejects : world -> attr -> value -> option exn.

Lemma setattr_outcome (k : attr) (v : value) (s : store * world) :
  (exists e : exn, setattr rejects k v s = (inl e, s)) \/
  setattr rejects k v s = (inr tt, (<[k := v]> s.1, s.2)).
Proof.
  unfold setattr. run. destruct (rejects s.2 k v) as [e |].
  - left. exists e. reflexivity.
  - right. reflexivity.
Qed.

Lemma only_adds_ret {A} (a : A) : only_adds (mret a).
Proof.
  intros s. cbn. split; [exists []; rewrite app_nil_r; reflexivity |].
  split; [set_unfold; tauto | reflexivity].
Qed.

Lemma only_adds_raise {A} (e : exn) : only_adds (raise e : Thing A).
Proof. exact (only_adds_ret tt). Qed.

Lemma only_adds_lift {A} (r : exn + A) : only_adds (lift r : Thing A).
Proof. exact (only_adds_ret tt). Qed.

Lemma only_adds_bind {A B : Type} (m : Thing A) (k : A -> Thing B) :
  only_adds m -> (forall a : A, only_adds (k a)) -> only_adds (m ≫= k).
Proof.
  intros Hm Hk s. specialize (Hm s). unfold mbind, St_bind.
  destruct (m s) as [[e | a] s1]; [exact Hm |].
  destruct Hm as ([l Hl] & Hshown & Hpaths).
  destruct (Hk a s1) as ([l' Hl'] & Hshown' & Hpaths'). cbn in *.
  split; [| split].
  - exists (l ++ l'). rewrite Hl', Hl, app_assoc. reflexivity.
  - set_unfold. auto.
  - rewrite Hpaths', Hpaths. reflexivity.
Qed.

Lemma only_adds_assert (c : bool) (msg : string) :
  only_adds (assert_ c msg : Thing unit).
Proof. destruct c; exact (only_adds_ret tt). Qed.

Lemma only_adds_setattr (k : attr) (v : value) :
  only_adds (setattr rejects k v).
Proof.
  intros s. destruct (setattr_outcome k v s) as [[e ->] | ->]; cbn;
    (split; [exists []; rewrite app_nil_r; reflexivity |]);
    (split; [set_unfold; tauto | reflexivity]).
Qed.

Lemma only_adds_in_host {A} (m : M A) :
  (forall w : world,
     (exists l, sources (m w).2 = sources w ++ l) /\
     shown w ⊆ shown (m w).2 /\ paths (m w).2 = paths w) ->
  only_adds (in_host m).
Proof.
  intros Hm [st w]. unfold in_host. cbn. specialize (Hm w).
  destruct (m w) as [r w']. exact Hm.
Qed.

Lemma only_adds_register (name : string) : only_adds (in_host (register name)).
Proof.
  apply only_adds_in_host. intros w. cbn.
  split; [eexists; reflexivity |]. split; [set_unfold; tauto | reflexivity].
Qed.

Lemma only_adds_GetActiveView : only_adds (in_host GetActiveView).
Proof.
  apply only_adds_in_host. intros w. cbn.
  split; [exists []; rewrite app_nil_r; reflexivity |].
  split; [set_unfold; tauto | reflexivity].
Qed.

Lemma only_adds_Show (p : handle) (r : option string) :
  only_adds (in_host (Show p r)).
Proof.
  apply only_adds_in_host. intros w. cbn.
  split; [exists []; rewrite app_nil_r; reflexivity |].
  split; [set_unfold; tauto | reflexivity].
Qed.

Lemma only_adds_Hide3DWidgets (p : handle) :
  only_adds (in_host (Hide3DWidgets p)).
Proof.
  apply only_adds_in_host. intros w. cbn.
  split; [exists []; rewrite app_nil_r; reflexivity |].
  split; [set_unfold; tauto | reflexivity].
Qed.

Lemma only_adds_set_inputs (f : gmap handle handle -> gmap handle handle) :
  only_adds (in_host (modify (set_inputs f))).
Proof.
  apply only_adds_in_host. intros w. cbn.
  split; [exists []; rewrite app_nil_r; reflexivity |].
  split; [set_unfold; tauto | reflexivity].
Qed.

Lemma only_adds_OpenDataFile (fid : string) :
  only_adds (in_host (OpenDataFile fid)).
Proof.
  apply only_adds_in_host. intros w.
  unfold OpenDataFile, register, log. run. cbn.
  destruct (bool_decide (fid ∈ paths w)), (has_reader fid); cbn.
  2-4: split; [exists []; rewrite app_nil_r; reflexivity |];
       split; [set_unfold; tauto | reflexivity].
  split; [eexists; reflexivity |]. split; [set_unfold; tauto | reflexivity].
Qed.

Ltac only_adds_step :=
  lazymatch goal with
  | |- only_adds (mbind _ _) => apply only_adds_bind; [| intros ?; cbn beta]
  | |- only_adds (mret _) => apply only_adds_ret
  | |- only_adds (lift _) => apply only_adds_lift
  | |- only_adds (assert_ _ _) => apply only_adds_assert
  | |- only_adds (setattr _ _ _) => apply only_adds_setattr
  | |- only_adds (in_host (register _)) => apply only_adds_register
  | |- only_adds (in_host GetActiveView) => apply only_adds_GetActiveView
  | |- only_adds (in_host (Show _ _)) => apply only_adds_Show
  | |- only_adds (in_host (Hide3DWidgets _)) => apply only_adds_Hide3DWidgets
  | |- only_adds (in_host (modify (set_inputs _))) =>
      apply only_adds_set_inputs
  | |- only_adds (in_host (OpenDataFile _)) => apply only_adds_OpenDataFile
  | |- only_adds (if ?b then _ else _) => destruct b
  | |- only_adds (match ?o with OriginPoint _ => _ | OriginFile _ => _ end) =>
      destruct o
  end.

Lemma only_adds_point_source (origin : list Q) (reg_name : string) :
  only_adds (point_source rejects origin reg_name).
Proof. unfold point_source, PointSource. repeat only_adds_step. Qed.

(** Whatever their arguments and whatever the host accepts, and whether
    they return or raise, [ruler], [text], [point_source] and [glyphs]
    only add: the sources registered before stay registered in the same
    order, what the view showed is still shown, and no file is made. *)
Theorem things_only_add :
  (forall start end_ label graduation ticknum axis_color font_color
          justification reg_name line_width fontsize,
     only_adds (ruler to_rgb rejects start end_ label graduation ticknum
                  axis_color font_color justification reg_name line_width
                  fontsize)) /\
  (forall s position fontsize color bold justification reg_name,
     only_adds (text to_rgb rejects s position fontsize color bold
                  justification reg_name)) /\
  (forall origin reg_name,
     only_adds (point_source rejects origin reg_name)) /\
  (forall origin type_ twod size linewidth rotate show filled opacity
          position color representation_type reg_name,
     only_adds (glyphs to_rgb rejects origin type_ twod size linewidth
                  rotate show filled opacity position color
                  representation_type reg_name)).
Proof.
  split; [| split; [| split]]; intros.
  - unfold ruler, Ruler. repeat only_adds_step.
  - unfold text, Text. repeat only_adds_step.
  - apply only_adds_point_source.
  - unfold glyphs, Glyph. repeat only_adds_step;
      apply only_adds_point_source.
Qed.

(** [ruler] checks that a graduation or a tick number is given only
    after it has created the ruler.  Called with neither, it always
    raises, and the ruler it created stays registered under [reg_name];
    when the host accepts the assignments to the new ruler, the
    exception is the assertion's, and by then the ruler has its two end
    points and its label and is shown in the view. *)
Theorem ruler_asserts_after_creating (start end_ : list Q)
    (label axis_color font_color justification reg_name : string)
    (line_width : Q) (fontsize : Z) (s : store * world) :
  exists (e : exn) (s' : store * world),
    ruler to_rgb rejects start end_ label None None axis_color font_color
      justification reg_name line_width fontsize s = (inl e, s') /\
    sources s'.2 = sources s.2 ++ [(reg_name, next_id s.2)] /\
    ((forall w k v, k.1.2 = next_id s.2 -> rejects w k v = None) ->
     e = AssertionError "Ruler requires graduation or ticknum" /\
     next_id s.2 ∈ shown s'.2 /\
     s'.1 !! of_source (next_id s.2) "Point1" = Some (VFloats start) /\
     s'.1 !! of_source (next_id s.2) "Point2" = Some (VFloats end_) /\
     s'.1 !! of_display (next_id s.2) "LabelFormat" = Some (VStr label)).
Proof.
  destruct s as [st w].
  unfold ruler, Ruler, register, in_host, GetActiveView, Show, log, setattr.
  run. cbn.
  repeat match goal with
  | |- context [rejects ?w0 ?k ?v] =>
      destruct (rejects w0 k v) eqn:?; cbn
  end.
  all: eexists _, _; split; [reflexivity |]; split; [reflexivity |].
  all: intros Hacc.
  all: try match goal with
       | Hr : rejects _ _ _ = Some _ |- _ =>
           rewrite Hacc in Hr by reflexivity; discriminate
       end.
  cbn. split; [reflexivity |]. split; [set_unfold; auto |].
  unfold of_source, of_display.
  split; [| split];
    repeat first [ rewrite lookup_insert_eq; reflexivity
                 | rewrite lookup_insert_ne by congruence ].
Qed.

Lemma ruler_run (start end_ : list Q) (label : string)
    (graduation : option Q) (ticknum : option Z)
    (axis_color font_color justification reg_name : string)
    (line_width : Q) (fontsize : Z) (s s' : store * world) (r d : handle) :
  ruler to_rgb rejects start end_ label graduation ticknum axis_color
    font_color justification reg_name line_width fontsize s
    = (inr (r, d), s') ->
  r = next_id s.2 /\ d = r /\
  sources s'.2 = sources s.2 ++ [(reg_name, r)] /\
  shown s'.2 = {[r]} ∪ shown s.2 /\
  (graduation <> None \/ ticknum <> None) /\
  (forall n : Z, ticknum = Some n -> n <> 0 ->
     s'.1 !! of_display d "NumberOfTicks" = Some (VInt n) /\
     s'.1 !! of_display d "RulerMode" = s.1 !! of_display d "RulerMode" /\
     s'.1 !! of_display d "Graduation" = s.1 !! of_display d "Graduation") /\
  (ticknum = None \/ ticknum = Some 0 ->
     s'.1 !! of_display d "RulerMode" = Some (VInt 1) /\
     s'.1 !! of_display d "Graduation" = Some (number graduation) /\
     s'.1 !! of_display d "NumberOfTicks" =
       s.1 !! of_display d "NumberOfTicks").
Proof.
  destruct s as [st w].
  unfold ruler, Ruler, register, in_host, GetActiveView, Show,
    Hide3DWidgets, log, setattr.
  assert (Hcases : (ticknum = None /\ graduation = None) \/
                   (ticknum = None /\ graduation <> None) \/
                   ticknum = Some 0 \/
                   (exists n, ticknum = Some n /\ n <> 0)).
  { destruct ticknum as [n |]; [destruct (decide (n = 0)) as [-> | Hn] |];
      [auto | eauto 6 | destruct graduation; [right; left | left]; auto]. }
  destruct Hcases as [[-> ->] | [[-> Hg] | [-> | (n & -> & Hn)]]].
  2: destruct graduation as [g |]; [| contradiction].
  4: unfold truthy_int; rewrite (proj2 (Z.eqb_neq n 0) Hn).
  all: rewrite ?orb_true_r.
  all: run; cbn.
  all: repeat match goal with
       | |- context [rejects ?w0 ?k ?v] =>
           destruct (rejects w0 k v) eqn:?; cbn; [intros; discriminate |]
       | |- context [to_rgb ?c] =>
           destruct (to_rgb c) eqn:?; cbn; [intros; discriminate |]
       end.
  all: intros Hrun; try discriminate.
  all: simplify_eq; cbn.
  all: unfold of_source, of_display.
  all: split; [reflexivity |]; split; [reflexivity |].
  all: split; [reflexivity |]; split; [reflexivity |].
  all: split; [first [left; congruence | right; congruence] |].
  all: split; [intros m Hm Hm0 | intros Hm].
  all: try (destruct Hm as [Hm | Hm]); simplify_eq; try contradiction.
  all: split; [| split];
    repeat first [ rewrite lookup_insert_eq
                 | rewrite lookup_insert_ne by congruence ];
    reflexivity.
Qed.

(** The tick mode of a ruler that [ruler] returns.  A graduation or a
    tick number was given.  A tick number other than 0 sets the number
    of ticks and leaves the ruler mode and the graduation as they were,
    whatever graduation was passed; a tick number of 0 counts as none:
    the ruler is put in graduation mode with the graduation passed,
    which is [None] when none was. *)
Theorem ruler_tick_mode (start end_ : list Q) (label : string)
    (graduation : option Q) (ticknum : option Z)
    (axis_color font_color justification reg_name : string)
    (line_width : Q) (fontsize : Z) (s s' : store * world) (r d : handle) :
  ruler to_rgb rejects start end_ label graduation ticknum axis_color
    font_color justification reg_name line_width fontsize s
    = (inr (r, d), s') ->
  (graduation <> None \/ ticknum <> None) /\
  (forall n : Z, ticknum = Some n -> n <> 0 ->
     s'.1 !! of_display d "NumberOfTicks" = Some (VInt n) /\
     s'.1 !! of_display d "RulerMode" = s.1 !! of_display d "RulerMode" /\
     s'.1 !! of_display d "Graduation" = s.1 !! of_display d "Graduation") /\
  (ticknum = None \/ ticknum = Some 0 ->
     s'.1 !! of_display d "RulerMode" = Some (VInt 1) /\
     s'.1 !! of_display d "Graduation" = Some (number graduation) /\
     s'.1 !! of_display d "NumberOfTicks" =
       s.1 !! of_display d "NumberOfTicks").
Proof.
  intros Hrun. apply ruler_run in Hrun as (_ & _ & _ & _ & Hrun).
  exact Hrun.
Qed.

(** A ruler is a temporary object of the kind the loop of
    [delete_objects] looks for.  In a session whose sources have
    distinct handles, all older than the next one, a ruler made by
    [ruler] under a name that contains one of the identifiers is
    removed again by the loop run over the names of the registered
    sources, together with the other temporary objects; what remains
    are the sources that were registered before and are not
    temporary. *)
Theorem ruler_is_deleted_again (names : list string) (start end_ : list Q)
    (label : string) (graduation : option Q) (ticknum : option Z)
    (axis_color font_color justification reg_name : string)
    (line_width : Q) (fontsize : Z) (s s' : store * world) (r d : handle) :
  ruler to_rgb rejects start end_ label graduation ticknum axis_color
    font_color justification reg_name line_width fontsize s
    = (inr (r, d), s') ->
  NoDup ((sources s.2).*2) ->
  Forall (fun k => (k.2 < next_id s.2)%nat) (sources s.2) ->
  is_temporary names (reg_name, r) ->
  (delete_loop names ((sources s'.2).*1) s'.2).1 = inr tt /\
  sources (delete_loop names ((sources s'.2).*1) s'.2).2 =
    filter (fun k => ~ is_temporary names k) (sources s.2).
Proof.
  intros Hrun Hnd Hold Htmp.
  apply ruler_run in Hrun as (-> & _ & Hsrc & _).
  destruct (delete_loop_sources names (sources s'.2) [] s'.2) as [Hr Hs];
    [reflexivity | constructor | |].
  - cbn [app]. rewrite Hsrc, fmap_app. apply NoDup_app.
    split; [exact Hnd |]. split; [| apply NoDup_singleton].
    intros x Hx Hin. cbn in Hin. apply list_elem_of_singleton in Hin. subst x.
    apply list_elem_of_fmap in Hx as (k & Hk & Hin).
    rewrite Forall_forall in Hold. specialize (Hold k Hin). lia.
  - split; [exact Hr |]. rewrite Hs. cbn [app]. rewrite Hsrc, filter_app.
    rewrite filter_cons_False by (intros Hn; apply Hn; exact Htmp).
    rewrite filter_nil, app_nil_r. reflexivity.
Qed.

(** What [glyphs] leaves behind when it returns.  It registers two
    sources: first its input, a point source under the fixed name
    "point" or a reader of the file, and then the glyph under
    [reg_name], with the input as its input; of the two only the glyph
    is added to the view.  The 2D marker [twod] is assigned only for the
    type "2D Glyph", and then also when it is [None]. *)
Theorem glyphs_registers (origin : glyph_origin) (type_ : string)
    (twod : option string) (size linewidth : Q) (rotate : list Q)
    (show : string) (filled : Z) (opacity : Q) (position : list Q)
    (color representation_type reg_name : string) (s s' : store * world) :
  glyphs to_rgb rejects origin type_ twod size linewidth rotate show filled
    opacity position color representation_type reg_name s = (inr tt, s') ->
  sources s'.2 =
    sources s.2 ++
    [(match origin with
      | OriginPoint _ => "point"%string
      | OriginFile fid => reader_name fid
      end, next_id s.2);
     (reg_name, S (next_id s.2))] /\
  inputs s'.2 !! S (next_id s.2) = Some (next_id s.2) /\
  shown s'.2 = {[S (next_id s.2)]} ∪ shown s.2 /\
  (type_ = "2D Glyph"%string ->
   s'.1 !! of_source (S (next_id s.2)) "GlyphType.GlyphType" =
     Some (text_or_none twod)) /\
  (type_ <> "2D Glyph"%string ->
   s'.1 !! of_source (S (next_id s.2)) "GlyphType.GlyphType" =
     s.1 !! of_source (S (next_id s.2)) "GlyphType.GlyphType").
Proof.
  destruct s as [st w].
  unfold glyphs, Glyph, point_source, PointSource, OpenDataFile, register,
    in_host, GetActiveView, Show, log, setattr.
  destruct (decide (type_ = "2D Glyph"%string)) as [Ht | Ht];
    [rewrite (bool_decide_eq_true_2 _ Ht)
    | rewrite (bool_decide_eq_false_2 _ Ht)].
  all: destruct origin as [p | fid].
  all: run; cbn.
  all: repeat match goal with
       | |- context [bool_decide (?f ∈ paths ?w0)] =>
           destruct (bool_decide (f ∈ paths w0)) eqn:?; cbn;
           [| intros; discriminate]
       | |- context [has_reader ?f] =>
           destruct (has_reader f) eqn:?; cbn; [| intros; discriminate]
       | |- context [rejects ?w0 ?k ?v] =>
           destruct (rejects w0 k v) eqn:?; cbn; [intros; discriminate |]
       | |- context [to_rgb ?c] =>
           destruct (to_rgb c) eqn:?; cbn; [intros; discriminate |]
       end.
  all: intros Hrun; simplify_eq; cbn.
  all: unfold of_source, of_display.
  all: split; [rewrite <- app_assoc; reflexivity |].
  all: split; [apply lookup_insert_eq |].
  all: split; [reflexivity |].
  all: split; intros Ht'; try contradiction.
  all: repeat first [ rewrite lookup_insert_eq
                    | rewrite lookup_insert_ne by congruence ];
    reflexivity.
Qed.

(** [text] converts the colour only after it has created and shown the
    text.  With a colour [to_rgb] does not know it always raises, the
    text stays registered under [reg_name], and neither its colour nor
    its justification has been assigned; when the host accepts the
    assignments, the exception is the one of [to_rgb], and by then the
    text has its string, is shown, and has its position, weight and font
    size. *)
Theorem text_unknown_color (str : string) (position : list Q) (fontsize : Z)
    (color : string) (bold : bool) (justification reg_name : string)
    (e : exn) (s : store * world) :
  to_rgb color = inl e ->
  exists (e' : exn) (s' : store * world),
    text to_rgb rejects str position fontsize color bold justification
      reg_name s = (inl e', s') /\
    sources s'.2 = sources s.2 ++ [(reg_name, next_id s.2)] /\
    s'.1 !! of_display (next_id s.2) "Color" =
      s.1 !! of_display (next_id s.2) "Color" /\
    s'.1 !! of_display (next_id s.2) "Justification" =
      s.1 !! of_display (next_id s.2) "Justification" /\
    ((forall w k v, k.1.2 = next_id s.2 -> rejects w k v = None) ->
     e' = e /\
     next_id s.2 ∈ shown s'.2 /\
     s'.1 !! of_source (next_id s.2) "Text" = Some (VStr str) /\
     s'.1 !! of_display (next_id s.2) "Position" = Some (VFloats position) /\
     s'.1 !! of_display (next_id s.2) "Bold" = Some (VInt (Z.b2z bold)) /\
     s'.1 !! of_display (next_id s.2) "FontSize" = Some (VInt fontsize)).
Proof.
  intros Hrgb. destruct s as [st w].
  unfold text, Text, register, in_host, GetActiveView, Show, log, setattr.
  rewrite Hrgb. run. cbn.
  repeat match goal with
  | |- context [rejects ?w0 ?k ?v] =>
      destruct (rejects w0 k v) eqn:?; cbn
  end.
  all: eexists _, _; split; [reflexivity |]; split; [reflexivity |].
  all: cbn [fst snd]; unfold of_source, of_display.
  all: split;
    [repeat first [ rewrite lookup_insert_eq
                  | rewrite lookup_insert_ne by congruence ]; reflexivity |].
  all: split;
    [repeat first [ rewrite lookup_insert_eq
                  | rewrite lookup_insert_ne by congruence ]; reflexivity |].
  all: intros Hacc.
  all: try match goal with
       | Hr : rejects _ _ _ = Some _ |- _ =>
           rewrite Hacc in Hr by reflexivity; discriminate
       end.
  cbn. split; [reflexivity |]. split; [set_unfold; auto |].
  split; [| split; [| split]];
    repeat first [ rewrite lookup_insert_eq
                 | rewrite lookup_insert_ne by congruence ];
    reflexivity.
Qed.
End ThingsProperties.

Lemma run_returns {S A : Type} (m : St S A) (s : S) (a : A) :
  (m s).1 = inr a -> m s = (inr a, (m s).2).
Proof. destruct (m s) as [r s']. cbn. intros ->. reflexivity. Qed.

Lemma ruler_tick_mode_witness :
  let out :=
    ruler demo_to_rgb accepts_all [0; 0; 0]%Q [1000; 0; 0]%Q "%6.0f m" None
      (Some 0) "k" "k" "left" "ruler" 3%Q 12 (∅, fresh_world []) in
  out.2.1 !! of_display 0%nat "RulerMode" = Some (VInt 1) /\
  out.2.1 !! of_display 0%nat "Graduation" = Some VNone.
Proof.
  intros out.
  destruct (ruler_tick_mode demo_to_rgb accepts_all [0; 0; 0]%Q
              [1000; 0; 0]%Q "%6.0f m" None (Some 0) "k" "k" "left" "ruler"
              3%Q 12 (∅, fresh_world []) out.2 0%nat 0%nat)
    as (_ & _ & Hzero).
  - subst out. apply run_returns. vm_compute. reflexivity.
  - destruct Hzero as (Hmode & Hgrad & _); [right; reflexivity |].
    split; [exact Hmode | exact Hgrad].
Defined.

Lemma ruler_is_deleted_again_witness :
  let w := set_next_id 1%nat
             (set_sources (fun _ => [("model.vtk"%string, 0%nat)])
                (fresh_world [])) in
  let out :=
    ruler demo_to_rgb accepts_all [0; 0; 0]%Q [1000; 0; 0]%Q "" (Some 250%Q)
      None "k" "k" "Left" "ruler" 3%Q 12 (∅, w) in
  sources
    (delete_loop ["ruler"; "point"; "glyph"]%string
       ((sources out.2.2).*1) out.2.2).2 = [("model.vtk"%string, 0%nat)].
Proof.
  intros w out.
  destruct (ruler_is_deleted_again demo_to_rgb accepts_all
              ["ruler"; "point"; "glyph"]%string [0; 0; 0]%Q [1000; 0; 0]%Q
              "" (Some 250%Q) None "k" "k" "Left" "ruler" 3%Q 12 (∅, w)
              out.2 1%nat 1%nat) as [_ Hsrc].
  - subst out. apply run_returns. vm_compute. reflexivity.
  - cbn. apply NoDup_singleton.
  - cbn. repeat constructor.
  - cbn. eexists. reflexivity.
  - exact Hsrc.
Defined.

Lemma glyphs_registers_witness :
  let out :=
    glyphs demo_to_rgb accepts_all (OriginPoint [100; 200; 0]%Q) "2D Glyph"
      None 3%Q 2%Q [0; 0; 0]%Q "All Points" 1 1%Q [0; 0; 0]%Q "k"
      "Surface With Edges" "epicentre" (∅, fresh_world []) in
  sources out.2.2 = [("point"%string, 0%nat); ("epicentre"%string, 1%nat)] /\
  out.2.1 !! of_source 1%nat "GlyphType.GlyphType" = Some VNone.
Proof.
  intros out.
  destruct (glyphs_registers demo_to_rgb accepts_all
              (OriginPoint [100; 200; 0]%Q) "2D Glyph" None 3%Q 2%Q
              [0; 0; 0]%Q "All Points" 1 1%Q [0; 0; 0]%Q "k"
              "Surface With Edges" "epicentre" (∅, fresh_world []) out.2)
    as (Hsrc & _ & _ & Htwod & _).
  - subst out. apply run_returns. vm_compute. reflexivity.
  - split; [exact Hsrc | exact (Htwod eq_refl)].
Defined.

Lemma cartesian_saves_to_fid_out_witness :
  let w := fresh_world ["model.vtk"; "config.py"; "output"]%string in
  exists l : list call,
    calls (cartesian (checked demo_args) demo_cfg w).2 =
      l ++ [CResetCamera; CGetActiveView;
            CSaveScreenshot "output/model.vtk.png" [2100; 2100] true].
Proof.
  intros w.
  apply (cartesian_saves_to_fid_out (checked demo_args) demo_cfg
           "model.vtk.png" w (cartesian (checked demo_args) demo_cfg w).2).
  - reflexivity.
  - apply run_returns. vm_compute. reflexivity.
Defined.

Lemma delete_loop_removes_matching_witness :
  let w := set_next_id 3%nat
             (set_sources
                (fun _ => [("ruler"%string, 0%nat); ("model.vtk"%string, 1%nat);
                           ("glyph_1"%string, 2%nat)])
                (fresh_world [])) in
  (delete_loop ["ruler"; "point"; "glyph"]%string ((sources w).*1) w).1
    = inr tt /\
  sources (delete_loop ["ruler"; "point"; "glyph"]%string
             ((sources w).*1) w).2 = [("model.vtk"%string, 1%nat)].
Proof.
  intros w.
  apply (delete_loop_removes_matching ["ruler"; "point"; "glyph"]%string w).
  apply (bool_decide_unpack _). vm_compute. exact I.
Defined.

Lemma text_unknown_color_witness :
  exists (e' : exn) (s' : store * world),
    text demo_to_rgb accepts_all "Mw 7.8" [1 # 2; 9 # 10]%Q 12 "navy" true
      "center" "text" (∅, fresh_world []) = (inl e', s') /\
    sources s'.2 = [("text"%string, 0%nat)] /\
    s'.1 !! of_display 0%nat "Color" = None /\
    e' = ValueError "Invalid RGBA argument: navy".
Proof.
  destruct (text_unknown_color demo_to_rgb accepts_all "Mw 7.8"
              [1 # 2; 9 # 10]%Q 12 "navy" true "center" "text"
              (ValueError "Invalid RGBA argument: navy")
              (∅, fresh_world []))
    as (e' & s' & Hrun & Hsrc & Hcolor & _ & Hacc).
  - vm_compute. reflexivity.
  - exists e', s'. split; [exact Hrun |]. split; [exact Hsrc |].
    split; [exact Hcolor |]. apply Hacc. reflexivity.
Defined.
